(** * Concurrency code samples: batch runners under four execution strategies

    A shallow embedding of the Python modules [Concurrency],
    [URLDownloadSynchronous], [URLDownloadMultiThreaded] and
    [URLDownloadAsyncIO].

    The Python code is effectful: it opens network sessions, issues GET
    requests, prints, and hands work to thread pools, process pools and an
    event loop.  The embedding threads an explicit interpreter state through
    a small state-and-exception monad.  The state records a trace of the
    observable actions, each tagged with the thread or process that performed
    it.  The scheduler of a pool or of the event loop is an input of the
    model (a list of decisions), so that every statement about a concurrent
    runner quantifies over all schedules and every runner still computes. *)

From Stdlib Require Import ZArith List String Lia.
From stdpp Require Import base numbers list strings gmap pretty.
Import ListNotations.
Open Scope string_scope.
Open Scope list_scope.

(** ** Python values, exceptions and observable actions *)

(** The Python values that cross a function boundary in these modules. *)
Inductive pyval : Type :=
| PyNone
| PyInt (z : Z)
| PyStr (s : string).

(** The exceptions that the modelled code can meet. *)
Inductive exn : Type :=
| ConnectionError (url : string)   (* raised by session.get(url) *)
| AttributeError (attr : string)   (* attribute access on None / missing attribute *)
| EOFError.                        (* input() at end of input *)

Inductive outcome (A : Type) : Type :=
| Returned (a : A)
| Raised (e : exn).
Arguments Returned {A} a.
Arguments Raised {A} e.

(** What a successful GET gives back: [len(response.content)] as used with
    requests, and [response.content_length] (the optional Content-Length
    header) as used with aiohttp. *)
Record Response : Type := mkResponse {
  content_len : nat;
  content_length : option nat
}.

(** Observable actions.  [Enter_downloadSite] and [Enter_sumOfSquares] mark
    the entry into the two per-item work functions; the others are the
    effects the code performs. *)
Inductive event : Type :=
| Enter_downloadSite (url : string)
| Enter_sumOfSquares (number : Z)
| NewSession (sid : nat)              (* requests.Session() / aiohttp.ClientSession() *)
| CloseSession (sid : nat)            (* __exit__ of the session's with block *)
| HttpGet (sid : nat) (url : string)  (* session.get(url) *)
| Print (line : string)               (* print(line) *)
| Input (prompt : string)             (* input(prompt) *)
| CreateTask (url : string)           (* asyncio.ensure_future(downloadSite(session, url)) *)
| AwaitGather (ntasks : nat).         (* await asyncio.gather over all the tasks *)

(** The interpreter state.  Threads of one process share it; the module
    global [session] of [Concurrency] exists once per process, hence the map
    from process to its value. *)
Record State : Type := mkState {
  trace : list (nat * event);       (* actions so far, oldest first, with their thread or process *)
  next_sid : nat;                   (* identity of the next session object *)
  threadLocal_session : gmap nat nat;   (* threadLocal.session, per thread; absent = no attribute *)
  global_session : gmap nat nat         (* Concurrency.session, per process; absent = None *)
}.

Definition initial_state : State := mkState [] 0 ∅ ∅.

(** The main thread of the main process; pool workers are numbered from 1. *)
Definition main_thread : nat := 0.
Definition worker_ident (w : nat) : nat := S w.

(** ** The state-and-exception monad

    A computation runs in a thread or process [me], from a state, to a new
    state and either a returned value or a raised exception. *)
Definition M (A : Type) : Type := nat -> State -> State * outcome A.

Definition ret {A} (a : A) : M A := fun _ s => (s, Returned a).

Definition raise {A} (e : exn) : M A := fun _ s => (s, Raised e).

Definition bind {A B} (m : M A) (k : A -> M B) : M B :=
  fun me s =>
    match m me s with
    | (s', Returned a) => k a me s'
    | (s', Raised e) => (s', Raised e)
    end.

Declare Scope py_scope.
Delimit Scope py_scope with py.
Notation "x <- c1 ;; c2" := (bind c1 (fun x => c2))
  (at level 100, c1 at next level, right associativity) : py_scope.
Notation "c1 ;; c2" := (bind c1 (fun _ => c2))
  (at level 100, right associativity) : py_scope.
Open Scope py_scope.

(** [try: m finally: cleanup], the exit path of a [with] block whose
    [__exit__] does not swallow the exception. *)
Definition finally {A} (m : M A) (cleanup : M unit) : M A :=
  fun me s =>
    match m me s with
    | (s', r) =>
        match cleanup me s' with
        | (s'', Returned _) => (s'', r)
        | (s'', Raised e) => (s'', Raised e)
        end
    end.

(** [for x in l: body(x)]: the value of the body is dropped; an exception
    raised by the body ends the loop and propagates. *)
Fixpoint for_each {A B} (body : A -> M B) (l : list A) : M unit :=
  match l with
  | [] => ret tt
  | x :: l' => body x ;; for_each body l'
  end.

(** [list(map(func, l))]: the calls are made in order and the first
    exception ends the evaluation. *)
Fixpoint list_map {A B} (func : A -> M B) (l : list A) : M (list B) :=
  match l with
  | [] => ret []
  | x :: l' => y <- func x ;; ys <- list_map func l' ;; ret (y :: ys)
  end.

Definition emit (ev : event) : M unit :=
  fun me s =>
    (mkState (trace s ++ [(me, ev)]) (next_sid s)
             (threadLocal_session s) (global_session s), Returned tt).

Definition print (line : string) : M unit := emit (Print line).

(** [requests.Session()] and [aiohttp.ClientSession()]: a fresh object. *)
Definition new_session : M nat :=
  fun me s =>
    let sid := next_sid s in
    (mkState (trace s ++ [(me, NewSession sid)]) (S sid)
             (threadLocal_session s) (global_session s), Returned sid).

Definition close_session (sid : nat) : M unit := emit (CloseSession sid).

(** [with requests.Session() as session: body] *)
Definition with_session {A} (body : nat -> M A) : M A :=
  session <- new_session ;; finally (body session) (close_session session).

Definition nl : string := String (Ascii.ascii_of_nat 10) EmptyString.

(** [l * n] on a Python list: [n] copies of [l], one after the other. *)
Definition list_times {A} (l : list A) (n : nat) : list A := mjoin (replicate n l).

(** The workload every download test builds. *)
Definition two_urls : list string :=
  ["https://www.jython.org"; "http://olympus.realpython.org/dice"].

Section Network.

(** The network: the response to a GET of a URL, or [None] when the
    request raises. *)
Variable fetch : string -> option Response.

(** [session.get(url)] *)
Definition session_get (session : nat) (url : string) : M Response :=
  emit (HttpGet session url) ;;
  match fetch url with
  | Some response => ret response
  | None => raise (ConnectionError url)
  end.

End Network.

(** ** URLDownloadSynchronous.py *)
Module URLDownloadSynchronous.
Section WithNetwork.
Variable fetch : string -> option Response.

Definition downloadSite (url : string) (session : nat) : M pyval :=
  emit (Enter_downloadSite url) ;;
  response <- session_get fetch session url ;;
  print ("Read " +:+ pretty (content_len response) +:+ " from " +:+ url) ;;
  ret PyNone.

Definition downloadAllSites (sites : list string) : M pyval :=
  with_session (fun session =>
    for_each (fun url => downloadSite url session) sites) ;;
  ret PyNone.

Definition sites : list string := list_times two_urls 80.

(** The test function; [duration] is the text of the measured wall-clock
    time, which the clock decides. *)
Definition testConcurrency1IOBoundSynchronous (duration : string) : M pyval :=
  downloadAllSites sites ;;
  print (nl +:+ "PERFORMANCE: Downloaded " +:+ pretty (length sites)
            +:+ " in " +:+ duration +:+ " seconds") ;;
  ret PyNone.

End WithNetwork.
End URLDownloadSynchronous.

(** ** concurrent.futures.ThreadPoolExecutor

    [with ThreadPoolExecutor(max_workers=n) as executor: executor.map(fn, items)]
    submits one work item per element at once, lets at most [n] worker
    threads run them, and leaves the [with] block through
    [shutdown(wait=True)], that is when every work item has run.  A worker
    wraps the call of [fn] in try/except and stores the result or the
    exception in the item's future; the futures are only read through the
    iterator that [map] returns.

    A work item runs as one step.  One scheduler decision [(w, i)] lets
    worker [w] (modulo the number of workers) run the pending item at
    position [i] (modulo the number pending); when the decisions run out the
    first worker takes the items in queue order. *)
Module ThreadPoolExecutor.
Section Executor.
Context {Item : Type}.
Variable max_workers : nat.
Variable fn : Item -> M pyval.

(** The threads of a new executor are new: they have no thread-local
    attributes yet. *)
Definition worker_idents : list nat := List.map worker_ident (seq 0 max_workers).

Definition new_threads : M unit :=
  fun _ s =>
    (mkState (trace s) (next_sid s)
             (foldr delete (threadLocal_session s) worker_idents)
             (global_session s), Returned tt).

Fixpoint run (fuel : nat) (sched : list (nat * nat)) (pending : list Item)
    (futures : list (Item * outcome pyval)) (s : State)
    : State * list (Item * outcome pyval) :=
  match fuel with
  | 0 => (s, futures)
  | S fuel' =>
      let '(w, i) := hd (0, 0) sched in
      let i := i mod length pending in
      match pending !! i with
      | None => (s, futures)
      | Some item =>
          let '(s', r) := fn item (worker_ident (w mod max_workers)) s in
          run fuel' (tl sched) (delete i pending) (futures ++ [(item, r)]) s'
      end
  end.

(** The whole [with] block.  The value is the list of settled futures, in
    the order in which they were settled. *)
Definition map_and_shutdown (sched : list (nat * nat)) (items : list Item)
    : M (list (Item * outcome pyval)) :=
  new_threads ;;
  fun _ s =>
    let '(s', futures) := run (length items) sched items [] s in
    (s', Returned futures).

End Executor.
End ThreadPoolExecutor.

(** ** URLDownloadMultiThreaded.py *)
Module URLDownloadMultiThreaded.
Section WithNetwork.
Variable fetch : string -> option Response.

(** [hasattr(threadLocal, "session")] *)
Definition hasattr_threadLocal_session : M bool :=
  fun me s => (s, Returned (bool_decide (is_Some (threadLocal_session s !! me)))).

(** [threadLocal.session = session] *)
Definition set_threadLocal_session (session : nat) : M unit :=
  fun me s =>
    (mkState (trace s) (next_sid s)
             (<[me := session]> (threadLocal_session s))
             (global_session s), Returned tt).

(** [threadLocal.session] *)
Definition get_threadLocal_session : M nat :=
  fun me s =>
    match threadLocal_session s !! me with
    | Some session => (s, Returned session)
    | None => (s, Raised (AttributeError "session"))
    end.

Definition getSession : M nat :=
  has <- hasattr_threadLocal_session ;;
  (if negb has
   then session <- new_session ;; set_threadLocal_session session
   else ret tt) ;;
  get_threadLocal_session.

Definition downloadSite (url : string) : M pyval :=
  emit (Enter_downloadSite url) ;;
  session <- getSession ;;
  response <- session_get fetch session url ;;
  print ("Read " +:+ pretty (content_len response) +:+ " from " +:+ url) ;;
  ret PyNone.

Definition max_workers : nat := 5.

Definition downloadAllSites (sched : list (nat * nat)) (sites : list string)
    : M pyval :=
  ThreadPoolExecutor.map_and_shutdown max_workers downloadSite sched sites ;;
  ret PyNone.

Definition sites : list string := list_times two_urls 80.

Definition testConcurrency2IOBoundThreaded (sched : list (nat * nat))
    (duration : string) : M pyval :=
  downloadAllSites sched sites ;;
  print (nl +:+ "PERFORMANCE: Downloaded " +:+ pretty (length sites)
            +:+ " in " +:+ duration +:+ " seconds") ;;
  ret PyNone.

End WithNetwork.
End URLDownloadMultiThreaded.

(** ** asyncio

    A coroutine is either finished or waiting to be run up to its next
    suspension point.  A task that has just been created is a coroutine whose
    first stretch has not run yet.  The event loop runs on one thread: one
    iteration picks an unfinished task and runs it up to its next suspension
    point.  The scheduler decision [k] picks the unfinished task number [k]
    (modulo their number). *)
Module asyncio.

#[warnings="-register-all"]
Inductive coroutine : Type :=
| Done (r : outcome pyval)
| Await (resume : nat -> State -> State * coroutine).

Definition unfinished (c : coroutine) : bool :=
  match c with
  | Done _ => false
  | Await _ => true
  end.

Fixpoint advance_nth (k : nat) (tasks : list coroutine) (me : nat) (s : State)
    : State * list coroutine :=
  match tasks with
  | [] => (s, [])
  | Done r :: tasks' =>
      let '(s', tasks'') := advance_nth k tasks' me s in
      (s', Done r :: tasks'')
  | Await resume :: tasks' =>
      match k with
      | 0 => let '(s', c) := resume me s in (s', c :: tasks')
      | S k' =>
          let '(s', tasks'') := advance_nth k' tasks' me s in
          (s', Await resume :: tasks'')
      end
  end.

Fixpoint run_loop (iterations : nat) (sched : list nat) (tasks : list coroutine)
    (me : nat) (s : State) : State * list coroutine :=
  match iterations with
  | 0 => (s, tasks)
  | S iterations' =>
      let n := length (filter (fun c => unfinished c = true) tasks) in
      match n with
      | 0 => (s, tasks)
      | S _ =>
          let '(s', tasks') := advance_nth (hd 0 sched mod n) tasks me s in
          run_loop iterations' (tl sched) tasks' me s'
      end
  end.

(** [asyncio.ensure_future(coro)]: the task is handed to the event loop; it
    does not run before the caller suspends. *)
Definition ensure_future (url : string) (coro : coroutine) : M coroutine :=
  emit (CreateTask url) ;; ret coro.

(** [await asyncio.gather] with [return_exceptions=True]: the caller is
    suspended while the event loop runs the tasks; an exception of a task is
    the result of that task and is not raised in the caller.  The value is
    the list of the tasks at the end. *)
Definition gather_return_exceptions (iterations : nat) (sched : list nat)
    (tasks : list coroutine) : M (list coroutine) :=
  emit (AwaitGather (length tasks)) ;;
  fun me s =>
    let '(s', tasks') := run_loop iterations sched tasks me s in
    (s', Returned tasks').

End asyncio.

(** ** URLDownloadAsyncIO.py *)
Module URLDownloadAsyncIO.
Import asyncio.
Section WithNetwork.
Variable fetch : string -> option Response.

(** [str(response.content_length)] *)
Definition str_content_length (response : Response) : string :=
  match content_length response with
  | Some n => pretty n
  | None => "None"
  end.

(** [async def downloadSite], cut at its suspension point: the request is
    sent, the coroutine waits for the answer in [async with session.get(url)],
    and goes on with the response or with the exception of the request. *)
Definition downloadSite_resumed (url : string) : nat -> State -> State * coroutine :=
  fun me s =>
    match fetch url with
    | Some response =>
        let '(s', _) :=
          print ("Read " +:+ str_content_length response +:+ " from " +:+ url) me s in
        (s', Done (Returned PyNone))
    | None => (s, Done (Raised (ConnectionError url)))
    end.

Definition downloadSite_started (session : nat) (url : string)
    : nat -> State -> State * coroutine :=
  fun me s =>
    let '(s', _) :=
      (emit (Enter_downloadSite url) ;; emit (HttpGet session url)) me s in
    (s', Await (downloadSite_resumed url)).

Definition downloadSite (session : nat) (url : string) : coroutine :=
  Await (downloadSite_started session url).

(** A task of [downloadSite] is finished after two iterations of the loop. *)
Definition iterations_needed (sites : list string) : nat := 2 * length sites.

Definition downloadAllSites (sched : list nat) (sites : list string) : M pyval :=
  with_session (fun session =>
    tasks <- list_map (fun url => ensure_future url (downloadSite session url)) sites ;;
    gather_return_exceptions (iterations_needed sites) sched tasks) ;;
  ret PyNone.

Definition sites : list string := list_times two_urls 80.

(** [time.sleep(3)] passes time only and is left out. *)
Definition testConcurrency3IOBoundAsyncIO (sched : list nat) (duration : string)
    : M pyval :=
  downloadAllSites sched sites ;;
  print (nl +:+ "PERFORMANCE: Downloaded " +:+ pretty (length sites)
            +:+ " sites in " +:+ duration +:+ " seconds") ;;
  ret PyNone.

End WithNetwork.
End URLDownloadAsyncIO.

(** ** multiprocessing.Pool

    [with multiprocessing.Pool(initializer=init) as pool: pool.map(func, items)]
    starts [os.cpu_count() or 1] worker processes; a worker calls the
    initializer when it starts and then takes tasks.  [map] cuts the items
    into chunks, one task per chunk; a worker evaluates
    [list(map(func, chunk))] inside try/except and sends back the list or the
    exception.  [map] is ready when every chunk has been answered; it returns
    the results in the order of the items, or raises the first exception that
    was received.  Leaving the [with] block terminates the workers.

    A chunk runs as one step.  One scheduler decision [(w, i)] is about
    worker [w] (modulo the number of processes): a worker that has not
    started yet starts, a started worker takes the pending chunk at position
    [i] (modulo the number pending). *)
Module Pool.

(** [multiprocessing.get_start_method()]: how the processes of a pool come to
    be.  The platform decides: fork on Linux before Python 3.14, spawn on
    macOS and Windows, forkserver on Linux from Python 3.14 on. *)
Inductive start_method : Type :=
| fork
| spawn
| forkserver.

Section Pool.
Context {Item : Type}.
Variable cpu_count : nat.
Variable method : start_method.
Variable initializer : option (M pyval).
Variable func : Item -> M pyval.

(** [os.cpu_count() or 1] *)
Definition processes : nat :=
  match cpu_count with
  | 0 => 1
  | S _ => cpu_count
  end.

(** The chunk size that [_map_async] computes when none is given. *)
Definition default_chunksize (len : nat) : nat :=
  let chunksize := len / (processes * 4) in
  let extra := len mod (processes * 4) in
  let chunksize := if Nat.eqb extra 0 then chunksize else chunksize + 1 in
  if Nat.eqb len 0 then 0 else chunksize.

(** [_get_tasks]: slices of [size] items until the items run out. *)
Fixpoint get_tasks (fuel : nat) (it : list Item) (size : nat) : list (list Item) :=
  match fuel with
  | 0 => []
  | S fuel' =>
      match take size it with
      | [] => []
      | x => x :: get_tasks fuel' (drop size it) size
      end
  end.

Definition task_batches (items : list Item) : list (list Item) :=
  get_tasks (length items) items (default_chunksize (length items)).

Definition mapstar (chunk : list Item) : M (list pyval) := list_map func chunk.

Definition worker_idents : list nat := List.map worker_ident (seq 0 processes).

(** What a new worker process finds in the module global [session].  A
    forked worker is a copy of the process that makes the pool and finds what
    that process holds; a spawned worker, and one that the fork server makes,
    imports the module anew and finds what the import leaves: [None]. *)
Definition inherited (me : nat) (globals : gmap nat nat) : option nat :=
  match method with
  | fork => globals !! me
  | spawn | forkserver => None
  end.

(** The processes of a new pool are new: their module globals are those
    that the start method gives them.  (No code that runs in a worker of
    this program reads the thread-local state, which is left as it is.) *)
Definition new_processes : M unit :=
  fun me s =>
    (mkState (trace s) (next_sid s) (threadLocal_session s)
             (foldr (fun w globals =>
                       partial_alter (fun _ => inherited me (global_session s)) w globals)
                    (global_session s) worker_idents), Returned tt).

Definition start_worker (w : nat) (s : State) : State :=
  match initializer with
  | Some init => fst (init (worker_ident w) s)
  | None => s
  end.

Fixpoint run (fuel : nat) (sched : list (nat * nat)) (started : list nat)
    (pending : list (nat * list Item))
    (answers : list (nat * outcome (list pyval))) (s : State)
    : State * list (nat * outcome (list pyval)) :=
  match fuel with
  | 0 => (s, answers)
  | S fuel' =>
      let '(w, i) := hd (0, 0) sched in
      let w := w mod processes in
      if bool_decide (w ∈ started) then
        let i := i mod length pending in
        match pending !! i with
        | None => run fuel' (tl sched) started pending answers s
        | Some (j, chunk) =>
            let '(s', r) := mapstar chunk (worker_ident w) s in
            run fuel' (tl sched) started (delete i pending) (answers ++ [(j, r)]) s'
        end
      else
        run fuel' (tl sched) (w :: started) pending answers (start_worker w s)
  end.

Fixpoint first_exception (answers : list (nat * outcome (list pyval))) : option exn :=
  match answers with
  | [] => None
  | (_, Raised e) :: _ => Some e
  | (_, Returned _) :: answers' => first_exception answers'
  end.

Fixpoint answer_of (j : nat) (answers : list (nat * outcome (list pyval))) : list pyval :=
  match answers with
  | [] => []
  | (j', r) :: answers' =>
      if Nat.eqb j' j
      then match r with Returned ys => ys | Raised _ => [] end
      else answer_of j answers'
  end.

Definition index_tasks (tasks : list (list Item)) : list (nat * list Item) :=
  zip (seq 0 (length tasks)) tasks.

(** The whole [with] block.  The value is what [pool.map] returns. *)
Definition map_and_exit (sched : list (nat * nat)) (items : list Item)
    : M (list pyval) :=
  new_processes ;;
  fun _ s =>
    let tasks := task_batches items in
    let '(s', answers) :=
      run (processes + length tasks) sched [] (index_tasks tasks) [] s in
    match first_exception answers with
    | Some e => (s', Raised e)
    | None =>
        (s', Returned (flat_map (fun j => answer_of j answers) (seq 0 (length tasks))))
    end.

End Pool.
End Pool.

(** ** Concurrency.py *)
Module Concurrency.

(** [range(n)] and [sum(...)] on integers. *)
Definition range (n : Z) : list Z := List.map Z.of_nat (seq 0 (Z.to_nat n)).

Definition py_sum (l : list Z) : Z := fold_left Z.add l 0%Z.

Definition sumOfSquares (number : Z) : Z :=
  py_sum (List.map (fun i => (i * i)%Z) (range number)).

(** A call of [sumOfSquares] from effectful code: the entry is marked in the
    trace and the integer is the value. *)
Definition call_sumOfSquares (number : Z) : M pyval :=
  emit (Enter_sumOfSquares number) ;; ret (PyInt (sumOfSquares number)).

Definition findSums (numbers : list Z) : M pyval :=
  for_each (fun number => call_sumOfSquares number) numbers ;;
  ret PyNone.

(** [[3_000_000 + x for x in range(20)]] *)
Definition numbers : list Z := List.map (fun x => (3000000 + x)%Z) (range 20).

Definition menu_text : string :=
  nl +:+ "        1.) I/O Bound Problem: Download Multiple URLs - Synchronous Approach"
  +:+ nl +:+ "        2.) I/O Bound Problem: Download Multiple URLs - Multithreaded Approach"
  +:+ nl +:+ "        3.) I/O Bound Problem: Download Multiple URLs - AsyncIO Approach"
  +:+ nl +:+ "        4.) I/O Bound Problem: Download Multiple URLs - Multiprocess Approach"
  +:+ nl +:+ "        5.) CPU Bound Problem: CPU Intensive Operation- Synchronous Approach"
  +:+ nl +:+ "        6.) CPU Bound Problem: CPU Intensive Operation- Multiprocess Approach".

Definition prompt_text : string :=
  nl +:+ "Please make a selection from the above choices. Please Enter a Value Between 1 and 6 (or q to quit): ".

Definition invalid_text : string := nl +:+ "INVALID SELECTION!" +:+ nl.

Definition selections : list string := ["1"; "2"; "3"; "4"; "5"; "6"].

(** [x in l] on a list of strings *)
Definition str_in (x : string) (l : list string) : bool := existsb (String.eqb x) l.

(** The [while] loop of [getProcessSelection], entered with the current value
    of [processSelection].  [stdin] holds the lines that the user will type:
    [input] takes the next one, or raises [EOFError] when there is none.  The
    value is the selection together with the lines not yet read. *)
Fixpoint getProcessSelection_while (stdin : list string) (processSelection : string)
    {struct stdin} : M (string * list string) :=
  if negb (String.eqb processSelection "q") then
    print menu_text ;;
    emit (Input prompt_text) ;;
    match stdin with
    | [] => raise EOFError
    | line :: stdin' =>
        let processSelection := line in
        if negb (str_in processSelection selections) then
          (if negb (String.eqb processSelection "q")
           then print invalid_text
           else ret tt) ;;
          getProcessSelection_while stdin' processSelection
        else
          ret (processSelection, stdin')
    end
  else ret (processSelection, stdin).

Definition getProcessSelection (stdin : list string) : M (string * list string) :=
  getProcessSelection_while stdin "".

Section WithNetwork.
Variable fetch : string -> option Response.
(** [multiprocessing.current_process().name] of each process; the start
    method of the platform decides the names. *)
Variable process_name : nat -> string.
(** [os.cpu_count()], with 0 for [None]. *)
Variable cpu_count : nat.
(** [multiprocessing.get_start_method()] *)
Variable method : Pool.start_method.
(** [__name__ == "__main__"] *)
Variable name_is_main : bool.

(** [session], the module global, as the running process sees it. *)
Definition read_session : M (option nat) :=
  fun me s => (s, Returned (global_session s !! me)).

Definition write_session (session : nat) : M unit :=
  fun me s =>
    (mkState (trace s) (next_sid s) (threadLocal_session s)
             (<[me := session]> (global_session s)), Returned tt).

Definition setGlobalSession : M pyval :=
  session <- read_session ;;
  (match session with
   | None => new <- new_session ;; write_session new
   | Some _ => ret tt
   end) ;;
  ret PyNone.

Definition current_process_name : M string :=
  fun me s => (s, Returned (process_name me)).

Definition downloadSite (url : string) : M pyval :=
  emit (Enter_downloadSite url) ;;
  session <- read_session ;;
  match session with
  | None => raise (AttributeError "get")
  | Some session =>
      response <- session_get fetch session url ;;
      name <- current_process_name ;;
      print (name +:+ ":Read " +:+ pretty (content_len response) +:+ " from " +:+ url) ;;
      ret PyNone
  end.

Definition downloadAllSites (sched : list (nat * nat)) (sites : list string)
    : M pyval :=
  Pool.map_and_exit cpu_count method (Some setGlobalSession) downloadSite sched sites ;;
  ret PyNone.

Definition sites : list string := list_times two_urls 80.

Definition testConcurrency4IOBoundMultiProcessing (sched : list (nat * nat))
    (duration : string) : M pyval :=
  (if name_is_main then
     downloadAllSites sched sites ;;
     print (nl +:+ "PERFORMANCE: Downloaded " +:+ pretty (length sites)
               +:+ " in " +:+ duration +:+ " seconds")
   else ret tt) ;;
  ret PyNone.

Definition findSumsMultiProcessing (sched : list (nat * nat)) (numbers : list Z)
    : M pyval :=
  Pool.map_and_exit cpu_count method None call_sumOfSquares sched numbers ;;
  ret PyNone.

Definition testConcurrency5CPUBoundSynchronous (multiProcessing : bool)
    (sched : list (nat * nat)) (duration : string) : M pyval :=
  (if name_is_main then
     (if multiProcessing
      then findSumsMultiProcessing sched numbers
      else findSums numbers) ;;
     print (nl +:+ "PERFORMANCE: Duration " +:+ duration +:+ " seconds")
   else ret tt) ;;
  ret PyNone.

Definition testConcurrency6CPUBoundSMultiProcessing (sched : list (nat * nat))
    (duration : string) : M pyval :=
  testConcurrency5CPUBoundSynchronous true sched duration.

End WithNetwork.
(** The inputs that the scheduler and the clock give to one run of a test:
    the schedule of a pool, the schedule of the event loop, and the text of
    the measured duration. *)
Record test_oracle : Type := mkOracle {
  pool_sched : list (nat * nat);
  loop_sched : list nat;
  duration : string
}.

Section MainBlock.
Variable fetch : string -> option Response.
Variable process_name : nat -> string.
Variable cpu_count : nat.
Variable method : Pool.start_method.
Variable name_is_main : bool.

Definition intro_text : string :=
  "    This application is intended to diagnose a variety of approaches to solving 2 types of problems that can potentially"
  +:+ nl +:+ "    be solved efficiently through the implementation of a type of concurrency solution. These types of problems are those that are"
  +:+ nl +:+ "    I/O Bound and those that are CPU Bound. 4 Approaches are suggested for a particular I/O bound problem involving downloading of"
  +:+ nl +:+ "    URLs: Synchronous (Single Threaded), MultiThreaded, AsyncIO and MultiProcess. 2 Approaches are suggested for a particular CPU"
  +:+ nl +:+ "    Bound problem involving lengthy operations of summing squares: Synchronous (Single Threaded) and MultiProcess. MultiThreaded"
  +:+ nl +:+ "    and AsyncIO are discouraged for these types of problems as their performance is worse than Synchronous (Single Threaded) since "
  +:+ nl +:+ "    there is extra CPU overhead to managing threads and tasks in addition to the intense CPU operations involved in the problem. " +:+ nl
  +:+ nl +:+ "    Note that MultiProcess approach is also discouraged for I/O Bound problems as the overhead of managing processes adds to "
  +:+ nl +:+ "    the overhead of the I/O Operation rendering it less performant than AsyncIO and Multithreaded Solutions. "
  +:+ nl
  +:+ nl +:+ "    Enter q at any time to quit. Cheers!" +:+ nl.

Definition intro : M pyval := print intro_text ;; ret PyNone.

(** The [if]/[elif] chain of the main block, for a selection other than 'q'. *)
Definition run_selection (processSelection : string) (o : test_oracle) : M pyval :=
  if String.eqb processSelection "1" then
    URLDownloadSynchronous.testConcurrency1IOBoundSynchronous fetch (duration o)
  else if String.eqb processSelection "2" then
    URLDownloadMultiThreaded.testConcurrency2IOBoundThreaded fetch (pool_sched o) (duration o)
  else if String.eqb processSelection "3" then
    URLDownloadAsyncIO.testConcurrency3IOBoundAsyncIO fetch (loop_sched o) (duration o)
  else if String.eqb processSelection "4" then
    testConcurrency4IOBoundMultiProcessing fetch process_name cpu_count method name_is_main
      (pool_sched o) (duration o)
  else if String.eqb processSelection "5" then
    print "Performing lengthy CPU operation..." ;;
    testConcurrency5CPUBoundSynchronous cpu_count method name_is_main false
      (pool_sched o) (duration o)
  else
    print "Performing lengthy CPU operation..." ;;
    testConcurrency6CPUBoundSMultiProcessing cpu_count method name_is_main
      (pool_sched o) (duration o).

(** The [while] loop of the main block, entered with the current value of
    [processSelection].  [stdin] holds the lines that the user will type and
    [oracles] the inputs of the tests that will run, one per test.  The loop
    is unfolded at most [fuel] times; the value is [None] when that is not
    enough to reach the end of the loop. *)
Fixpoint main_while (fuel : nat) (stdin : list string) (oracles : list test_oracle)
    (processSelection : string) : M (option pyval) :=
  match fuel with
  | 0 => ret None
  | S fuel' =>
      if negb (String.eqb processSelection "q") then
        r <- getProcessSelection stdin ;;
        let processSelection := fst r in
        let stdin' := snd r in
        if negb (String.eqb processSelection "q") then
          run_selection processSelection (hd (mkOracle [] [] "") oracles) ;;
          main_while fuel' stdin' (tl oracles) processSelection
        else
          main_while fuel' stdin' oracles processSelection
      else ret (Some PyNone)
  end.

(** The main block: [if __name__ == "__main__": intro(); ...]. *)
Definition main (fuel : nat) (stdin : list string) (oracles : list test_oracle)
    : M (option pyval) :=
  if name_is_main then
    intro ;; main_while fuel stdin oracles ""
  else ret (Some PyNone).

End MainBlock.
End Concurrency.

(** * Vocabulary of the statements *)

(** The state after more actions. *)
Definition add_trace (s : State) (new : list (nat * event)) : State :=
  mkState (trace s ++ new) (next_sid s) (threadLocal_session s) (global_session s).

(** The URLs of the calls of [downloadSite] in a trace, in order. *)
Definition downloads (tr : list (nat * event)) : list string :=
  omap (fun e => match e.2 with Enter_downloadSite url => Some url | _ => None end) tr.

(** The arguments of the calls of [sumOfSquares] in a trace, in order. *)
Definition sums (tr : list (nat * event)) : list Z :=
  omap (fun e => match e.2 with Enter_sumOfSquares n => Some n | _ => None end) tr.

(** The URLs requested in a trace, in order. *)
Definition requests (tr : list (nat * event)) : list string :=
  omap (fun e => match e.2 with HttpGet _ url => Some url | _ => None end) tr.

(** The lines printed in a trace, in order. *)
Definition printed (tr : list (nat * event)) : list string :=
  omap (fun e => match e.2 with Print line => Some line | _ => None end) tr.

(** The sessions that thread or process [t] creates in a trace. *)
Definition created_by (t : nat) (tr : list (nat * event)) : list nat :=
  omap (fun e => match e.2 with
                 | NewSession sid => if decide (e.1 = t) then Some sid else None
                 | _ => None
                 end) tr.

(** The sessions through which thread or process [t] sends its requests. *)
Definition used_by (t : nat) (tr : list (nat * event)) : list nat :=
  omap (fun e => match e.2 with
                 | HttpGet sid _ => if decide (e.1 = t) then Some sid else None
                 | _ => None
                 end) tr.

(** The threads and processes that act in a trace. *)
Definition actors (tr : list (nat * event)) : list nat := List.map fst tr.

Section NetworkVocabulary.
Variable fetch : string -> option Response.

(** The items up to and including the first one whose download raises. *)
Fixpoint attempted (sites : list string) : list string :=
  match sites with
  | [] => []
  | url :: sites' =>
      match fetch url with
      | Some _ => url :: attempted sites'
      | None => [url]
      end
  end.

(** The first item whose download raises. *)
Fixpoint first_failing (sites : list string) : option string :=
  match sites with
  | [] => None
  | url :: sites' =>
      match fetch url with
      | Some _ => first_failing sites'
      | None => Some url
      end
  end.

(** What one call of the synchronous [downloadSite] leaves in the trace. *)
Definition download_events (me session : nat) (url : string) : list (nat * event) :=
  [(me, Enter_downloadSite url); (me, HttpGet session url)]
  ++ match fetch url with
     | Some response =>
         [(me, Print ("Read " +:+ pretty (content_len response) +:+ " from " +:+ url))]
     | None => []
     end.

(** The line that the synchronous [downloadSite] prints for a URL. *)
Definition read_line (url : string) : option string :=
  match fetch url with
  | Some response => Some ("Read " +:+ pretty (content_len response) +:+ " from " +:+ url)
  | None => None
  end.

(** The outcome of a download, as the network decides it. *)
Definition download_outcome (url : string) : outcome pyval :=
  match fetch url with
  | Some _ => Returned PyNone
  | None => Raised (ConnectionError url)
  end.

(** What one call of the multithreaded [downloadSite] leaves in the trace,
    in a thread whose [threadLocal.session] is [stored] (or absent), when
    [fresh] is the identity of the next new session. *)
Definition threaded_download_events (me : nat) (stored : option nat) (fresh : nat)
    (url : string) : list (nat * event) :=
  [(me, Enter_downloadSite url)]
  ++ match stored with
     | Some _ => []
     | None => [(me, NewSession fresh)]
     end
  ++ [(me, HttpGet (default fresh stored) url)]
  ++ match fetch url with
     | Some response =>
         [(me, Print ("Read " +:+ pretty (content_len response) +:+ " from " +:+ url))]
     | None => []
     end.

End NetworkVocabulary.

(** Thread or process [t] and its one session: as long as [t] has no session
    stored it has neither created nor used one; once [sid] is stored, [sid]
    is the only session that [t] has created and the only one it uses. *)
Definition one_session (stored : option nat) (t : nat) (new : list (nat * event)) : Prop :=
  match stored with
  | None => created_by t new = [] /\ used_by t new = []
  | Some sid => created_by t new = [sid] /\ Forall (fun used => used = sid) (used_by t new)
  end.

Section MenuVocabulary.
Import Concurrency.

(** The lines that end the loop. *)
Definition ends_loop (line : string) : bool :=
  str_in line selections || String.eqb line "q".

(** The lines typed before the first one that ends the loop, and the lines
    from that one on. *)
Fixpoint rejected_lines (stdin : list string) : list string :=
  match stdin with
  | [] => []
  | line :: stdin' => if ends_loop line then [] else line :: rejected_lines stdin'
  end.

Fixpoint remaining_lines (stdin : list string) : list string :=
  match stdin with
  | [] => []
  | line :: stdin' => if ends_loop line then line :: stdin' else remaining_lines stdin'
  end.

(** What one rejected line leaves in the trace: the menu, the prompt, the
    complaint. *)
Definition reprompt (me : nat) : list (nat * event) :=
  [(me, Print menu_text); (me, Input prompt_text); (me, Print invalid_text)].

End MenuVocabulary.

Section ProcessVocabulary.
Variable fetch : string -> option Response.
Variable process_name : nat -> string.

(** What one call of the multiprocessing [downloadSite] leaves in the trace
    of a process whose global [session] is set. *)
Definition process_download_events (me session : nat) (url : string)
    : list (nat * event) :=
  [(me, Enter_downloadSite url); (me, HttpGet session url)]
  ++ match fetch url with
     | Some response =>
         [(me, Print (process_name me +:+ ":Read " +:+ pretty (content_len response)
                        +:+ " from " +:+ url))]
     | None => []
     end.

End ProcessVocabulary.

(** The actions of thread or process [t] in a trace, in order. *)
Definition actions_of (t : nat) (tr : list (nat * event)) : list (nat * event) :=
  List.filter (fun e => Nat.eqb e.1 t) tr.

(** The life of a task of [downloadSite]. *)
Inductive phase : Type :=
| NotStarted    (* created, first stretch not run yet *)
| InFlight      (* request sent, waiting for the answer *)
| Finished.     (* done, with a result or an exception *)

Definition next_phase (ph : phase) : phase :=
  match ph with
  | NotStarted => InFlight
  | InFlight => Finished
  | Finished => Finished
  end.

(** The iterations of the event loop that a task still needs. *)
Definition iterations_left (ph : phase) : nat :=
  match ph with
  | NotStarted => 2
  | InFlight => 1
  | Finished => 0
  end.

Fixpoint remaining (phases : list phase) : nat :=
  match phases with
  | [] => 0
  | ph :: phases' => iterations_left ph + remaining phases'
  end.

Section AsyncVocabulary.
Import asyncio URLDownloadAsyncIO.
Variable fetch : string -> option Response.

Definition task_of (session : nat) (url : string) (ph : phase) : coroutine :=
  match ph with
  | NotStarted => downloadSite fetch session url
  | InFlight => Await (downloadSite_resumed fetch url)
  | Finished => Done (download_outcome fetch url)
  end.

Definition tasks_of (session : nat) (sites : list string) (phases : list phase)
    : list coroutine :=
  zip_with (task_of session) sites phases.

(** What the first stretch of a task leaves in the trace, and what the
    second one does. *)
Definition start_events (me session : nat) (url : string) : list (nat * event) :=
  [(me, Enter_downloadSite url); (me, HttpGet session url)].

Definition finish_events (me : nat) (url : string) : list (nat * event) :=
  match fetch url with
  | Some response =>
      [(me, Print ("Read " +:+ str_content_length response +:+ " from " +:+ url))]
  | None => []
  end.

Definition phase_events (me session : nat) (url : string) (ph : phase)
    : list (nat * event) :=
  match ph with
  | NotStarted => start_events me session url
  | InFlight => finish_events me url
  | Finished => []
  end.

(** The URLs of the tasks that have not started yet. *)
Definition not_started_urls (sites : list string) (phases : list phase) : list string :=
  concat (zip_with (fun url ph => match ph with NotStarted => [url] | _ => [] end)
                   sites phases).

End AsyncVocabulary.

(** The actions of the tasks themselves. *)
Definition task_action (e : nat * event) : Prop :=
  match e.2 with
  | Enter_downloadSite _ | HttpGet _ _ | Print _ => True
  | _ => False
  end.

(** The actions that a run from [s] to [s'] has added to the trace. *)
Definition added (s s' : State) : list (nat * event) :=
  drop (length (trace s)) (trace s').

(** A network on which every download succeeds with ten bytes, except that
    of the URL "bad". *)
Definition sample_network (url : string) : option Response :=
  if String.eqb url "bad" then None else Some (mkResponse 10 (Some 10)).

(** The sessions created, used and closed in a trace, by whomever. *)
Definition all_created (tr : list (nat * event)) : list nat :=
  omap (fun e => match e.2 with NewSession sid => Some sid | _ => None end) tr.

Definition all_used (tr : list (nat * event)) : list nat :=
  omap (fun e => match e.2 with HttpGet sid _ => Some sid | _ => None end) tr.

Definition closed (tr : list (nat * event)) : list nat :=
  omap (fun e => match e.2 with CloseSession sid => Some sid | _ => None end) tr.

(** The actions of a download in a pool: the call, a new session, the
    request, the printed line. *)
Definition download_action (e : nat * event) : Prop :=
  match e.2 with
  | Enter_downloadSite _ | NewSession _ | HttpGet _ _ | Print _ => True
  | _ => False
  end.

(** The only action of the CPU-bound work: the call of [sumOfSquares]. *)
Definition sum_action (e : nat * event) : Prop :=
  match e.2 with
  | Enter_sumOfSquares _ => True
  | _ => False
  end.

(** The lines typed before the first 'q'. *)
Fixpoint lines_before_quit (stdin : list string) : list string :=
  match stdin with
  | [] => []
  | line :: stdin' =>
      if String.eqb line "q" then [] else line :: lines_before_quit stdin'
  end.

(** How many of the lines are among the given selections. *)
Definition count_in (selections : list string) (lines : list string) : nat :=
  length (List.filter (fun line => Concurrency.str_in line selections) lines).

(** A run of [m] from [s] ends with outcome [r], after [d] calls of
    [downloadSite] and [k] calls of [sumOfSquares]. *)
Definition run_counts {A} (m : M A) (me : nat) (s : State) (r : outcome A)
    (d k : nat) : Prop :=
  exists (s' : State) (new : list (nat * event)),
    m me s = (s', r)
    /\ trace s' = trace s ++ new
    /\ length (downloads new) = d
    /\ length (sums new) = k.

(** The line that the asyncio [downloadSite] prints for a URL that answers:
    it shows the Content-Length header, not the length of the body. *)
Definition async_read_line (fetch : string -> option Response) (url : string)
    : option string :=
  match fetch url with
  | Some response =>
      Some ("Read " +:+ URLDownloadAsyncIO.str_content_length response
                    +:+ " from " +:+ url)
  | None => None
  end.

(** The lines that the calls of the process-pool [downloadSite] in a trace
    print: one for each call whose URL answers, with the name of the process
    that makes the call. *)
Definition process_lines (fetch : string -> option Response)
    (process_name : nat -> string) (tr : list (nat * event)) : list string :=
  omap (fun e => match e.2 with
                 | Enter_downloadSite url =>
                     match fetch url with
                     | Some response =>
                         Some (process_name e.1 +:+ ":Read "
                                 +:+ pretty (content_len response) +:+ " from " +:+ url)
                     | None => None
                     end
                 | _ => None
                 end) tr.

(** The URLs of the tasks that are not finished yet. *)
Definition unfinished_urls (sites : list string) (phases : list phase) : list string :=
  concat (zip_with (fun url ph => match ph with Finished => [] | _ => [url] end)
                   sites phases).

(** * Properties *)

(** ** The pure compute function *)
Section SumOfSquares.
Import Concurrency.
Local Open Scope Z_scope.

Lemma py_sum_from (l : list Z) (a : Z) : fold_left Z.add l a = a + py_sum l.
Proof.
  unfold py_sum. revert a.
  induction l as [|x l IH]; intros a; simpl.
  - lia.
  - rewrite (IH (a + x)), (IH (0 + x)). lia.
Qed.

Lemma py_sum_snoc (l : list Z) (x : Z) : py_sum (l ++ [x]) = py_sum l + x.
Proof.
  unfold py_sum at 1. rewrite fold_left_app. simpl.
  rewrite py_sum_from. unfold py_sum. lia.
Qed.

Lemma range_succ (n : nat) :
  range (Z.of_nat (S n)) = range (Z.of_nat n) ++ [Z.of_nat n].
Proof.
  unfold range. rewrite !Nat2Z.id, seq_S, List.map_app. reflexivity.
Qed.

Lemma sumOfSquares_succ (n : nat) :
  sumOfSquares (Z.of_nat (S n)) = sumOfSquares (Z.of_nat n) + Z.of_nat n * Z.of_nat n.
Proof.
  unfold sumOfSquares. rewrite range_succ, List.map_app. simpl.
  apply py_sum_snoc.
Qed.

Lemma sumOfSquares_closed_nat (n : nat) :
  6 * sumOfSquares (Z.of_nat n)
  = Z.of_nat n * (Z.of_nat n - 1) * (2 * Z.of_nat n - 1).
Proof.
  induction n as [|n IH].
  - reflexivity.
  - rewrite sumOfSquares_succ, Z.mul_add_distr_l, IH. lia.
Qed.

Lemma sumOfSquares_nonpositive (number : Z) : number <= 0 -> sumOfSquares number = 0.
Proof.
  intros H. unfold sumOfSquares, range.
  replace (Z.to_nat number) with 0%nat by lia. reflexivity.
Qed.

(** C6. For every non-negative integer [number], [sumOfSquares number] is the
    sum of [i * i] over [i = 0, ..., number - 1]: it is 0 at 0, grows by
    [number * number] from [number] to [number + 1], and equals
    [number * (number - 1) * (2 * number - 1) / 6].  A call has no effect
    besides the mark of its entry in the trace and never raises. *)
Theorem sumOfSquares_is_sum_of_squares (number : Z) :
  0 <= number ->
  sumOfSquares 0 = 0
  /\ sumOfSquares (number + 1) = sumOfSquares number + number * number
  /\ sumOfSquares number = number * (number - 1) * (2 * number - 1) / 6
  /\ forall me s,
       call_sumOfSquares number me s
       = (mkState (trace s ++ [(me, Enter_sumOfSquares number)]) (next_sid s)
                  (threadLocal_session s) (global_session s),
          Returned (PyInt (sumOfSquares number))).
Proof.
  intros Hpos.
  rewrite <- (Z2Nat.id number Hpos).
  set (n := Z.to_nat number).
  repeat split.
  - replace (Z.of_nat n + 1) with (Z.of_nat (S n)) by lia.
    apply sumOfSquares_succ.
  - rewrite <- sumOfSquares_closed_nat.
    rewrite Z.mul_comm, Z.div_mul by lia. reflexivity.
Qed.

(** A run of C6 at [number = 4]: 0 + 1 + 4 + 9. *)
Lemma sumOfSquares_is_sum_of_squares_witness :
  sumOfSquares 4 = 14 /\ sumOfSquares 5 = sumOfSquares 4 + 16.
Proof.
  destruct (sumOfSquares_is_sum_of_squares 4 ltac:(lia)) as (_ & Hstep & Hclosed & _).
  split.
  - rewrite Hclosed. reflexivity.
  - exact Hstep.
Defined.

End SumOfSquares.

(** ** The workloads of the tests *)

Lemma length_list_times {A} (l : list A) (n : nat) :
  length (list_times l n) = n * length l.
Proof.
  unfold list_times. induction n as [|n IH]; simpl.
  - reflexivity.
  - rewrite length_app, IH. reflexivity.
Qed.

(** ** The menu loop *)
Section Menu.
Import Concurrency.

Lemma ends_loop_spec (line : string) :
  ends_loop line = true <-> In line ["1"; "2"; "3"; "4"; "5"; "6"; "q"].
Proof.
  unfold ends_loop, str_in, selections. simpl.
  rewrite !orb_true_iff, !String.eqb_eq. intuition congruence.
Qed.

Lemma rejected_remaining (stdin : list string) :
  stdin = rejected_lines stdin ++ remaining_lines stdin.
Proof.
  induction stdin as [|line stdin IH]; simpl; [reflexivity|].
  destruct (ends_loop line); simpl; congruence.
Qed.

Lemma rejected_lines_rejected (stdin : list string) :
  Forall (fun line => ends_loop line = false) (rejected_lines stdin).
Proof.
  induction stdin as [|line stdin IH]; simpl; [constructor|].
  destruct (ends_loop line) eqn:E; constructor; assumption.
Qed.

Lemma remaining_lines_head (stdin : list string) (line : string) (after : list string) :
  remaining_lines stdin = line :: after -> ends_loop line = true.
Proof.
  induction stdin as [|x stdin IH]; simpl; [discriminate|].
  destruct (ends_loop x) eqn:E; [|exact IH].
  intros [= -> _]. exact E.
Qed.

Lemma getProcessSelection_while_spec (stdin : list string) :
  forall (p : string) (me : nat) (s : State),
    p <> "q" ->
    getProcessSelection_while stdin p me s
    = (mkState (trace s ++ flat_map (fun _ => reprompt me) (rejected_lines stdin)
                  ++ [(me, Print menu_text); (me, Input prompt_text)])
               (next_sid s) (threadLocal_session s) (global_session s),
       match remaining_lines stdin with
       | [] => Raised EOFError
       | line :: after => Returned (line, after)
       end).
Proof.
  induction stdin as [|line stdin IH]; intros p me s Hp.
  - simpl. apply String.eqb_neq in Hp. rewrite Hp. simpl.
    unfold bind, print, emit, raise. simpl. rewrite <- app_assoc. reflexivity.
  - cbn [getProcessSelection_while].
    apply String.eqb_neq in Hp. rewrite Hp. cbn [negb].
    cbn [rejected_lines remaining_lines].
    unfold ends_loop at 1 2.
    destruct (str_in line selections) eqn:Hsel; cbn [negb orb].
    + unfold bind, print, emit, ret. simpl. rewrite <- app_assoc. reflexivity.
    + destruct (String.eqb line "q") eqn:Hq; cbn [negb].
      * apply String.eqb_eq in Hq. subst line.
        unfold bind at 1 2 3. unfold print, emit, ret.
        cbn [trace next_sid threadLocal_session global_session].
        destruct stdin; simpl; rewrite <- app_assoc; reflexivity.
      * assert (Hne : line <> "q") by (apply String.eqb_neq; exact Hq).
        unfold bind at 1 2 3. unfold print at 1 2. unfold emit at 1 2 3.
        cbn [trace next_sid threadLocal_session global_session].
        rewrite (IH line me _ Hne).
        cbn [trace next_sid threadLocal_session global_session flat_map reprompt].
        f_equal. f_equal.
        rewrite <- !app_assoc. reflexivity.
Qed.

(** C8. For every sequence of lines that the user types, [getProcessSelection]
    returns only one of '1' to '6' or 'q'.  The lines before the first such
    line are each answered by "INVALID SELECTION!" and a new prompt, and the
    function returns that first such line; when there is none the function
    does not return (the input ends in [EOFError]). *)
Theorem getProcessSelection_returns_selection_or_quit
    (stdin : list string) (me : nat) (s : State) :
  (forall v after,
     snd (getProcessSelection stdin me s) = Returned (v, after) ->
     In v ["1"; "2"; "3"; "4"; "5"; "6"; "q"])
  /\ stdin = rejected_lines stdin ++ remaining_lines stdin
  /\ Forall (fun line => ~ In line ["1"; "2"; "3"; "4"; "5"; "6"; "q"])
            (rejected_lines stdin)
  /\ (forall line after,
        remaining_lines stdin = line :: after ->
        In line ["1"; "2"; "3"; "4"; "5"; "6"; "q"]
        /\ snd (getProcessSelection stdin me s) = Returned (line, after))
  /\ (remaining_lines stdin = [] ->
        snd (getProcessSelection stdin me s) = Raised EOFError)
  /\ trace (fst (getProcessSelection stdin me s))
     = trace s ++ flat_map (fun _ => reprompt me) (rejected_lines stdin)
         ++ [(me, Print menu_text); (me, Input prompt_text)].
Proof.
  assert (Hrun := getProcessSelection_while_spec stdin "" me s ltac:(discriminate)).
  unfold getProcessSelection. rewrite Hrun. cbn [fst snd trace].
  split; [|split; [|split; [|split; [|split]]]].
  - intros v after Hret.
    destruct (remaining_lines stdin) as [|line rest'] eqn:Hrest; [discriminate|].
    injection Hret as -> ->. apply ends_loop_spec.
    eapply remaining_lines_head. exact Hrest.
  - apply rejected_remaining.
  - eapply Forall_impl; [apply rejected_lines_rejected|].
    intros line Hrej Hin. apply ends_loop_spec in Hin. congruence.
  - intros line after Hrest. rewrite Hrest. split; [|reflexivity].
    apply ends_loop_spec. eapply remaining_lines_head. exact Hrest.
  - intros Hrest. rewrite Hrest. reflexivity.
  - reflexivity.
Qed.

(** A run of C8: two rejected lines, then '3'; the line after it is left
    unread. *)
Lemma getProcessSelection_returns_selection_or_quit_witness :
  In "3" ["1"; "2"; "3"; "4"; "5"; "6"; "q"]
  /\ snd (getProcessSelection ["x"; "7"; "3"; "q"] main_thread initial_state)
     = Returned ("3", ["q"]).
Proof.
  destruct (getProcessSelection_returns_selection_or_quit
              ["x"; "7"; "3"; "q"] main_thread initial_state)
    as (_ & _ & _ & Hfirst & _).
  apply (Hfirst "3" ["q"]). reflexivity.
Defined.
End Menu.

(** ** Traces *)

Lemma add_trace_nil (s : State) : add_trace s [] = s.
Proof. destruct s. unfold add_trace. simpl. rewrite app_nil_r. reflexivity. Qed.

Lemma add_trace_app (s : State) (a b : list (nat * event)) :
  add_trace (add_trace s a) b = add_trace s (a ++ b).
Proof. unfold add_trace. simpl. rewrite app_assoc. reflexivity. Qed.

Lemma emit_add_trace (ev : event) (me : nat) (s : State) :
  emit ev me s = (add_trace s [(me, ev)], Returned tt).
Proof. reflexivity. Qed.

Lemma downloads_app (a b : list (nat * event)) :
  downloads (a ++ b) = downloads a ++ downloads b.
Proof. apply omap_app. Qed.

Lemma sums_app (a b : list (nat * event)) : sums (a ++ b) = sums a ++ sums b.
Proof. apply omap_app. Qed.

Lemma requests_app (a b : list (nat * event)) :
  requests (a ++ b) = requests a ++ requests b.
Proof. apply omap_app. Qed.

Lemma printed_app (a b : list (nat * event)) :
  printed (a ++ b) = printed a ++ printed b.
Proof. apply omap_app. Qed.

Lemma created_by_app (t : nat) (a b : list (nat * event)) :
  created_by t (a ++ b) = created_by t a ++ created_by t b.
Proof. apply omap_app. Qed.

Lemma used_by_app (t : nat) (a b : list (nat * event)) :
  used_by t (a ++ b) = used_by t a ++ used_by t b.
Proof. apply omap_app. Qed.

(** ** The synchronous runner *)
Section Synchronous.
Import URLDownloadSynchronous.
Variable fetch : string -> option Response.

Lemma sync_downloadSite_run (url : string) (session me : nat) (s : State) :
  downloadSite fetch url session me s
  = (add_trace s (download_events fetch me session url), download_outcome fetch url).
Proof.
  unfold downloadSite, session_get, download_events, download_outcome, print.
  unfold bind. rewrite !emit_add_trace.
  destruct (fetch url) as [response|]; unfold ret, raise;
    rewrite ?emit_add_trace, !add_trace_app; reflexivity.
Qed.

Lemma sync_loop_run (session : nat) (sites : list string) :
  forall (me : nat) (s : State),
    for_each (fun url => downloadSite fetch url session) sites me s
    = (add_trace s (flat_map (download_events fetch me session) (attempted fetch sites)),
       match first_failing fetch sites with
       | Some url => Raised (ConnectionError url)
       | None => Returned tt
       end).
Proof.
  induction sites as [|url sites IH]; intros me s.
  - simpl. unfold ret. rewrite add_trace_nil. reflexivity.
  - cbn [for_each attempted first_failing]. unfold bind.
    rewrite sync_downloadSite_run. unfold download_outcome.
    destruct (fetch url) as [response|] eqn:Hfetch.
    + rewrite IH, add_trace_app. reflexivity.
    + cbn [flat_map]. rewrite app_nil_r. reflexivity.
Qed.

Lemma sync_downloadAllSites_run (sites : list string) (me : nat) (s : State) :
  downloadAllSites fetch sites me s
  = (mkState (trace s ++ [(me, NewSession (next_sid s))]
                ++ flat_map (download_events fetch me (next_sid s)) (attempted fetch sites)
                ++ [(me, CloseSession (next_sid s))])
             (S (next_sid s)) (threadLocal_session s) (global_session s),
     match first_failing fetch sites with
     | Some url => Raised (ConnectionError url)
     | None => Returned PyNone
     end).
Proof.
  unfold downloadAllSites, with_session, finally, new_session, close_session.
  unfold bind at 1 2. rewrite sync_loop_run, emit_add_trace.
  unfold add_trace. cbn [trace next_sid threadLocal_session global_session].
  rewrite <- !app_assoc.
  destruct (first_failing fetch sites); reflexivity.
Qed.

Lemma attempted_prefix (sites : list string) :
  exists skipped, sites = attempted fetch sites ++ skipped.
Proof.
  induction sites as [|url sites [skipped IH]]; simpl.
  - exists []. reflexivity.
  - destruct (fetch url).
    + exists skipped. simpl. congruence.
    + exists sites. reflexivity.
Qed.

Lemma attempted_all (sites : list string) :
  first_failing fetch sites = None -> attempted fetch sites = sites.
Proof.
  induction sites as [|url sites IH]; simpl; [reflexivity|].
  destruct (fetch url); [|discriminate].
  intros H. rewrite (IH H). reflexivity.
Qed.

Lemma first_failing_None (sites : list string) :
  first_failing fetch sites = None <-> forall url, In url sites -> fetch url <> None.
Proof.
  induction sites as [|url sites IH]; simpl.
  - split; [intros _ ? []|reflexivity].
  - destruct (fetch url) eqn:Hfetch.
    + rewrite IH. split.
      * intros H u [<-|Hin]; [congruence|auto].
      * intros H u Hin. apply H. right. exact Hin.
    + split; [discriminate|]. intros H. exfalso. apply (H url); auto.
Qed.

Lemma first_failing_Some (sites : list string) (url : string) :
  first_failing fetch sites = Some url ->
  fetch url = None
  /\ exists before skipped,
       sites = before ++ url :: skipped
       /\ attempted fetch sites = before ++ [url]
       /\ forall u, In u before -> fetch u <> None.
Proof.
  induction sites as [|x sites IH]; simpl; [discriminate|].
  destruct (fetch x) eqn:Hfetch.
  - intros H. destruct (IH H) as (Hnone & before & skipped & -> & -> & Hok).
    split; [exact Hnone|]. exists (x :: before), skipped.
    repeat split. intros u [<-|Hin]; [congruence|auto].
  - intros [= <-]. split; [exact Hfetch|].
    exists [], sites. repeat split. intros u [].
Qed.

Lemma downloads_download_events (me session : nat) (sites : list string) :
  downloads (flat_map (download_events fetch me session) sites) = sites.
Proof.
  induction sites as [|url sites IH]; [reflexivity|].
  cbn [flat_map]. rewrite downloads_app, IH.
  unfold download_events. destruct (fetch url); reflexivity.
Qed.

Lemma requests_download_events (me session : nat) (sites : list string) :
  requests (flat_map (download_events fetch me session) sites) = sites.
Proof.
  induction sites as [|url sites IH]; [reflexivity|].
  cbn [flat_map]. rewrite requests_app, IH.
  unfold download_events. destruct (fetch url); reflexivity.
Qed.

End Synchronous.

(** ** The thread pool *)
Section ThreadPoolRule.
Context {Item : Type}.
Variable max_workers : nat.
Variable fn : Item -> M pyval.
Hypothesis workers_positive : 0 < max_workers.

(** A property of the pending items, the settled futures and the state that
    every work item preserves holds when the pool has shut down, with nothing
    pending. *)
Lemma thread_pool_invariant
    (Inv : list Item -> list (Item * outcome pyval) -> State -> Prop) :
  (forall w i item pending futures s,
     w < max_workers ->
     pending !! i = Some item ->
     Inv pending futures s ->
     Inv (delete i pending)
         (futures ++ [(item, (fn item (worker_ident w) s).2)])
         (fn item (worker_ident w) s).1) ->
  forall fuel sched pending futures s,
    length pending <= fuel ->
    Inv pending futures s ->
    Inv [] (ThreadPoolExecutor.run max_workers fn fuel sched pending futures s).2
           (ThreadPoolExecutor.run max_workers fn fuel sched pending futures s).1.
Proof.
  intros Hstep.
  induction fuel as [|fuel IH]; intros sched pending futures s Hlen Hinv.
  - destruct pending; [exact Hinv|simpl in Hlen; lia].
  - cbn [ThreadPoolExecutor.run].
    destruct (hd (0, 0) sched) as [w i].
    destruct pending as [|x pending'] eqn:Hpending.
    + rewrite lookup_nil. exact Hinv.
    + rewrite <- Hpending in *.
      assert (Hlt : i mod length pending < length pending).
      { apply Nat.mod_upper_bound. rewrite Hpending. discriminate. }
      destruct (lookup_lt_is_Some_2 pending _ Hlt) as [item Hitem].
      rewrite Hitem.
      assert (Hw : w mod max_workers < max_workers)
        by (apply Nat.mod_upper_bound; lia).
      specialize (Hstep _ _ _ _ futures s Hw Hitem Hinv).
      destruct (fn item (worker_ident (w mod max_workers)) s) as [s' r].
      apply IH; [|exact Hstep].
      rewrite length_delete by (eexists; exact Hitem). lia.
Qed.

End ThreadPoolRule.

Section MultiThreaded.
Import URLDownloadMultiThreaded.
Variable fetch : string -> option Response.

Lemma getSession_run (me : nat) (s : State) :
  getSession me s
  = match threadLocal_session s !! me with
    | Some session => (s, Returned session)
    | None =>
        (mkState (trace s ++ [(me, NewSession (next_sid s))]) (S (next_sid s))
                 (<[me := next_sid s]> (threadLocal_session s)) (global_session s),
         Returned (next_sid s))
    end.
Proof.
  unfold getSession, hasattr_threadLocal_session, get_threadLocal_session,
    set_threadLocal_session, new_session, bind, ret.
  destruct (threadLocal_session s !! me) as [session|] eqn:Hstored.
  - rewrite bool_decide_eq_true_2 by eauto. cbn [negb]. rewrite Hstored. reflexivity.
  - rewrite bool_decide_eq_false_2 by (intros [? ?]; discriminate).
    cbn [negb trace next_sid threadLocal_session global_session].
    rewrite lookup_insert_eq. reflexivity.
Qed.

Lemma threaded_downloadSite_run (url : string) (me : nat) (s : State) :
  downloadSite fetch url me s
  = (mkState
       (trace s ++ threaded_download_events fetch me
                     (threadLocal_session s !! me) (next_sid s) url)
       (match threadLocal_session s !! me with
        | Some _ => next_sid s
        | None => S (next_sid s)
        end)
       (match threadLocal_session s !! me with
        | Some _ => threadLocal_session s
        | None => <[me := next_sid s]> (threadLocal_session s)
        end)
       (global_session s),
     download_outcome fetch url).
Proof.
  unfold downloadSite, threaded_download_events, download_outcome.
  unfold bind at 1. rewrite emit_add_trace.
  unfold bind at 1. rewrite getSession_run.
  unfold add_trace.
  cbn [trace next_sid threadLocal_session global_session].
  unfold session_get, print, bind, emit, ret, raise.
  destruct (threadLocal_session s !! me) as [session|];
    destruct (fetch url) as [response|];
    cbn [trace next_sid threadLocal_session global_session default id app];
    rewrite <- ?app_assoc; reflexivity.
Qed.

Lemma downloads_threaded_download_events (me : nat) (stored : option nat)
    (fresh : nat) (url : string) :
  downloads (threaded_download_events fetch me stored fresh url) = [url].
Proof.
  unfold threaded_download_events.
  destruct stored, (fetch url); reflexivity.
Qed.

Lemma actors_threaded_download_events (me : nat) (stored : option nat)
    (fresh : nat) (url : string) :
  Forall (fun t => t = me) (actors (threaded_download_events fetch me stored fresh url)).
Proof.
  unfold threaded_download_events, actors.
  destruct stored, (fetch url); repeat constructor.
Qed.

Lemma created_by_other (t : nat) (new : list (nat * event)) :
  Forall (fun a => a <> t) (actors new) -> created_by t new = [].
Proof.
  unfold actors, created_by.
  induction new as [|[a ev] new IH]; intros H; [reflexivity|].
  inversion H as [|? ? Ha Hnew]; subst.
  cbn [omap list_omap fst snd]. rewrite (IH Hnew).
  destruct ev; try reflexivity.
  destruct (decide (a = t)); [contradiction|reflexivity].
Qed.

Lemma used_by_other (t : nat) (new : list (nat * event)) :
  Forall (fun a => a <> t) (actors new) -> used_by t new = [].
Proof.
  unfold actors, used_by.
  induction new as [|[a ev] new IH]; intros H; [reflexivity|].
  inversion H as [|? ? Ha Hnew]; subst.
  cbn [omap list_omap fst snd]. rewrite (IH Hnew).
  destruct ev; try reflexivity.
  destruct (decide (a = t)); [contradiction|reflexivity].
Qed.

Lemma created_by_threaded_download_events (me : nat) (stored : option nat)
    (fresh : nat) (url : string) :
  created_by me (threaded_download_events fetch me stored fresh url)
  = match stored with Some _ => [] | None => [fresh] end.
Proof.
  unfold threaded_download_events, created_by.
  destruct stored, (fetch url); cbn [omap list_omap app fst snd];
    rewrite ?decide_True by reflexivity; reflexivity.
Qed.

Lemma used_by_threaded_download_events (me : nat) (stored : option nat)
    (fresh : nat) (url : string) :
  used_by me (threaded_download_events fetch me stored fresh url)
  = [default fresh stored].
Proof.
  unfold threaded_download_events, used_by.
  destruct stored, (fetch url); cbn [omap list_omap app fst snd default];
    rewrite ?decide_True by reflexivity; reflexivity.
Qed.

(** One call of [downloadSite] in thread [me] keeps every thread with its one
    session. *)
Lemma one_session_threaded_step (t me : nat) (tls : gmap nat nat) (fresh : nat)
    (url : string) (new : list (nat * event)) :
  one_session (tls !! t) t new ->
  one_session
    (match tls !! me with Some _ => tls | None => <[me := fresh]> tls end !! t) t
    (new ++ threaded_download_events fetch me (tls !! me) fresh url).
Proof.
  intros Hinv.
  destruct (decide (t = me)) as [->|Hne].
  - unfold one_session in *.
    rewrite created_by_app, used_by_app, created_by_threaded_download_events,
      used_by_threaded_download_events.
    destruct (tls !! me) as [sid|] eqn:Hstored.
    + rewrite Hstored. destruct Hinv as [Hc Hu]. rewrite app_nil_r.
      split; [exact Hc|]. apply Forall_app. split; [exact Hu|].
      repeat constructor.
    + rewrite lookup_insert_eq. destruct Hinv as [-> ->].
      split; [reflexivity|]. repeat constructor.
  - assert (Hother : Forall (fun a => a <> t)
                       (actors (threaded_download_events fetch me (tls !! me) fresh url))).
    { eapply Forall_impl; [apply actors_threaded_download_events|].
      intros a -> ?. congruence. }
    assert (Hsame : (match tls !! me with Some _ => tls | None => <[me := fresh]> tls end) !! t
                    = tls !! t).
    { destruct (tls !! me); [reflexivity|]. apply lookup_insert_ne. congruence. }
    rewrite Hsame. unfold one_session in *.
    rewrite created_by_app, used_by_app,
      (created_by_other t _ Hother), (used_by_other t _ Hother), !app_nil_r.
    exact Hinv.
Qed.

End MultiThreaded.

Lemma lookup_forgotten (m : gmap nat nat) (ids : list nat) (t : nat) :
  In t ids -> foldr delete m ids !! t = None.
Proof.
  induction ids as [|x ids IH]; intros Hin; [destruct Hin|].
  cbn [foldr]. destruct (decide (x = t)) as [->|Hne].
  - apply lookup_delete_eq.
  - rewrite lookup_delete_ne by exact Hne.
    apply IH. destruct Hin; [contradiction|assumption].
Qed.

Lemma lookup_inherited (m : gmap nat nat) (v : option nat) (ids : list nat) (t : nat) :
  In t ids ->
  foldr (fun w globals => partial_alter (fun _ => v) w globals) m ids !! t = v.
Proof.
  induction ids as [|w ids IH]; intros Hin; [destruct Hin|].
  cbn [foldr]. destruct (decide (w = t)) as [->|Hne].
  - apply lookup_partial_alter_eq.
  - rewrite lookup_partial_alter_ne by exact Hne.
    apply IH. destruct Hin as [Heq|Hin]; [contradiction|exact Hin].
Qed.

Lemma worker_ident_In (n w : nat) :
  w < n -> In (worker_ident w) (List.map worker_ident (seq 0 n)).
Proof.
  intros Hw. apply in_map. apply in_seq. lia.
Qed.

(** Taking one pending item moves it to the items that are done. *)
Lemma take_one_pending {A} (done pending all : list A) (i : nat) (x : A) :
  pending !! i = Some x ->
  done ++ pending ≡ₚ all ->
  (done ++ [x]) ++ delete i pending ≡ₚ all.
Proof.
  intros Hx Hall. etrans; [|exact Hall].
  rewrite <- app_assoc. apply Permutation_app_head.
  symmetry. apply delete_Permutation. exact Hx.
Qed.

(** From the invariant of one thread to what the trace shows. *)
Lemma one_session_at_most_once (stored : option nat) (t : nat)
    (new : list (nat * event)) :
  one_session stored t new ->
  length (created_by t new) <= 1
  /\ Forall (fun sid => created_by t new = [sid]) (used_by t new).
Proof.
  unfold one_session. destruct stored as [sid|].
  - intros [-> Hu]. split; [simpl; lia|].
    eapply Forall_impl; [exact Hu|]. intros used ->. reflexivity.
  - intros [-> ->]. split; [simpl; lia|constructor].
Qed.

Section MultiThreadedRun.
Import URLDownloadMultiThreaded.
Variable fetch : string -> option Response.

(** The whole [with] block of the multithreaded [downloadAllSites], under
    any schedule. *)
Lemma threaded_map_and_shutdown_run (sched : list (nat * nat)) (sites : list string)
    (me : nat) (s : State) :
  exists (s' : State) (futures : list (string * outcome pyval)) (new : list (nat * event)),
    ThreadPoolExecutor.map_and_shutdown max_workers (downloadSite fetch) sched sites me s
    = (s', Returned futures)
    /\ trace s' = trace s ++ new
    /\ downloads new ≡ₚ sites
    /\ List.map fst futures ≡ₚ sites
    /\ Forall (fun f => f.2 = download_outcome fetch f.1) futures
    /\ Forall (fun t => In t (ThreadPoolExecutor.worker_idents max_workers)) (actors new)
    /\ forall t, length (created_by t new) <= 1
                 /\ Forall (fun sid => created_by t new = [sid]) (used_by t new).
Proof.
  unfold ThreadPoolExecutor.map_and_shutdown, ThreadPoolExecutor.new_threads.
  unfold bind at 1.
  set (s0 := mkState (trace s) (next_sid s)
               (foldr delete (threadLocal_session s)
                  (ThreadPoolExecutor.worker_idents max_workers))
               (global_session s)).
  pose (Inv := fun (pending : list string) (futures : list (string * outcome pyval))
                   (st : State) =>
    exists new,
      trace st = trace s ++ new
      /\ downloads new ++ pending ≡ₚ sites
      /\ List.map fst futures ++ pending ≡ₚ sites
      /\ Forall (fun f => f.2 = download_outcome fetch f.1) futures
      /\ Forall (fun t => In t (ThreadPoolExecutor.worker_idents max_workers)) (actors new)
      /\ forall t, In t (ThreadPoolExecutor.worker_idents max_workers) ->
                   one_session (threadLocal_session st !! t) t new).
  assert (Hend :=
    thread_pool_invariant max_workers (downloadSite fetch) ltac:(unfold max_workers; lia) Inv).
  assert (Hstep : forall w i item pending futures st,
             w < max_workers ->
             pending !! i = Some item ->
             Inv pending futures st ->
             Inv (delete i pending)
                 (futures ++ [(item, (downloadSite fetch item (worker_ident w) st).2)])
                 (downloadSite fetch item (worker_ident w) st).1).
  { intros w i item pending futures st Hw Hitem (new & Htr & Hcalls & Hfut & Hok & Hact & Hone).
    rewrite threaded_downloadSite_run. cbn [fst snd].
    exists (new ++ threaded_download_events fetch (worker_ident w)
                     (threadLocal_session st !! worker_ident w) (next_sid st) item).
    cbn [trace threadLocal_session].
    split; [rewrite Htr, app_assoc; reflexivity|].
    split.
    { rewrite downloads_app, downloads_threaded_download_events.
      apply take_one_pending; assumption. }
    split.
    { rewrite List.map_app. apply take_one_pending; assumption. }
    split.
    { apply Forall_app. split; [exact Hok|]. repeat constructor. }
    split.
    { unfold actors in *. rewrite List.map_app. apply Forall_app.
      split; [exact Hact|].
      eapply Forall_impl; [apply actors_threaded_download_events|].
      intros a ->. apply worker_ident_In. exact Hw. }
    intros t Ht. apply one_session_threaded_step. apply Hone. exact Ht. }
  specialize (Hend Hstep (length sites) sched sites [] s0 ltac:(lia)).
  assert (Hinit : Inv sites [] s0).
  { exists []. cbn [trace s0 downloads omap list_omap List.map app actors].
    rewrite app_nil_r.
    split; [reflexivity|]. split; [reflexivity|]. split; [reflexivity|].
    split; [constructor|]. split; [constructor|].
    intros t Ht. unfold one_session. cbn [threadLocal_session s0].
    rewrite (lookup_forgotten _ _ t Ht). split; reflexivity. }
  specialize (Hend Hinit).
  destruct (ThreadPoolExecutor.run max_workers (downloadSite fetch) (length sites)
              sched sites [] s0) as [s' futures].
  cbn [fst snd] in Hend.
  destruct Hend as (new & Htr & Hcalls & Hfut & Hok & Hact & Hone).
  exists s', futures, new.
  rewrite app_nil_r in Hcalls, Hfut.
  repeat split; try assumption.
  - destruct (in_dec Nat.eq_dec t (ThreadPoolExecutor.worker_idents max_workers)) as [Hin|Hout].
    + apply (one_session_at_most_once _ _ _ (Hone t Hin)).
    + rewrite created_by_other; [simpl; lia|].
      eapply Forall_impl; [exact Hact|]. intros a Ha ->. contradiction.
  - destruct (in_dec Nat.eq_dec t (ThreadPoolExecutor.worker_idents max_workers)) as [Hin|Hout].
    + apply (one_session_at_most_once _ _ _ (Hone t Hin)).
    + rewrite used_by_other; [constructor|].
      eapply Forall_impl; [exact Hact|]. intros a Ha ->. contradiction.
Qed.

End MultiThreadedRun.

Section ThreadPoolOutput.
Import URLDownloadMultiThreaded.
Variable fetch : string -> option Response.

Lemma threaded_download_events_output (me : nat) (stored : option nat) (fresh : nat)
    (url : string) :
  downloads (threaded_download_events fetch me stored fresh url) = [url]
  /\ requests (threaded_download_events fetch me stored fresh url) = [url]
  /\ printed (threaded_download_events fetch me stored fresh url)
     = omap (read_line fetch) [url].
Proof.
  unfold threaded_download_events, read_line. cbn [omap list_omap].
  destruct stored, (fetch url); repeat split.
Qed.

(** The requests and the lines of a run of the thread pool follow its calls
    of [downloadSite], under any schedule. *)
Lemma threaded_output_run (sched : list (nat * nat)) (sites : list string)
    (me : nat) (s : State) :
  exists (s' : State) (new : list (nat * event)),
    downloadAllSites fetch sched sites me s = (s', Returned PyNone)
    /\ trace s' = trace s ++ new
    /\ requests new = downloads new
    /\ printed new = omap (read_line fetch) (downloads new).
Proof.
  unfold downloadAllSites, ThreadPoolExecutor.map_and_shutdown,
    ThreadPoolExecutor.new_threads.
  unfold bind at 1 2.
  set (workers := ThreadPoolExecutor.worker_idents max_workers).
  set (s0 := mkState (trace s) (next_sid s)
               (foldr delete (threadLocal_session s) workers) (global_session s)).
  pose (Inv := fun (pending : list string) (futures : list (string * outcome pyval))
                   (st : State) =>
    exists new,
      trace st = trace s ++ new
      /\ requests new = downloads new
      /\ printed new = omap (read_line fetch) (downloads new)).
  assert (Hend :=
    thread_pool_invariant max_workers (downloadSite fetch) ltac:(unfold max_workers; lia) Inv).
  assert (Hstep : forall w i item pending futures st,
             w < max_workers ->
             pending !! i = Some item ->
             Inv pending futures st ->
             Inv (delete i pending)
                 (futures ++ [(item, (downloadSite fetch item (worker_ident w) st).2)])
                 (downloadSite fetch item (worker_ident w) st).1).
  { intros w i item pending futures st Hw Hitem (new & Htr & Hreq & Hpr).
    rewrite threaded_downloadSite_run. cbn [fst snd].
    destruct (threaded_download_events_output (worker_ident w)
                (threadLocal_session st !! worker_ident w) (next_sid st) item)
      as (Hd & Hr & Hp).
    exists (new ++ threaded_download_events fetch (worker_ident w)
                     (threadLocal_session st !! worker_ident w) (next_sid st) item).
    cbn [trace].
    split; [rewrite Htr, app_assoc; reflexivity|].
    rewrite requests_app, downloads_app, printed_app, Hd, Hr, Hp, Hreq, Hpr, omap_app.
    split; reflexivity. }
  specialize (Hend Hstep (length sites) sched sites [] s0 ltac:(lia)).
  assert (Hinit : Inv sites [] s0).
  { exists []. cbn [trace s0]. rewrite app_nil_r. repeat split. }
  specialize (Hend Hinit).
  destruct (ThreadPoolExecutor.run max_workers (downloadSite fetch) (length sites)
              sched sites [] s0) as [s' futures].
  cbn [fst snd] in Hend. destruct Hend as (new & Htr & Hreq & Hpr).
  exists s', new. unfold ret. repeat split; assumption.
Qed.

End ThreadPoolOutput.

(** ** The process pool *)
Section ProcessPoolRule.
Context {Item : Type}.
Variable cpu_count : nat.
Variable method : Pool.start_method.
Variable initializer : option (M pyval).
Variable func : Item -> M pyval.

Lemma processes_positive : 0 < Pool.processes cpu_count.
Proof. unfold Pool.processes. destruct cpu_count; lia. Qed.

Lemma default_chunksize_positive (len : nat) :
  0 < len -> 0 < Pool.default_chunksize cpu_count len.
Proof.
  intros Hlen. unfold Pool.default_chunksize.
  assert (Hp := processes_positive).
  set (d := Pool.processes cpu_count * 4).
  assert (Hd : d <> 0) by (unfold d; lia).
  destruct (Nat.eqb_spec len 0) as [->|_]; [lia|].
  destruct (Nat.eqb_spec (len mod d) 0) as [Hmod|_]; [|lia].
  assert (Hdiv := Nat.div_mod_eq len d). rewrite Hmod in Hdiv.
  destruct (len / d); lia.
Qed.

Lemma get_tasks_concat (size : nat) :
  0 < size ->
  forall (fuel : nat) (it : list Item),
    length it <= fuel -> concat (Pool.get_tasks fuel it size) = it.
Proof.
  intros Hsize. induction fuel as [|fuel IH]; intros it Hlen.
  - destruct it; [reflexivity|simpl in Hlen; lia].
  - cbn [Pool.get_tasks].
    destruct (take size it) as [|x chunk] eqn:Htake.
    + destruct it as [|y it]; [reflexivity|].
      destruct size; [lia|simpl in Htake; discriminate Htake].
    + rewrite <- Htake. cbn [concat]. rewrite IH.
      * apply take_drop.
      * rewrite length_drop.
        destruct it; [destruct size; discriminate Htake|].
        cbn [length] in *. lia.
Qed.

Lemma task_batches_concat (items : list Item) :
  concat (Pool.task_batches cpu_count items) = items.
Proof.
  unfold Pool.task_batches. destruct items as [|x items]; [reflexivity|].
  apply get_tasks_concat; [|lia].
  apply default_chunksize_positive. simpl. lia.
Qed.

Lemma index_tasks_snd (tasks : list (list Item)) :
  List.map snd (Pool.index_tasks tasks) = tasks.
Proof.
  unfold Pool.index_tasks. generalize 0.
  induction tasks as [|c tasks IH]; intros n; [reflexivity|].
  cbn [length seq zip zip_with List.map snd]. rewrite IH. reflexivity.
Qed.

Section Invariant.
Variable Inv : list nat -> list (nat * list Item)
               -> list (nat * outcome (list pyval)) -> State -> Prop.

Hypothesis start_preserves :
  forall w started pending answers s,
    w < Pool.processes cpu_count ->
    ~ In w started ->
    Inv started pending answers s ->
    Inv (w :: started) pending answers (Pool.start_worker initializer w s).

Hypothesis chunk_preserves :
  forall w i j chunk started pending answers s,
    w < Pool.processes cpu_count ->
    In w started ->
    pending !! i = Some (j, chunk) ->
    Inv started pending answers s ->
    Inv started (delete i pending)
        (answers ++ [(j, (Pool.mapstar func chunk (worker_ident w) s).2)])
        (Pool.mapstar func chunk (worker_ident w) s).1.

Lemma process_pool_idle (fuel : nat) :
  forall sched started answers s,
    Inv started [] answers s ->
    exists started',
      Inv started' []
          (Pool.run cpu_count initializer func fuel sched started [] answers s).2
          (Pool.run cpu_count initializer func fuel sched started [] answers s).1.
Proof.
  induction fuel as [|fuel IH]; intros sched started answers s Hinv.
  - exists started. exact Hinv.
  - cbn [Pool.run]. destruct (hd (0, 0) sched) as [w i].
    destruct (bool_decide_reflect (w mod Pool.processes cpu_count ∈ started)) as [Hin|Hout].
    + rewrite lookup_nil. apply IH. exact Hinv.
    + apply IH. apply start_preserves; [| |exact Hinv].
      * apply Nat.mod_upper_bound. pose proof processes_positive. lia.
      * rewrite <- list_elem_of_In. exact Hout.
Qed.

(** A property that the start of a worker and the run of a chunk preserve
    holds when [map] is ready, with no chunk pending. *)
Lemma process_pool_invariant (fuel : nat) :
  forall sched started pending answers s,
    List.NoDup started ->
    (forall w, In w started -> w < Pool.processes cpu_count) ->
    (Pool.processes cpu_count - length started) + length pending <= fuel ->
    Inv started pending answers s ->
    exists started',
      Inv started' []
          (Pool.run cpu_count initializer func fuel sched started pending answers s).2
          (Pool.run cpu_count initializer func fuel sched started pending answers s).1.
Proof.
  induction fuel as [|fuel IH]; intros sched started pending answers s Hnd Hlt Hfuel Hinv.
  - destruct pending; [|simpl in Hfuel; lia]. exists started. exact Hinv.
  - destruct pending as [|p pending'] eqn:Hpending.
    { apply process_pool_idle. exact Hinv. }
    rewrite <- Hpending in *.
    cbn [Pool.run]. destruct (hd (0, 0) sched) as [w i].
    assert (Hw : w mod Pool.processes cpu_count < Pool.processes cpu_count).
    { apply Nat.mod_upper_bound. pose proof processes_positive. lia. }
    destruct (bool_decide_reflect (w mod Pool.processes cpu_count ∈ started)) as [Hin|Hout].
    + assert (Hi : i mod length pending < length pending).
      { apply Nat.mod_upper_bound. rewrite Hpending. discriminate. }
      destruct (lookup_lt_is_Some_2 pending _ Hi) as [[j chunk] Hchunk].
      rewrite Hchunk.
      apply list_elem_of_In in Hin.
      assert (Hstep := chunk_preserves _ _ _ _ _ _ answers s Hw Hin Hchunk Hinv).
      destruct (Pool.mapstar func chunk (worker_ident (w mod Pool.processes cpu_count)) s)
        as [s' r].
      apply IH; try assumption.
      rewrite length_delete by (eexists; exact Hchunk).
      rewrite Hpending in *. simpl in *. lia.
    + rewrite list_elem_of_In in Hout.
      assert (Hnd' : List.NoDup (w mod Pool.processes cpu_count :: started)).
      { constructor; [exact Hout|exact Hnd]. }
      assert (Hlt' : forall v, In v (w mod Pool.processes cpu_count :: started) ->
                               v < Pool.processes cpu_count).
      { intros v [<-|Hv]; [exact Hw|apply Hlt; exact Hv]. }
      assert (Hsize : length (w mod Pool.processes cpu_count :: started)
                      <= Pool.processes cpu_count).
      { assert (Hincl : incl (w mod Pool.processes cpu_count :: started)
                               (seq 0 (Pool.processes cpu_count))).
        { intros v Hv. apply in_seq. specialize (Hlt' v Hv). lia. }
        assert (Hle := NoDup_incl_length Hnd' Hincl).
        rewrite length_seq in Hle. exact Hle. }
      apply IH; try assumption.
      * simpl in *. lia.
      * apply start_preserves; assumption.
Qed.

End Invariant.
End ProcessPoolRule.

Lemma first_exception_app (a b : list (nat * outcome (list pyval))) :
  Pool.first_exception (a ++ b)
  = match Pool.first_exception a with
    | Some e => Some e
    | None => Pool.first_exception b
    end.
Proof.
  induction a as [|[j [ys|e]] a IH]; simpl; [reflexivity|exact IH|reflexivity].
Qed.

(** A chunk that is taken moves from the pending chunks to the done ones. *)
Lemma take_one_chunk {A} (done all : list (list A)) (pending : list (nat * list A))
    (i j : nat) (chunk : list A) :
  pending !! i = Some (j, chunk) ->
  done ++ List.map snd pending ≡ₚ all ->
  (done ++ [chunk]) ++ List.map snd (delete i pending) ≡ₚ all.
Proof.
  intros Hchunk Hall. etrans; [|exact Hall].
  rewrite <- app_assoc. apply Permutation_app_head.
  assert (Hperm := delete_Permutation pending i (j, chunk) Hchunk).
  symmetry.
  change ([chunk] ++ List.map snd (delete i pending))
    with (List.map snd ((j, chunk) :: delete i pending)).
  apply Permutation_map. exact Hperm.
Qed.

Section ProcessPoolSums.
Import Concurrency.
Variable cpu_count : nat.
Variable method : Pool.start_method.

Lemma mapstar_sums_run (chunk : list Z) :
  forall (me : nat) (s : State),
    Pool.mapstar call_sumOfSquares chunk me s
    = (add_trace s (List.map (fun n => (me, Enter_sumOfSquares n)) chunk),
       Returned (List.map (fun n => PyInt (sumOfSquares n)) chunk)).
Proof.
  unfold Pool.mapstar.
  induction chunk as [|n chunk IH]; intros me s.
  - simpl. unfold ret. rewrite add_trace_nil. reflexivity.
  - cbn [list_map List.map]. unfold bind at 1.
    unfold call_sumOfSquares at 1. unfold bind at 1. rewrite emit_add_trace.
    unfold ret at 1. unfold bind at 1. rewrite IH, add_trace_app. reflexivity.
Qed.

Lemma sums_entries (me : nat) (chunk : list Z) :
  sums (List.map (fun n => (me, Enter_sumOfSquares n)) chunk) = chunk.
Proof.
  induction chunk as [|n chunk IH]; [reflexivity|].
  cbn [List.map sums omap list_omap snd]. f_equal. exact IH.
Qed.

(** [findSumsMultiProcessing] under any schedule. *)
Lemma findSumsMultiProcessing_run (sched : list (nat * nat)) (numbers : list Z)
    (me : nat) (s : State) :
  exists (s' : State) (new : list (nat * event)),
    findSumsMultiProcessing cpu_count method sched numbers me s = (s', Returned PyNone)
    /\ trace s' = trace s ++ new
    /\ sums new ≡ₚ numbers.
Proof.
  unfold findSumsMultiProcessing, Pool.map_and_exit, Pool.new_processes.
  unfold bind at 1 2.
  set (s0 := mkState (trace s) (next_sid s) (threadLocal_session s)
               (foldr _ (global_session s) (Pool.worker_idents cpu_count))).
  set (tasks := Pool.task_batches cpu_count numbers).
  pose (Inv := fun (started : list nat) (pending : list (nat * list Z))
                   (answers : list (nat * outcome (list pyval))) (st : State) =>
    exists new,
      trace st = trace s ++ new
      /\ sums new ++ concat (List.map snd pending) ≡ₚ numbers
      /\ Pool.first_exception answers = None).
  destruct (process_pool_invariant cpu_count None call_sumOfSquares Inv) with
    (fuel := Pool.processes cpu_count + length tasks) (sched := sched)
    (started := @nil nat) (pending := Pool.index_tasks tasks)
    (answers := @nil (nat * outcome (list pyval))) (s := s0)
    as (started' & new & Htr & Hsums & Hok).
  - intros w started pending answers st _ _ Hinv. exact Hinv.
  - intros w i j chunk started pending answers st _ _ Hchunk (new & Htr & Hsums & Hok).
    rewrite mapstar_sums_run. cbn [fst snd].
    exists (new ++ List.map (fun n => (worker_ident w, Enter_sumOfSquares n)) chunk).
    split; [cbn [add_trace trace]; rewrite Htr, app_assoc; reflexivity|].
    split.
    + rewrite sums_app, sums_entries.
      etrans; [|exact Hsums].
      rewrite <- app_assoc. apply Permutation_app_head.
      rewrite <- !flat_map_concat_map with (f := snd).
      change chunk with (snd (j, chunk)) at 1.
      change (snd (j, chunk) ++ flat_map snd (delete i pending))
        with (flat_map snd ((j, chunk) :: delete i pending)).
      apply Permutation_flat_map. symmetry. apply delete_Permutation. exact Hchunk.
    + rewrite first_exception_app, Hok. reflexivity.
  - constructor.
  - intros w [].
  - unfold Pool.index_tasks. rewrite length_zip_with, length_seq. simpl. lia.
  - exists []. cbn [trace s0]. rewrite app_nil_r.
    split; [reflexivity|]. split; [|reflexivity].
    rewrite index_tasks_snd. unfold tasks. rewrite task_batches_concat. reflexivity.
  - destruct (Pool.run cpu_count None call_sumOfSquares
                (Pool.processes cpu_count + length tasks) sched []
                (Pool.index_tasks tasks) [] s0) as [s' answers].
    cbn [fst snd] in *. rewrite Hok. unfold ret.
    exists s', new. rewrite app_nil_r in Hsums.
    repeat split; assumption.
Qed.

End ProcessPoolSums.

Section ProcessPoolDownloads.
Import Concurrency.
Variable fetch : string -> option Response.
Variable process_name : nat -> string.
Variable cpu_count : nat.
Variable method : Pool.start_method.

Lemma setGlobalSession_run (me : nat) (s : State) :
  setGlobalSession me s
  = match global_session s !! me with
    | Some _ => (s, Returned PyNone)
    | None =>
        (mkState (trace s ++ [(me, NewSession (next_sid s))]) (S (next_sid s))
                 (threadLocal_session s) (<[me := next_sid s]> (global_session s)),
         Returned PyNone)
    end.
Proof.
  unfold setGlobalSession, read_session, write_session, new_session, bind, ret.
  destruct (global_session s !! me); reflexivity.
Qed.

Lemma process_downloadSite_run (url : string) (me session : nat) (s : State) :
  global_session s !! me = Some session ->
  downloadSite fetch process_name url me s
  = (add_trace s (process_download_events fetch process_name me session url),
     download_outcome fetch url).
Proof.
  intros Hsession.
  unfold downloadSite, read_session, session_get, current_process_name, print,
    process_download_events, download_outcome.
  unfold bind at 1. rewrite emit_add_trace.
  unfold bind at 1. unfold add_trace. cbn [global_session]. rewrite Hsession.
  unfold bind, emit, ret, raise.
  destruct (fetch url) as [response|];
    cbn [trace next_sid threadLocal_session global_session app];
    rewrite <- ?app_assoc; reflexivity.
Qed.

Lemma process_mapstar_run (session : nat) (chunk : list string) :
  forall (me : nat) (s : State),
    global_session s !! me = Some session ->
    Pool.mapstar (downloadSite fetch process_name) chunk me s
    = (add_trace s (flat_map (process_download_events fetch process_name me session)
                      (attempted fetch chunk)),
       match first_failing fetch chunk with
       | Some url => Raised (ConnectionError url)
       | None => Returned (List.map (fun _ => PyNone) chunk)
       end).
Proof.
  unfold Pool.mapstar.
  induction chunk as [|url chunk IH]; intros me s Hsession.
  - simpl. unfold ret. rewrite add_trace_nil. reflexivity.
  - cbn [list_map attempted first_failing]. unfold bind at 1.
    rewrite (process_downloadSite_run _ _ _ _ Hsession). unfold download_outcome.
    destruct (fetch url) as [response|] eqn:Hfetch.
    + cbv beta iota. unfold bind at 1. rewrite IH by exact Hsession.
      rewrite add_trace_app.
      cbn [flat_map]. destruct (first_failing fetch chunk); reflexivity.
    + cbn [flat_map]. rewrite app_nil_r. reflexivity.
Qed.

Lemma downloads_process_download_events (me session : nat) (sites : list string) :
  downloads (flat_map (process_download_events fetch process_name me session) sites)
  = sites.
Proof.
  induction sites as [|url sites IH]; [reflexivity|].
  cbn [flat_map]. rewrite downloads_app, IH.
  unfold process_download_events. destruct (fetch url); reflexivity.
Qed.

Lemma actors_process_download_events (me session : nat) (sites : list string) :
  Forall (fun t => t = me)
    (actors (flat_map (process_download_events fetch process_name me session) sites)).
Proof.
  unfold actors.
  induction sites as [|url sites IH]; [constructor|].
  cbn [flat_map]. rewrite List.map_app. apply Forall_app. split; [|exact IH].
  unfold process_download_events. destruct (fetch url); repeat constructor.
Qed.

End ProcessPoolDownloads.

Lemma all_created_app (a b : list (nat * event)) :
  all_created (a ++ b) = all_created a ++ all_created b.
Proof. apply omap_app. Qed.

Lemma all_used_app (a b : list (nat * event)) :
  all_used (a ++ b) = all_used a ++ all_used b.
Proof. apply omap_app. Qed.

Lemma closed_app (a b : list (nat * event)) : closed (a ++ b) = closed a ++ closed b.
Proof. apply omap_app. Qed.

Lemma same_added (s s' : State) (a b : list (nat * event)) :
  trace s' = trace s ++ a -> trace s' = trace s ++ b -> a = b.
Proof. intros Ha Hb. rewrite Ha in Hb. eapply app_inv_head. exact Hb. Qed.

Lemma actions_of_app (t : nat) (a b : list (nat * event)) :
  actions_of t (a ++ b) = actions_of t a ++ actions_of t b.
Proof. apply List.filter_app. Qed.

Lemma actions_of_other (t : nat) (new : list (nat * event)) :
  Forall (fun a => a <> t) (actors new) -> actions_of t new = [].
Proof.
  unfold actors, actions_of.
  induction new as [|[a ev] new IH]; intros H; [reflexivity|].
  inversion H as [|? ? Ha Hnew]; subst.
  cbn [List.filter fst]. rewrite (proj2 (Nat.eqb_neq a t) Ha). apply IH. exact Hnew.
Qed.

Lemma In_concat_Permutation {A} (done tasks : list (list A)) (x : A) :
  done ≡ₚ tasks -> In x (concat done) -> In x (concat tasks).
Proof.
  intros Hperm Hin.
  rewrite <- (List.map_id tasks), <- flat_map_concat_map.
  rewrite <- (List.map_id done), <- flat_map_concat_map in Hin.
  eapply Permutation_in; [|exact Hin].
  apply Permutation_flat_map. exact Hperm.
Qed.

Lemma first_failing_In (fetch : string -> option Response) (sites : list string)
    (url : string) :
  first_failing fetch sites = Some url -> In url sites /\ fetch url = None.
Proof.
  intros H. destruct (first_failing_Some fetch sites url H)
    as (Hnone & before & skipped & -> & _).
  split; [|exact Hnone]. apply in_or_app. right. left. reflexivity.
Qed.

Section ProcessPoolDownloadsRun.
Import Concurrency.
Variable fetch : string -> option Response.
Variable process_name : nat -> string.
Variable cpu_count : nat.
Variable method : Pool.start_method.

(** The multiprocessing [downloadAllSites] under any schedule. *)
Lemma process_downloadAllSites_run (sched : list (nat * nat)) (sites : list string)
    (me : nat) (s : State) :
  exists (s' : State) (r : outcome pyval) (new : list (nat * event)),
    downloadAllSites fetch process_name cpu_count method sched sites me s = (s', r)
    /\ trace s' = trace s ++ new
    /\ downloads new ≡ₚ flat_map (attempted fetch) (Pool.task_batches cpu_count sites)
    /\ ((first_failing fetch sites = None /\ r = Returned PyNone)
        \/ exists url, In url sites /\ fetch url = None
                       /\ r = Raised (ConnectionError url))
    /\ Forall (fun t => In t (Pool.worker_idents cpu_count)) (actors new).
Proof.
  unfold downloadAllSites, Pool.map_and_exit, Pool.new_processes.
  unfold bind at 1 2.
  set (s0 := mkState (trace s) (next_sid s) (threadLocal_session s)
               (foldr _ (global_session s) (Pool.worker_idents cpu_count))).
  set (tasks := Pool.task_batches cpu_count sites).
  set (func := downloadSite fetch process_name).
  pose (Inv := fun (started : list nat) (pending : list (nat * list string))
                   (answers : list (nat * outcome (list pyval))) (st : State) =>
    exists new done,
      trace st = trace s ++ new
      /\ done ++ List.map snd pending ≡ₚ tasks
      /\ downloads new ≡ₚ flat_map (attempted fetch) done
      /\ (Pool.first_exception answers = None <->
          Forall (fun c => first_failing fetch c = None) done)
      /\ (forall e, Pool.first_exception answers = Some e ->
            exists url, e = ConnectionError url /\ fetch url = None
                        /\ In url (concat done))
      /\ Forall (fun t => In t (Pool.worker_idents cpu_count)) (actors new)
      /\ forall w, w < Pool.processes cpu_count -> In w started ->
           is_Some (global_session st !! worker_ident w)).
  destruct (process_pool_invariant cpu_count (Some setGlobalSession) func Inv) with
    (fuel := Pool.processes cpu_count + length tasks) (sched := sched)
    (started := @nil nat) (pending := Pool.index_tasks tasks)
    (answers := @nil (nat * outcome (list pyval))) (s := s0)
    as (started' & new & done & Htr & Hdone & Hcalls & Hok & Herr & Hact & Hsess).
  - (* a worker starts *)
    intros w started pending answers st Hw Hfresh
      (new & done & Htr & Hdone & Hcalls & Hok & Herr & Hact & Hsess).
    unfold Pool.start_worker. rewrite setGlobalSession_run.
    destruct (global_session st !! worker_ident w) as [stored|] eqn:Hstored; cbn [fst].
    + (* a forked worker that has inherited a session *)
      exists new, done.
      repeat (split; [assumption|]).
      intros v Hv [<-|Hin]; [rewrite Hstored; eauto|apply Hsess; assumption].
    + exists (new ++ [(worker_ident w, NewSession (next_sid st))]), done.
      cbn [trace global_session].
      split; [rewrite Htr, app_assoc; reflexivity|].
      split; [exact Hdone|].
      split; [rewrite downloads_app, app_nil_r; exact Hcalls|].
      split; [exact Hok|]. split; [exact Herr|].
      split.
      { unfold actors in *. rewrite List.map_app. apply Forall_app. split; [exact Hact|].
        repeat constructor. apply worker_ident_In. exact Hw. }
      intros v Hv Hin. destruct (decide (v = w)) as [->|Hne].
      * rewrite lookup_insert_eq. eauto.
      * rewrite lookup_insert_ne by (unfold worker_ident; congruence).
        destruct Hin as [Heq|Hin]; [congruence|apply Hsess; assumption].
  - (* a started worker runs a chunk *)
    intros w i j chunk started pending answers st Hw Hin Hchunk
      (new & done & Htr & Hdone & Hcalls & Hok & Herr & Hact & Hsess).
    destruct (Hsess w Hw Hin) as [sid Hsid].
    unfold func. rewrite (process_mapstar_run fetch process_name sid chunk _ _ Hsid).
    cbn [fst snd].
    set (evs := flat_map (process_download_events fetch process_name (worker_ident w) sid)
                  (attempted fetch chunk)).
    exists (new ++ evs), (done ++ [chunk]).
    cbn [add_trace trace global_session].
    split; [rewrite Htr, app_assoc; reflexivity|].
    split; [apply take_one_chunk with (j := j); assumption|].
    split.
    { unfold evs. rewrite downloads_app, downloads_process_download_events, flat_map_app.
      cbn [flat_map]. rewrite app_nil_r. apply Permutation_app_tail. exact Hcalls. }
    split.
    { rewrite first_exception_app, Forall_app, <- Hok.
      destruct (Pool.first_exception answers) as [e|].
      - split; [discriminate|]. intros [? _]. discriminate.
      - destruct (first_failing fetch chunk) as [url|] eqn:Hfail;
          cbn [Pool.first_exception].
        + split; [discriminate|]. intros [_ H].
          inversion H as [|? ? Hchunk_ok _]. congruence.
        + split; [|reflexivity]. intros _. split; [reflexivity|].
          constructor; [exact Hfail|constructor]. }
    split.
    { intros e. rewrite first_exception_app, concat_app.
      destruct (Pool.first_exception answers) as [e'|] eqn:He'.
      - intros [= <-]. destruct (Herr e' eq_refl) as (url & -> & Hnone & Hurl).
        exists url. repeat split; [exact Hnone|]. apply in_or_app. left. exact Hurl.
      - destruct (first_failing fetch chunk) as [url|] eqn:Hfail;
          cbn [Pool.first_exception]; [|discriminate].
        intros [= <-]. destruct (first_failing_In fetch chunk url Hfail) as [Hurl Hnone].
        exists url. repeat split; [exact Hnone|].
        apply in_or_app. right. cbn [concat]. rewrite app_nil_r. exact Hurl. }
    assert (Hmine := actors_process_download_events fetch process_name
                       (worker_ident w) sid (attempted fetch chunk)).
    fold evs in Hmine.
    split.
    { unfold actors in *. rewrite List.map_app. apply Forall_app. split; [exact Hact|].
      eapply Forall_impl; [exact Hmine|]. intros a ->. apply worker_ident_In. exact Hw. }
    exact Hsess.
  - constructor.
  - intros w [].
  - unfold Pool.index_tasks. rewrite length_zip_with, length_seq. simpl. lia.
  - (* at the start *)
    exists [], []. cbn [trace s0 app]. rewrite app_nil_r, index_tasks_snd.
    split; [reflexivity|]. split; [reflexivity|]. split; [reflexivity|].
    split; [split; [constructor|reflexivity]|].
    split; [intros e; discriminate|].
    split; [constructor|].
    intros w Hw [].
  - (* when map is ready *)
    destruct (Pool.run cpu_count (Some setGlobalSession) func
                (Pool.processes cpu_count + length tasks) sched []
                (Pool.index_tasks tasks) [] s0) as [s' answers].
    cbn [fst snd List.map] in *. rewrite app_nil_r in Hdone.
    assert (Hin_sites : forall url, In url (concat done) -> In url sites).
    { intros url Hurl. rewrite <- (task_batches_concat cpu_count sites).
      eapply In_concat_Permutation; [exact Hdone|exact Hurl]. }
    exists s'.
    exists (match Pool.first_exception answers with
            | Some e => Raised e
            | None => Returned PyNone
            end), new.
    split; [destruct (Pool.first_exception answers); reflexivity|].
    split; [exact Htr|].
    split; [etrans; [exact Hcalls|]; apply Permutation_flat_map; exact Hdone|].
    split.
    { destruct (Pool.first_exception answers) as [e|] eqn:He.
      - right. destruct (Herr e eq_refl) as (url & -> & Hnone & Hurl).
        exists url. repeat split; auto.
      - left. split; [|reflexivity].
        apply first_failing_None. intros url Hurl.
        assert (Hall := proj1 Hok eq_refl).
        rewrite <- (task_batches_concat cpu_count sites) in Hurl.
        apply (In_concat_Permutation _ done) in Hurl; [|symmetry; exact Hdone].
        apply in_concat in Hurl. destruct Hurl as (c & Hc & Hurl).
        rewrite Forall_forall in Hall.
        assert (Hgood := Hall c ltac:(apply list_elem_of_In; exact Hc)).
        apply (proj1 (first_failing_None fetch c) Hgood). exact Hurl. }
    exact Hact.
Qed.

End ProcessPoolDownloadsRun.

(** ** Each worker and its session *)

Lemma actions_of_mine (t : nat) (evs : list (nat * event)) :
  Forall (fun a => a = t) (actors evs) -> actions_of t evs = evs.
Proof.
  unfold actors, actions_of.
  induction evs as [|[a ev] evs IH]; intros H; [reflexivity|].
  inversion H as [|? ? Ha Hevs]. cbn [fst] in Ha. subst.
  cbn [List.filter fst]. rewrite Nat.eqb_refl. f_equal. apply IH. exact Hevs.
Qed.

Lemma created_by_actions_of (t : nat) (tr : list (nat * event)) :
  created_by t tr = all_created (actions_of t tr).
Proof.
  unfold created_by, all_created, actions_of.
  induction tr as [|[a ev] tr IH]; [reflexivity|].
  cbn [List.filter omap list_omap fst snd].
  destruct (Nat.eqb_spec a t) as [->|Hne].
  - cbn [omap list_omap snd]. rewrite IH.
    destruct ev; try reflexivity. rewrite decide_True by reflexivity. reflexivity.
  - rewrite IH. destruct ev; try reflexivity.
    rewrite decide_False by exact Hne. reflexivity.
Qed.

Lemma used_by_actions_of (t : nat) (tr : list (nat * event)) :
  used_by t tr = all_used (actions_of t tr).
Proof.
  unfold used_by, all_used, actions_of.
  induction tr as [|[a ev] tr IH]; [reflexivity|].
  cbn [List.filter omap list_omap fst snd].
  destruct (Nat.eqb_spec a t) as [->|Hne].
  - cbn [omap list_omap snd]. rewrite IH.
    destruct ev; try reflexivity. rewrite decide_True by reflexivity. reflexivity.
  - rewrite IH. destruct ev; try reflexivity.
    rewrite decide_False by exact Hne. reflexivity.
Qed.

Lemma all_used_requests (tr : list (nat * event)) :
  length (all_used tr) = length (requests tr).
Proof.
  unfold all_used, requests.
  induction tr as [|[a ev] tr IH]; [reflexivity|].
  cbn [omap list_omap snd]. destruct ev; try exact IH.
  cbn [length]. rewrite IH. reflexivity.
Qed.

Section ThreadPoolViews.
Import URLDownloadMultiThreaded.
Variable fetch : string -> option Response.

(** The actions of a thread that has worked on [url] first and then on
    [rest], with [sid] for its session. *)
Lemma thread_view_sessions (me sid : nat) (url : string) (rest : list string) :
  all_created (threaded_download_events fetch me None sid url
               ++ flat_map (threaded_download_events fetch me (Some sid) sid) rest)
  = [sid]
  /\ all_used (threaded_download_events fetch me None sid url
               ++ flat_map (threaded_download_events fetch me (Some sid) sid) rest)
     = replicate (S (length rest)) sid
  /\ downloads (threaded_download_events fetch me None sid url
                ++ flat_map (threaded_download_events fetch me (Some sid) sid) rest)
     = url :: rest.
Proof.
  assert (Hrest : all_created (flat_map (threaded_download_events fetch me (Some sid) sid)
                                 rest) = []
                  /\ all_used (flat_map (threaded_download_events fetch me (Some sid) sid)
                                 rest) = replicate (length rest) sid
                  /\ downloads (flat_map (threaded_download_events fetch me (Some sid) sid)
                                  rest) = rest).
  { induction rest as [|u rest (IHc & IHu & IHd)]; [repeat split|].
    cbn [flat_map length replicate].
    rewrite all_created_app, all_used_app, downloads_app, IHc, IHu, IHd.
    unfold threaded_download_events. destruct (fetch u); repeat split. }
  destruct Hrest as (Hc & Hu & Hd).
  rewrite all_created_app, all_used_app, downloads_app, Hc, Hu, Hd.
  unfold threaded_download_events. destruct (fetch url); repeat split.
Qed.

(** The run of the thread pool, thread by thread, under any schedule: a
    thread that acts at all creates its session within its first call of
    [downloadSite], stores it, and goes through it in that call and in every
    later one. *)
Lemma threaded_views_run (sched : list (nat * nat)) (sites : list string)
    (me : nat) (s : State) :
  exists (s' : State) (new : list (nat * event)),
    downloadAllSites fetch sched sites me s = (s', Returned PyNone)
    /\ trace s' = trace s ++ new
    /\ forall t,
         actions_of t new = []
         \/ exists sid url rest,
              In t (ThreadPoolExecutor.worker_idents max_workers)
              /\ threadLocal_session s' !! t = Some sid
              /\ actions_of t new
                 = threaded_download_events fetch t None sid url
                     ++ flat_map (threaded_download_events fetch t (Some sid) sid) rest.
Proof.
  unfold downloadAllSites, ThreadPoolExecutor.map_and_shutdown,
    ThreadPoolExecutor.new_threads.
  unfold bind at 1 2.
  set (workers := ThreadPoolExecutor.worker_idents max_workers).
  set (s0 := mkState (trace s) (next_sid s)
               (foldr delete (threadLocal_session s) workers) (global_session s)).
  pose (Inv := fun (pending : list string) (futures : list (string * outcome pyval))
                   (st : State) =>
    exists new,
      trace st = trace s ++ new
      /\ Forall (fun t => In t workers) (actors new)
      /\ forall t, In t workers ->
           match threadLocal_session st !! t with
           | None => actions_of t new = []
           | Some sid =>
               exists url rest,
                 actions_of t new
                 = threaded_download_events fetch t None sid url
                     ++ flat_map (threaded_download_events fetch t (Some sid) sid) rest
           end).
  assert (Hend :=
    thread_pool_invariant max_workers (downloadSite fetch) ltac:(unfold max_workers; lia) Inv).
  assert (Hstep : forall w i item pending futures st,
             w < max_workers ->
             pending !! i = Some item ->
             Inv pending futures st ->
             Inv (delete i pending)
                 (futures ++ [(item, (downloadSite fetch item (worker_ident w) st).2)])
                 (downloadSite fetch item (worker_ident w) st).1).
  { intros w i item pending futures st Hw Hitem (new & Htr & Hact & Hview).
    assert (Hme : In (worker_ident w) workers) by (apply worker_ident_In; exact Hw).
    rewrite threaded_downloadSite_run. cbn [fst snd].
    set (mine := worker_ident w) in *.
    set (evs := threaded_download_events fetch mine (threadLocal_session st !! mine)
                  (next_sid st) item).
    assert (Hmine : Forall (fun a => a = mine) (actors evs))
      by apply actors_threaded_download_events.
    exists (new ++ evs). cbn [trace threadLocal_session].
    split; [rewrite Htr, app_assoc; reflexivity|].
    split.
    { unfold actors in *. rewrite List.map_app. apply Forall_app. split; [exact Hact|].
      eapply Forall_impl; [exact Hmine|]. intros a ->. exact Hme. }
    intros t Ht. specialize (Hview t Ht). rewrite actions_of_app.
    destruct (decide (t = mine)) as [Heq|Hne].
    - rewrite Heq in *. rewrite (actions_of_mine mine evs Hmine). unfold evs.
      destruct (threadLocal_session st !! mine) as [sid|] eqn:Hstored.
      + rewrite Hstored. destruct Hview as (url & rest & ->).
        exists url, (rest ++ [item]).
        rewrite flat_map_app. cbn [flat_map]. rewrite app_nil_r, app_assoc. reflexivity.
      + rewrite lookup_insert_eq, Hview. exists item, []. cbn [flat_map app].
        rewrite app_nil_r. reflexivity.
    - assert (Hother : Forall (fun a => a <> t) (actors evs)).
      { eapply Forall_impl; [exact Hmine|]. intros a -> Heq. apply Hne. symmetry. exact Heq. }
      rewrite (actions_of_other t evs Hother), app_nil_r.
      destruct (threadLocal_session st !! mine); [exact Hview|].
      rewrite lookup_insert_ne by (intros Heq; apply Hne; symmetry; exact Heq).
      exact Hview. }
  specialize (Hend Hstep (length sites) sched sites [] s0 ltac:(lia)).
  assert (Hinit : Inv sites [] s0).
  { exists []. cbn [trace s0]. rewrite app_nil_r.
    split; [reflexivity|]. split; [constructor|].
    intros t Ht. unfold s0. cbn [threadLocal_session].
    rewrite (lookup_forgotten _ _ t Ht). reflexivity. }
  specialize (Hend Hinit).
  destruct (ThreadPoolExecutor.run max_workers (downloadSite fetch) (length sites)
              sched sites [] s0) as [s' futures].
  cbn [fst snd] in Hend. destruct Hend as (new & Htr & Hact & Hview).
  exists s', new. unfold ret.
  split; [reflexivity|]. split; [exact Htr|].
  intros t. destruct (in_dec Nat.eq_dec t workers) as [Ht|Hout].
  - specialize (Hview t Ht).
    destruct (threadLocal_session s' !! t) as [sid|] eqn:Hstored; [|left; exact Hview].
    destruct Hview as (url & rest & Hview).
    right. exists sid, url, rest. repeat split; assumption.
  - left. apply actions_of_other.
    eapply Forall_impl; [exact Hact|]. intros a Ha ->. contradiction.
Qed.

End ThreadPoolViews.

Section ProcessPoolSessions.
Import Concurrency.
Variable fetch : string -> option Response.
Variable process_name : nat -> string.
Variable cpu_count : nat.
Variable method : Pool.start_method.

Lemma process_download_events_kind (me session : nat) (sites : list string) :
  Forall download_action
    (flat_map (process_download_events fetch process_name me session) sites)
  /\ all_created (flat_map (process_download_events fetch process_name me session) sites)
     = []
  /\ all_used (flat_map (process_download_events fetch process_name me session) sites)
     = replicate (length sites) session.
Proof.
  induction sites as [|url sites (Hk & Hc & Hu)]; [repeat split; constructor|].
  cbn [flat_map length replicate]. rewrite all_created_app, all_used_app, Hc, Hu.
  unfold process_download_events, download_action.
  destruct (fetch url); repeat split; try (apply Forall_app; split; [|exact Hk]);
    repeat constructor.
Qed.

Lemma attempted_length (sites : list string) :
  length (attempted fetch sites) <= length sites.
Proof.
  destruct (attempted_prefix fetch sites) as [skipped H].
  rewrite H at 2. rewrite length_app. lia.
Qed.

(** The pool of [downloadAllSites] run from a state in which every worker
    process finds [inh] in its global [session], worker by worker and under
    any schedule.  When the workers find no session, a worker that acts at
    all starts by creating one, in the initializer, and sends the request of
    each of its calls of [downloadSite] through it; no two workers create the
    same session.  When the workers find the session of their parent, they
    create none and send every request through that one. *)
Lemma pool_sessions_from (inh : option nat) (sched : list (nat * nat))
    (sites : list string) (s0 : State) :
  (forall w, w < Pool.processes cpu_count ->
     global_session s0 !! worker_ident w = inh) ->
  exists new,
    trace (Pool.run cpu_count (Some setGlobalSession) (downloadSite fetch process_name)
             (Pool.processes cpu_count + length (Pool.task_batches cpu_count sites))
             sched [] (Pool.index_tasks (Pool.task_batches cpu_count sites)) [] s0).1
    = trace s0 ++ new
    /\ Forall download_action new
    /\ Forall (fun t => In t (Pool.worker_idents cpu_count)) (actors new)
    /\ length (all_created new) <= Pool.processes cpu_count
    /\ length (all_used new) <= length sites
    /\ length (downloads new) <= length sites
    /\ match inh with
       | None =>
           (forall t,
              actions_of t new = []
              \/ exists sid items,
                   actions_of t new
                   = (t, NewSession sid)
                       :: flat_map (process_download_events fetch process_name t sid)
                            items)
           /\ (forall t t' sid,
                 In sid (created_by t new) -> In sid (created_by t' new) -> t = t')
       | Some inherited =>
           forall t, exists items,
             actions_of t new
             = flat_map (process_download_events fetch process_name t inherited) items
       end.
Proof.
  intros Hfound.
  set (workers := Pool.worker_idents cpu_count).
  set (tasks := Pool.task_batches cpu_count sites).
  set (func := downloadSite fetch process_name).
  pose (Inv := fun (started : list nat) (pending : list (nat * list string))
                   (answers : list (nat * outcome (list pyval))) (st : State) =>
    exists new,
      trace st = trace s0 ++ new
      /\ Forall download_action new
      /\ Forall (fun t => In t workers) (actors new)
      /\ List.NoDup started
      /\ (forall w, In w started -> w < Pool.processes cpu_count)
      /\ length (all_created new) <= length started
      /\ length (all_used new) + length (concat (List.map snd pending)) <= length sites
      /\ length (downloads new) + length (concat (List.map snd pending)) <= length sites
      /\ (forall w, w < Pool.processes cpu_count ->
            (~ In w started ->
             global_session st !! worker_ident w = inh
             /\ actions_of (worker_ident w) new = [])
            /\ (In w started ->
                exists sid items,
                  global_session st !! worker_ident w = Some sid
                  /\ actions_of (worker_ident w) new
                     = match inh with
                       | None => [(worker_ident w, NewSession sid)]
                       | Some _ => []
                       end
                       ++ flat_map (process_download_events fetch process_name
                                      (worker_ident w) sid) items
                  /\ (forall found, inh = Some found -> sid = found)))
      /\ (inh = None ->
          forall w sid, w < Pool.processes cpu_count ->
            global_session st !! worker_ident w = Some sid -> sid < next_sid st)
      /\ (inh = None ->
          forall w w' sid, w < Pool.processes cpu_count -> w' < Pool.processes cpu_count ->
            global_session st !! worker_ident w = Some sid ->
            global_session st !! worker_ident w' = Some sid -> w = w')).
  destruct (process_pool_invariant cpu_count (Some setGlobalSession) func Inv) with
    (fuel := Pool.processes cpu_count + length tasks) (sched := sched)
    (started := @nil nat) (pending := Pool.index_tasks tasks)
    (answers := @nil (nat * outcome (list pyval))) (s := s0)
    as (started' & new & Htr & Hkind & Hact & Hnd & Hlt & Hcreated & Hused & Hcalls
        & Hsess & Hbound & Hinj).
  - (* a worker starts *)
    intros w started pending answers st Hw Hfresh
      (new & Htr & Hkind & Hact & Hnd & Hlt & Hcreated & Hused & Hcalls
       & Hsess & Hbound & Hinj).
    unfold Pool.start_worker. rewrite setGlobalSession_run.
    destruct (Hsess w Hw) as (Hnot & _). destruct (Hnot Hfresh) as (Hstored & Hnone).
    rewrite Hstored. subst Inv. cbv beta.
    destruct inh as [found|]; cbn [fst].
    + (* the worker has found the session of its parent *)
      exists new.
      split; [exact Htr|]. split; [exact Hkind|]. split; [exact Hact|].
      split; [constructor; assumption|].
      split; [intros v [<-|Hv]; [exact Hw|apply Hlt; exact Hv]|].
      split; [cbn [length]; lia|].
      split; [exact Hused|]. split; [exact Hcalls|].
      split; [|split; intros Heq; discriminate Heq].
      intros v Hv. destruct (Hsess v Hv) as (Hnot' & Hin').
      split.
      * intros Hout. apply Hnot'. intros Hin. apply Hout. right. exact Hin.
      * intros [Heq|Hin]; [|apply Hin'; exact Hin].
        subst v. exists found, []. split; [exact Hstored|].
        split; [rewrite Hnone; reflexivity|].
        intros found' [= <-]. reflexivity.
    + (* the worker creates its session *)
      exists (new ++ [(worker_ident w, NewSession (next_sid st))]).
      cbn [trace next_sid global_session].
      split; [rewrite Htr, app_assoc; reflexivity|].
      split; [apply Forall_app; split; [exact Hkind|repeat constructor]|].
      split.
      { unfold actors in *. rewrite List.map_app. apply Forall_app. split; [exact Hact|].
        repeat constructor. apply worker_ident_In. exact Hw. }
      split; [constructor; assumption|].
      split; [intros v [<-|Hv]; [exact Hw|apply Hlt; exact Hv]|].
      split; [rewrite all_created_app, length_app; cbn; lia|].
      split; [rewrite all_used_app, app_nil_r; exact Hused|].
      split; [rewrite downloads_app, app_nil_r; exact Hcalls|].
      split.
      { intros v Hv. rewrite actions_of_app.
        destruct (decide (v = w)) as [->|Hne].
        - split; [intros Hout; exfalso; apply Hout; left; reflexivity|].
          intros _. exists (next_sid st), [].
          rewrite lookup_insert_eq, Hnone. unfold actions_of.
          cbn [List.filter fst flat_map app]. rewrite Nat.eqb_refl.
          split; [reflexivity|]. split; [reflexivity|]. intros found Heq. discriminate Heq.
        - assert (Hother : Forall (fun a => a <> worker_ident v)
                             (actors [(worker_ident w, NewSession (next_sid st))])).
          { repeat constructor. cbn. unfold worker_ident. congruence. }
          rewrite lookup_insert_ne by (unfold worker_ident; congruence).
          rewrite (actions_of_other _ _ Hother), app_nil_r.
          destruct (Hsess v Hv) as (Hnot' & Hin').
          split.
          + intros Hout. apply Hnot'. intros Hin. apply Hout. right. exact Hin.
          + intros [Heq|Hin]; [congruence|apply Hin'; exact Hin]. }
      split.
      { intros _ v sid Hv. destruct (decide (v = w)) as [->|Hne].
        - rewrite lookup_insert_eq. intros [= <-]. lia.
        - rewrite lookup_insert_ne by (unfold worker_ident; congruence).
          intros Hsid. specialize (Hbound eq_refl v sid Hv Hsid). lia. }
      intros _ v v' sid Hv Hv'.
      destruct (decide (v = w)) as [Heq|Hne], (decide (v' = w)) as [Heq'|Hne'].
      * congruence.
      * rewrite Heq, lookup_insert_eq, lookup_insert_ne by (unfold worker_ident; congruence).
        intros [= <-] Hsid. specialize (Hbound eq_refl v' _ Hv' Hsid). lia.
      * rewrite Heq', lookup_insert_eq, lookup_insert_ne by (unfold worker_ident; congruence).
        intros Hsid [= <-]. specialize (Hbound eq_refl v _ Hv Hsid). lia.
      * rewrite !lookup_insert_ne by (unfold worker_ident; congruence).
        apply (Hinj eq_refl); assumption.
  - (* a started worker runs a chunk *)
    intros w i j chunk started pending answers st Hw Hin Hchunk
      (new & Htr & Hkind & Hact & Hnd & Hlt & Hcreated & Hused & Hcalls
       & Hsess & Hbound & Hinj).
    destruct (Hsess w Hw) as (_ & Hstarted).
    destruct (Hstarted Hin) as (sid & items & Hsid & Hview & Hsame).
    unfold func. rewrite (process_mapstar_run fetch process_name sid chunk _ _ Hsid).
    cbn [fst snd].
    set (evs := flat_map (process_download_events fetch process_name (worker_ident w) sid)
                  (attempted fetch chunk)).
    destruct (process_download_events_kind (worker_ident w) sid (attempted fetch chunk))
      as (Hk & Hc & Hu). fold evs in Hk, Hc, Hu.
    assert (Hd : downloads evs = attempted fetch chunk)
      by apply downloads_process_download_events.
    assert (Hpend : length (concat (List.map snd pending))
                    = length chunk + length (concat (List.map snd (delete i pending)))).
    { assert (Hperm := delete_Permutation pending i (j, chunk) Hchunk).
      rewrite <- !flat_map_concat_map.
      rewrite (Permutation_length (Permutation_flat_map snd Hperm)).
      cbn [flat_map snd]. apply length_app. }
    assert (Hatt := attempted_length chunk).
    assert (Hmine := actors_process_download_events fetch process_name
                       (worker_ident w) sid (attempted fetch chunk)).
    fold evs in Hmine.
    exists (new ++ evs). cbn [add_trace trace global_session next_sid].
    split; [rewrite Htr, app_assoc; reflexivity|].
    split; [apply Forall_app; split; assumption|].
    split.
    { unfold actors in *. rewrite List.map_app. apply Forall_app. split; [exact Hact|].
      eapply Forall_impl; [exact Hmine|]. intros a ->. apply worker_ident_In. exact Hw. }
    split; [exact Hnd|]. split; [exact Hlt|].
    split; [rewrite all_created_app, Hc, app_nil_r; exact Hcreated|].
    split; [rewrite all_used_app, length_app, Hu, length_replicate; lia|].
    split; [rewrite downloads_app, length_app, Hd; lia|].
    split; [|split; assumption].
    intros v Hv. rewrite actions_of_app.
    destruct (decide (v = w)) as [->|Hne].
    + split; [intros Hout; contradiction|].
      intros _. exists sid, (items ++ attempted fetch chunk).
      split; [exact Hsid|]. split; [|exact Hsame].
      rewrite Hview, (actions_of_mine _ evs Hmine), flat_map_app, app_assoc.
      reflexivity.
    + assert (Hother : Forall (fun a => a <> worker_ident v) (actors evs)).
      { eapply Forall_impl; [exact Hmine|]. intros a ->. unfold worker_ident. congruence. }
      rewrite (actions_of_other _ _ Hother), app_nil_r. exact (Hsess v Hv).
  - constructor.
  - intros w [].
  - unfold Pool.index_tasks. rewrite length_zip_with, length_seq. simpl. lia.
  - (* at the start *)
    exists []. cbn [app all_created all_used downloads omap list_omap length].
    rewrite app_nil_r, index_tasks_snd. unfold tasks. rewrite task_batches_concat.
    split; [reflexivity|]. split; [constructor|]. split; [constructor|].
    split; [constructor|]. split; [intros w []|].
    split; [lia|]. split; [lia|]. split; [lia|].
    split.
    { intros w Hw. split; [|intros []].
      intros _. split; [apply Hfound; exact Hw|reflexivity]. }
    split.
    { intros Hnone w sid Hw. rewrite (Hfound w Hw), Hnone. discriminate. }
    intros Hnone w w' sid Hw _. rewrite (Hfound w Hw), Hnone. discriminate.
  - (* when map is ready *)
    fold tasks func.
    destruct (Pool.run cpu_count (Some setGlobalSession) func
                (Pool.processes cpu_count + length tasks) sched []
                (Pool.index_tasks tasks) [] s0) as [s' answers].
    cbn [fst snd List.map concat length] in *.
    exists new.
    split; [exact Htr|]. split; [exact Hkind|]. split; [exact Hact|].
    split.
    { assert (Hincl : incl started' (seq 0 (Pool.processes cpu_count))).
      { intros w Hin. apply in_seq. specialize (Hlt w Hin). lia. }
      assert (Hle := NoDup_incl_length Hnd Hincl).
      rewrite length_seq in Hle. lia. }
    split; [lia|]. split; [lia|].
    assert (Hworker : forall t,
              (exists w, t = worker_ident w /\ w < Pool.processes cpu_count)
              \/ actions_of t new = []).
    { intros t. destruct (in_dec Nat.eq_dec t workers) as [Ht|Hout].
      - left. unfold workers, Pool.worker_idents in Ht. apply in_map_iff in Ht.
        destruct Ht as (w & <- & Hw). apply in_seq in Hw.
        exists w. split; [reflexivity|lia].
      - right. apply actions_of_other.
        eapply Forall_impl; [exact Hact|]. intros a Ha ->. contradiction. }
    destruct inh as [found|].
    + intros t. destruct (Hworker t) as [(w & -> & Hw)|Hnone];
        [|exists []; exact Hnone].
      destruct (Hsess w Hw) as (Hnot & Hstarted).
      destruct (in_dec Nat.eq_dec w started') as [Hin|Hout].
      * destruct (Hstarted Hin) as (sid & items & _ & Hview & Hsame).
        rewrite (Hsame found eq_refl) in Hview. exists items. exact Hview.
      * exists []. apply (Hnot Hout).
    + assert (Hstored : forall t sid, In sid (created_by t new) ->
                exists w, t = worker_ident w /\ w < Pool.processes cpu_count
                          /\ global_session s' !! t = Some sid).
      { intros t sid Hin. rewrite created_by_actions_of in Hin.
        destruct (Hworker t) as [(w & -> & Hw)|Hnone];
          [|rewrite Hnone in Hin; destruct Hin].
        destruct (Hsess w Hw) as (Hnot & Hstarted).
        destruct (in_dec Nat.eq_dec w started') as [Hin'|Hout].
        - destruct (Hstarted Hin') as (sid' & items & Hsid & Hview & _).
          rewrite Hview, all_created_app in Hin.
          destruct (process_download_events_kind (worker_ident w) sid' items)
            as (_ & Hc & _).
          rewrite Hc, app_nil_r in Hin. destruct Hin as [<-|[]].
          exists w. repeat split; assumption.
        - destruct (Hnot Hout) as (_ & Hnone). rewrite Hnone in Hin. destruct Hin. }
      split.
      * intros t. destruct (Hworker t) as [(w & -> & Hw)|Hnone]; [|left; exact Hnone].
        destruct (Hsess w Hw) as (Hnot & Hstarted).
        destruct (in_dec Nat.eq_dec w started') as [Hin|Hout].
        -- destruct (Hstarted Hin) as (sid & items & _ & Hview & _).
           right. exists sid, items. exact Hview.
        -- left. apply (Hnot Hout).
      * intros t t' sid Hin Hin'.
        destruct (Hstored t sid Hin) as (w & -> & Hw & Hs).
        destruct (Hstored t' sid Hin') as (w' & -> & Hw' & Hs').
        f_equal. exact (Hinj eq_refl w w' sid Hw Hw' Hs Hs').
Qed.

(** The sessions of a run of the process-pool [downloadAllSites], under any
    schedule and any start method. *)
Lemma process_sessions_run (sched : list (nat * nat)) (sites : list string)
    (me : nat) (s : State) :
  exists (s' : State) (r : outcome pyval) (new : list (nat * event)),
    downloadAllSites fetch process_name cpu_count method sched sites me s = (s', r)
    /\ trace s' = trace s ++ new
    /\ Forall download_action new
    /\ Forall (fun t => In t (Pool.worker_idents cpu_count)) (actors new)
    /\ length (all_created new) <= Pool.processes cpu_count
    /\ length (all_used new) <= length sites
    /\ length (downloads new) <= length sites
    /\ match Pool.inherited method me (global_session s) with
       | None =>
           (forall t,
              actions_of t new = []
              \/ exists sid items,
                   actions_of t new
                   = (t, NewSession sid)
                       :: flat_map (process_download_events fetch process_name t sid)
                            items)
           /\ (forall t t' sid,
                 In sid (created_by t new) -> In sid (created_by t' new) -> t = t')
       | Some inherited =>
           forall t, exists items,
             actions_of t new
             = flat_map (process_download_events fetch process_name t inherited) items
       end.
Proof.
  unfold downloadAllSites, Pool.map_and_exit, Pool.new_processes.
  unfold bind at 1 2.
  set (s0 := mkState (trace s) (next_sid s) (threadLocal_session s)
               (foldr _ (global_session s) (Pool.worker_idents cpu_count))).
  destruct (pool_sessions_from (Pool.inherited method me (global_session s))
              sched sites s0) as (new & Htr & Hrest).
  { intros w Hw. unfold s0. cbn [global_session].
    apply lookup_inherited. apply worker_ident_In. exact Hw. }
  destruct (Pool.run cpu_count (Some setGlobalSession) (downloadSite fetch process_name)
              (Pool.processes cpu_count + length (Pool.task_batches cpu_count sites))
              sched [] (Pool.index_tasks (Pool.task_batches cpu_count sites)) [] s0)
    as [s' answers].
  cbn [fst] in Htr.
  exists s'.
  exists (match Pool.first_exception answers with
          | Some e => Raised e
          | None => Returned PyNone
          end), new.
  split; [destruct (Pool.first_exception answers); reflexivity|].
  split; [exact Htr|]. exact Hrest.
Qed.

End ProcessPoolSessions.

(** ** The event loop *)
Section EventLoop.
Import asyncio URLDownloadAsyncIO.
Variable fetch : string -> option Response.

Lemma downloadSite_started_run (session : nat) (url : string) (me : nat) (s : State) :
  downloadSite_started fetch session url me s
  = (add_trace s (start_events me session url), Await (downloadSite_resumed fetch url)).
Proof.
  unfold downloadSite_started, bind. rewrite !emit_add_trace, add_trace_app. reflexivity.
Qed.

Lemma downloadSite_resumed_run (url : string) (me : nat) (s : State) :
  downloadSite_resumed fetch url me s
  = (add_trace s (finish_events fetch me url), Done (download_outcome fetch url)).
Proof.
  unfold downloadSite_resumed, finish_events, download_outcome, print.
  destruct (fetch url) as [response|].
  - rewrite emit_add_trace. reflexivity.
  - rewrite add_trace_nil. reflexivity.
Qed.

(** One iteration of the loop on tasks of [downloadSite]: some task that is
    not finished moves to its next phase and leaves the events of the phase
    it was in. *)
Lemma advance_nth_tasks (session : nat) (sites : list string) :
  forall (phases : list phase) (k me : nat) (s : State),
    length phases = length sites ->
    k < length (filter (fun c => unfinished c = true) (tasks_of fetch session sites phases)) ->
    exists p url ph,
      sites !! p = Some url
      /\ phases !! p = Some ph
      /\ ph <> Finished
      /\ advance_nth k (tasks_of fetch session sites phases) me s
         = (add_trace s (phase_events fetch me session url ph),
            tasks_of fetch session sites (<[p := next_phase ph]> phases)).
Proof.
  unfold tasks_of.
  induction sites as [|u sites IH]; intros [|ph phases] k me s Hlen Hk;
    try discriminate Hlen.
  - simpl in Hk. lia.
  - injection Hlen as Hlen. cbn [zip_with] in *.
    destruct ph; cbn [task_of] in *.
    + (* not started *)
      unfold downloadSite in *.
      rewrite filter_cons_True in Hk by reflexivity. cbn [length] in Hk.
      destruct k as [|k].
      * exists 0, u, NotStarted. repeat split; [discriminate|].
        cbn [advance_nth]. rewrite downloadSite_started_run. reflexivity.
      * destruct (IH phases k me s Hlen ltac:(lia)) as (p & url & ph & Hu & Hph & Hne & Hrun).
        exists (S p), url, ph. repeat split; try assumption.
        cbn [advance_nth]. rewrite Hrun. reflexivity.
    + (* in flight *)
      rewrite filter_cons_True in Hk by reflexivity. cbn [length] in Hk.
      destruct k as [|k].
      * exists 0, u, InFlight. repeat split; [discriminate|].
        cbn [advance_nth]. rewrite downloadSite_resumed_run. reflexivity.
      * destruct (IH phases k me s Hlen ltac:(lia)) as (p & url & ph & Hu & Hph & Hne & Hrun).
        exists (S p), url, ph. repeat split; try assumption.
        cbn [advance_nth]. rewrite Hrun. reflexivity.
    + (* finished *)
      rewrite filter_cons_False in Hk by discriminate.
      destruct (IH phases k me s Hlen Hk) as (p & url & ph & Hu & Hph & Hne & Hrun).
      exists (S p), url, ph. repeat split; try assumption.
      cbn [advance_nth]. rewrite Hrun. reflexivity.
Qed.

Lemma remaining_step (phases : list phase) :
  forall (p : nat) (ph : phase),
    phases !! p = Some ph ->
    ph <> Finished ->
    remaining phases = S (remaining (<[p := next_phase ph]> phases)).
Proof.
  induction phases as [|x phases IH]; intros [|p] ph Hph Hne; try discriminate Hph.
  - injection Hph as ->. destruct ph; [reflexivity|reflexivity|contradiction].
  - cbn [lookup list_lookup] in Hph. cbn [list_insert insert remaining].
    change (list_insert p (next_phase ph) phases) with (<[p := next_phase ph]> phases).
    rewrite (IH p ph Hph Hne), Nat.add_succ_r. reflexivity.
Qed.

Lemma not_started_step (sites : list string) :
  forall (phases : list phase) (p : nat) (url : string) (ph : phase),
    sites !! p = Some url ->
    phases !! p = Some ph ->
    not_started_urls sites phases
    ≡ₚ match ph with NotStarted => [url] | _ => [] end
        ++ not_started_urls sites (<[p := next_phase ph]> phases).
Proof.
  unfold not_started_urls.
  induction sites as [|u sites IH]; intros [|x phases] [|p] url ph Hu Hph;
    try discriminate Hu; try discriminate Hph.
  - injection Hu as ->. injection Hph as ->.
    destruct ph; reflexivity.
  - cbn [lookup list_lookup] in Hu, Hph.
    cbn [list_insert insert zip_with concat].
    change (list_insert p (next_phase ph) phases) with (<[p := next_phase ph]> phases).
    etrans; [apply Permutation_app_head; apply (IH phases p url ph Hu Hph)|].
    rewrite !app_assoc. apply Permutation_app_tail. apply Permutation_app_comm.
Qed.

Lemma none_unfinished (session : nat) (sites : list string) :
  forall (phases : list phase),
    length phases = length sites ->
    length (filter (fun c => unfinished c = true) (tasks_of fetch session sites phases)) = 0 ->
    tasks_of fetch session sites phases
    = List.map (fun url => Done (download_outcome fetch url)) sites
    /\ not_started_urls sites phases = [].
Proof.
  unfold tasks_of, not_started_urls.
  induction sites as [|u sites IH]; intros [|ph phases] Hlen Hcount;
    try discriminate Hlen; [split; reflexivity|].
  injection Hlen as Hlen. cbn [zip_with] in *.
  destruct ph; cbn [task_of] in *.
  - unfold downloadSite in Hcount.
    rewrite filter_cons_True in Hcount by reflexivity. discriminate Hcount.
  - rewrite filter_cons_True in Hcount by reflexivity. discriminate Hcount.
  - rewrite filter_cons_False in Hcount by discriminate.
    destruct (IH phases Hlen Hcount) as [-> Hnone]. cbn [concat List.map app].
    rewrite Hnone. split; reflexivity.
Qed.

Lemma remaining_none (session : nat) (sites : list string) :
  forall (phases : list phase),
    length phases = length sites ->
    remaining phases = 0 ->
    length (filter (fun c => unfinished c = true) (tasks_of fetch session sites phases)) = 0.
Proof.
  unfold tasks_of.
  induction sites as [|u sites IH]; intros [|ph phases] Hlen Hrem;
    try discriminate Hlen; [reflexivity|].
  injection Hlen as Hlen. cbn [zip_with remaining] in *.
  destruct ph; cbn [iterations_left task_of] in *; try lia.
  rewrite filter_cons_False by discriminate. apply IH; [exact Hlen|lia].
Qed.

End EventLoop.

Section EventLoopRun.
Import asyncio URLDownloadAsyncIO.
Variable fetch : string -> option Response.

Lemma task_action_phase_events (me session : nat) (url : string) (ph : phase) :
  Forall task_action (phase_events fetch me session url ph)
  /\ Forall (fun a => a = me) (actors (phase_events fetch me session url ph))
  /\ downloads (phase_events fetch me session url ph)
     = match ph with NotStarted => [url] | _ => [] end
  /\ requests (phase_events fetch me session url ph)
     = match ph with NotStarted => [url] | _ => [] end.
Proof.
  destruct ph; cbn [phase_events]; unfold start_events, finish_events, task_action, actors.
  - repeat split; repeat constructor.
  - destruct (fetch url); repeat split; repeat constructor.
  - repeat split; constructor.
Qed.

(** The event loop run to the end on tasks of [downloadSite], under any
    schedule: every task ends finished, and the tasks that had not started
    are the calls and the requests of the run. *)
Lemma loop_run (session : nat) (sites : list string) (me : nat) (iterations : nat) :
  forall (sched : list nat) (phases : list phase) (s : State),
    length phases = length sites ->
    remaining phases <= iterations ->
    exists new,
      run_loop iterations sched (tasks_of fetch session sites phases) me s
      = (add_trace s new, List.map (fun url => Done (download_outcome fetch url)) sites)
      /\ downloads new ≡ₚ not_started_urls sites phases
      /\ requests new ≡ₚ not_started_urls sites phases
      /\ Forall task_action new
      /\ Forall (fun a => a = me) (actors new).
Proof.
  induction iterations as [|iterations IH]; intros sched phases s Hlen Hrem.
  - assert (Hzero := remaining_none fetch session sites phases Hlen ltac:(lia)).
    destruct (none_unfinished fetch session sites phases Hlen Hzero) as [Htasks Hnone].
    exists []. cbn [run_loop]. rewrite add_trace_nil, Htasks, Hnone.
    repeat split; constructor.
  - cbn [run_loop].
    destruct (length (filter (fun c => unfinished c = true)
                        (tasks_of fetch session sites phases))) as [|n] eqn:Hcount.
    + destruct (none_unfinished fetch session sites phases Hlen Hcount) as [Htasks Hnone].
      exists []. rewrite add_trace_nil, Htasks, Hnone.
      repeat split; constructor.
    + destruct (advance_nth_tasks fetch session sites phases (hd 0 sched mod S n) me s Hlen)
        as (p & url & ph & Hu & Hph & Hne & Hrun).
      { rewrite Hcount. apply Nat.mod_upper_bound. discriminate. }
      rewrite Hrun.
      destruct (IH (tl sched) (<[p := next_phase ph]> phases)
                  (add_trace s (phase_events fetch me session url ph)))
        as (new & Hloop & Hcalls & Hreqs & Hacts & Hme).
      { rewrite length_insert. exact Hlen. }
      { rewrite (remaining_step phases p ph Hph Hne) in Hrem. lia. }
      destruct (task_action_phase_events me session url ph) as (Ha & Hm & Hd & Hr).
      exists (phase_events fetch me session url ph ++ new).
      rewrite Hloop, add_trace_app.
      split; [reflexivity|].
      assert (Hstep := not_started_step sites phases p url ph Hu Hph).
      split.
      { rewrite downloads_app, Hd. etrans; [|symmetry; exact Hstep].
        apply Permutation_app_head. exact Hcalls. }
      split.
      { rewrite requests_app, Hr. etrans; [|symmetry; exact Hstep].
        apply Permutation_app_head. exact Hreqs. }
      split; [apply Forall_app; split; assumption|].
      unfold actors in *. rewrite List.map_app. apply Forall_app. split; assumption.
Qed.

Lemma create_tasks_run (session : nat) (sites : list string) :
  forall (me : nat) (s : State),
    list_map (fun url => ensure_future url (downloadSite fetch session url)) sites me s
    = (add_trace s (List.map (fun url => (me, CreateTask url)) sites),
       Returned (List.map (downloadSite fetch session) sites)).
Proof.
  induction sites as [|url sites IH]; intros me s.
  - simpl. unfold ret. rewrite add_trace_nil. reflexivity.
  - cbn [list_map List.map]. unfold bind at 1. unfold ensure_future at 1.
    unfold bind at 1. rewrite emit_add_trace. unfold ret at 1.
    unfold bind at 1. rewrite IH, add_trace_app. reflexivity.
Qed.

Lemma tasks_of_not_started (session : nat) (sites : list string) :
  List.map (downloadSite fetch session) sites
  = tasks_of fetch session sites (replicate (length sites) NotStarted).
Proof.
  unfold tasks_of. induction sites as [|url sites IH]; [reflexivity|].
  cbn [List.map length replicate zip_with task_of]. rewrite IH. reflexivity.
Qed.

Lemma not_started_urls_all (sites : list string) :
  not_started_urls sites (replicate (length sites) NotStarted) = sites.
Proof.
  unfold not_started_urls. induction sites as [|url sites IH]; [reflexivity|].
  cbn [length replicate zip_with concat app]. rewrite IH. reflexivity.
Qed.

Lemma remaining_not_started (n : nat) : remaining (replicate n NotStarted) = 2 * n.
Proof. induction n as [|n IH]; [reflexivity|]. cbn [replicate remaining iterations_left]. lia. Qed.

(** The asyncio [downloadAllSites] up to the [await]: the session, the tasks
    in the order of the input, the [await]. *)
Lemma async_downloadAllSites_run (sched : list nat) (sites : list string)
    (me : nat) (s : State) :
  exists activity,
    downloadAllSites fetch sched sites me s
    = (mkState (trace s ++ [(me, NewSession (next_sid s))]
                  ++ List.map (fun url => (me, CreateTask url)) sites
                  ++ [(me, AwaitGather (length sites))]
                  ++ activity
                  ++ [(me, CloseSession (next_sid s))])
               (S (next_sid s)) (threadLocal_session s) (global_session s),
       Returned PyNone)
    /\ snd (run_loop (iterations_needed sites) sched
              (List.map (downloadSite fetch (next_sid s)) sites) me
              (add_trace (mkState (trace s ++ [(me, NewSession (next_sid s))])
                            (S (next_sid s)) (threadLocal_session s) (global_session s))
                 (List.map (fun url => (me, CreateTask url)) sites
                  ++ [(me, AwaitGather (length sites))])))
       = List.map (fun url => Done (download_outcome fetch url)) sites
    /\ downloads activity ≡ₚ sites
    /\ requests activity ≡ₚ sites
    /\ Forall task_action activity
    /\ Forall (fun a => a = me) (actors activity).
Proof.
  unfold downloadAllSites, with_session, finally, new_session, close_session,
    gather_return_exceptions.
  unfold bind at 1 2 3 4. rewrite create_tasks_run, emit_add_trace.
  rewrite add_trace_app, length_map.
  set (s1 := mkState (trace s ++ [(me, NewSession (next_sid s))]) (S (next_sid s))
               (threadLocal_session s) (global_session s)).
  set (s2 := add_trace s1 _).
  rewrite tasks_of_not_started.
  destruct (loop_run (next_sid s) sites me (iterations_needed sites) sched
              (replicate (length sites) NotStarted) s2)
    as (activity & Hloop & Hcalls & Hreqs & Hacts & Hme).
  { apply length_replicate. }
  { rewrite remaining_not_started. unfold iterations_needed. lia. }
  rewrite not_started_urls_all in Hcalls, Hreqs.
  exists activity. rewrite Hloop. rewrite emit_add_trace.
  unfold s2, s1, add_trace, ret.
  cbn [trace next_sid threadLocal_session global_session snd].
  rewrite <- !app_assoc.
  repeat split; assumption.
Qed.

End EventLoopRun.

Section EventLoopFifo.
Import asyncio URLDownloadAsyncIO.
Variable fetch : string -> option Response.

Lemma advance_nth_at (pre post : list coroutine)
    (resume : nat -> State -> State * coroutine) (me : nat) (s : State) :
  Forall (fun c => unfinished c = true) pre ->
  advance_nth (length pre) (pre ++ Await resume :: post) me s
  = ((resume me s).1, pre ++ (resume me s).2 :: post).
Proof.
  induction pre as [|c pre IH]; intros Hpre.
  - cbn [length app advance_nth]. destruct (resume me s). reflexivity.
  - inversion Hpre as [|? ? Hc Hpre']; subst.
    destruct c as [r|k]; [discriminate Hc|].
    cbn [length app advance_nth]. rewrite (IH Hpre'). reflexivity.
Qed.

Lemma all_unfinished (tasks : list coroutine) :
  Forall (fun c => unfinished c = true) tasks ->
  length (filter (fun c => unfinished c = true) tasks) = length tasks.
Proof.
  induction tasks as [|c tasks IH]; intros H; [reflexivity|].
  inversion H as [|? ? Hc Htasks]; subst.
  rewrite filter_cons_True by exact Hc. cbn [length]. rewrite (IH Htasks). reflexivity.
Qed.

Lemma in_flight_unfinished (urls : list string) :
  Forall (fun c => unfinished c = true)
    (List.map (fun url => Await (downloadSite_resumed fetch url)) urls).
Proof. induction urls; constructor; [reflexivity|assumption]. Qed.

Lemma not_started_unfinished (session : nat) (urls : list string) :
  Forall (fun c => unfinished c = true) (List.map (downloadSite fetch session) urls).
Proof. induction urls; constructor; [reflexivity|assumption]. Qed.

(** When the loop starts the tasks in the order of their creation, every
    task has sent its request before any task is resumed. *)
Lemma fifo_starts (session me m : nat) (rest : list nat) (todo : list string) :
  forall (done : list string) (s : State),
    run_loop (length todo + m) (seq (length done) (length todo) ++ rest)
      (List.map (fun url => Await (downloadSite_resumed fetch url)) done
       ++ List.map (downloadSite fetch session) todo) me s
    = run_loop m rest
        (List.map (fun url => Await (downloadSite_resumed fetch url)) (done ++ todo)) me
        (add_trace s (flat_map (start_events me session) todo)).
Proof.
  induction todo as [|url todo IH]; intros done s.
  - cbn [length seq List.map flat_map app Nat.add]. rewrite !app_nil_r, add_trace_nil.
    reflexivity.
  - cbn [length seq List.map Nat.add app hd tl run_loop].
    set (pre := List.map (fun url => Await (downloadSite_resumed fetch url)) done).
    set (post := List.map (downloadSite fetch session) todo).
    assert (Hpre : Forall (fun c => unfinished c = true) pre)
      by apply in_flight_unfinished.
    assert (Hall : Forall (fun c => unfinished c = true)
                     (pre ++ downloadSite fetch session url :: post)).
    { apply Forall_app. split; [exact Hpre|].
      constructor; [reflexivity|apply not_started_unfinished]. }
    rewrite (all_unfinished _ Hall).
    assert (Hlen : length pre = length done) by apply length_map.
    rewrite length_app. cbn [length].
    replace (length pre + S (length post)) with (S (length pre + length post)) by lia.
    rewrite Nat.mod_small by lia.
    rewrite <- Hlen. unfold downloadSite at 1.
    rewrite (advance_nth_at pre post _ me s Hpre), downloadSite_started_run.
    cbn [fst snd].
    specialize (IH (done ++ [url]) (add_trace s (start_events me session url))).
    rewrite length_app in IH. cbn [length] in IH.
    rewrite Hlen. replace (S (length done)) with (length done + 1) by lia.
    rewrite List.map_app in IH. cbn [List.map] in IH.
    rewrite <- !app_assoc in IH. cbn [app] in IH.
    fold pre in IH. fold post in IH.
    rewrite IH, add_trace_app. reflexivity.
Qed.

Lemma tasks_of_in_flight (session : nat) (sites : list string) :
  List.map (fun url => Await (downloadSite_resumed fetch url)) sites
  = tasks_of fetch session sites (replicate (length sites) InFlight).
Proof.
  unfold tasks_of. induction sites as [|url sites IH]; [reflexivity|].
  cbn [List.map length replicate zip_with task_of]. rewrite IH. reflexivity.
Qed.

Lemma not_started_urls_in_flight (sites : list string) :
  not_started_urls sites (replicate (length sites) InFlight) = [].
Proof.
  unfold not_started_urls. induction sites as [|url sites IH]; [reflexivity|].
  cbn [length replicate zip_with concat app]. exact IH.
Qed.

Lemma remaining_in_flight (n : nat) : remaining (replicate n InFlight) = n.
Proof. induction n as [|n IH]; [reflexivity|]. cbn [replicate remaining iterations_left]. lia. Qed.

(** The asyncio [downloadAllSites] when the loop starts the tasks in the
    order of their creation: all requests are sent before any answer is
    handled. *)
Lemma async_downloadAllSites_fifo (rest : list nat) (sites : list string)
    (me : nat) (s : State) :
  exists completions,
    trace (fst (downloadAllSites fetch (seq 0 (length sites) ++ rest) sites me s))
    = trace s ++ [(me, NewSession (next_sid s))]
        ++ List.map (fun url => (me, CreateTask url)) sites
        ++ [(me, AwaitGather (length sites))]
        ++ flat_map (start_events me (next_sid s)) sites
        ++ completions
        ++ [(me, CloseSession (next_sid s))]
    /\ downloads completions = []
    /\ requests completions = []
    /\ Forall task_action completions.
Proof.
  unfold downloadAllSites, with_session, finally, new_session, close_session,
    gather_return_exceptions.
  unfold bind at 1 2 3 4. rewrite create_tasks_run, emit_add_trace.
  rewrite add_trace_app, length_map.
  set (s1 := mkState (trace s ++ [(me, NewSession (next_sid s))]) (S (next_sid s))
               (threadLocal_session s) (global_session s)).
  set (s2 := add_trace s1 _).
  unfold iterations_needed.
  replace (2 * length sites) with (length sites + length sites) by lia.
  assert (Hfifo := fifo_starts (next_sid s) me (length sites) rest sites [] s2).
  cbn [length List.map app] in Hfifo. rewrite Hfifo.
  rewrite (tasks_of_in_flight (next_sid s)).
  destruct (loop_run fetch (next_sid s) sites me (length sites) rest
              (replicate (length sites) InFlight)
              (add_trace s2 (flat_map (start_events me (next_sid s)) sites)))
    as (completions & Hloop & Hcalls & Hreqs & Hacts & _).
  { apply length_replicate. }
  { rewrite remaining_in_flight. lia. }
  rewrite not_started_urls_in_flight in Hcalls, Hreqs.
  apply Permutation_nil_r in Hcalls, Hreqs.
  exists completions. rewrite Hloop, emit_add_trace.
  unfold s2, s1, add_trace, ret.
  cbn [trace next_sid threadLocal_session global_session fst].
  rewrite <- !app_assoc.
  repeat split; assumption.
Qed.

End EventLoopFifo.

(** ** The CPU-bound runner on one process *)

Lemma findSums_loop_run (numbers : list Z) :
  forall (me : nat) (s : State),
    for_each (fun number => Concurrency.call_sumOfSquares number) numbers me s
    = (add_trace s (List.map (fun n => (me, Enter_sumOfSquares n)) numbers), Returned tt).
Proof.
  induction numbers as [|n numbers IH]; intros me s.
  - simpl. unfold ret. rewrite add_trace_nil. reflexivity.
  - cbn [for_each List.map]. unfold bind at 1.
    unfold Concurrency.call_sumOfSquares at 1. unfold bind at 1.
    rewrite emit_add_trace. unfold ret at 1. rewrite IH, add_trace_app. reflexivity.
Qed.

Lemma findSums_run (numbers : list Z) (me : nat) (s : State) :
  Concurrency.findSums numbers me s
  = (add_trace s (List.map (fun n => (me, Enter_sumOfSquares n)) numbers),
     Returned PyNone).
Proof.
  unfold Concurrency.findSums, bind. rewrite findSums_loop_run. reflexivity.
Qed.

(** ** The claims about the batch runners *)

Lemma added_app (s s' : State) (new : list (nat * event)) :
  trace s' = trace s ++ new -> added s s' = new.
Proof. intros H. unfold added. rewrite H. apply drop_app_length. Qed.

Lemma printed_download_events (fetch : string -> option Response) (me session : nat)
    (sites : list string) :
  printed (flat_map (download_events fetch me session) sites)
  = omap (read_line fetch) sites.
Proof.
  induction sites as [|url sites IH]; [reflexivity|].
  cbn [flat_map omap list_omap]. rewrite printed_app, IH.
  unfold download_events, read_line. destruct (fetch url); reflexivity.
Qed.

Lemma sync_added (fetch : string -> option Response) (sites : list string)
    (me : nat) (s : State) :
  added s (fst (URLDownloadSynchronous.downloadAllSites fetch sites me s))
  = [(me, NewSession (next_sid s))]
      ++ flat_map (download_events fetch me (next_sid s)) (attempted fetch sites)
      ++ [(me, CloseSession (next_sid s))].
Proof.
  rewrite sync_downloadAllSites_run. cbn [fst]. apply added_app. reflexivity.
Qed.

Lemma sync_downloads (fetch : string -> option Response) (sites : list string)
    (me : nat) (s : State) :
  downloads (added s (fst (URLDownloadSynchronous.downloadAllSites fetch sites me s)))
  = attempted fetch sites.
Proof.
  rewrite sync_added, !downloads_app, downloads_download_events.
  cbn [downloads omap list_omap snd app]. apply app_nil_r.
Qed.

(** The counterexample of C3.  On a network where only "bad" fails, the
    synchronous [downloadAllSites] on ["a"; "bad"; "b"] downloads "a", then
    "bad", and raises: it does not go on through the last element, "b". *)
Lemma sequential_stops_at_a_failure :
  last ["a"; "bad"; "b"] = Some "b"
  /\ downloads (added initial_state
                  (fst (URLDownloadSynchronous.downloadAllSites sample_network
                          ["a"; "bad"; "b"] main_thread initial_state)))
     = ["a"; "bad"]
  /\ ~ In "b"
        (downloads (added initial_state
                      (fst (URLDownloadSynchronous.downloadAllSites sample_network
                              ["a"; "bad"; "b"] main_thread initial_state))))
  /\ snd (URLDownloadSynchronous.downloadAllSites sample_network
            ["a"; "bad"; "b"] main_thread initial_state)
     = Raised (ConnectionError "bad").
Proof.
  assert (Hsync : downloads (added initial_state
                    (fst (URLDownloadSynchronous.downloadAllSites sample_network
                            ["a"; "bad"; "b"] main_thread initial_state)))
                  = ["a"; "bad"]) by (vm_compute; reflexivity).
  rewrite Hsync.
  split; [reflexivity|]. split; [reflexivity|]. split; [|reflexivity].
  intros [H|[H|[]]]; discriminate H.
Qed.

(** C3, as amended.  The synchronous [downloadAllSites] processes the items in
    the order of the input: what it adds to the trace is the new session,
    then for each item in turn the call, the request and the printed result,
    then the close of the session.  The items it processes are the items of
    the input up to and including the first one whose download raises, in
    their order; they are all of [sites], through the last one, whenever the
    function returns, which it does whenever no download raises. *)
Theorem sequential_in_input_order (fetch : string -> option Response)
    (sites : list string) (me : nat) (s : State) :
  let run := URLDownloadSynchronous.downloadAllSites fetch sites me s in
  added s (fst run)
  = [(me, NewSession (next_sid s))]
      ++ flat_map (download_events fetch me (next_sid s)) (attempted fetch sites)
      ++ [(me, CloseSession (next_sid s))]
  /\ downloads (added s (fst run)) = attempted fetch sites
  /\ requests (added s (fst run)) = attempted fetch sites
  /\ printed (added s (fst run)) = omap (read_line fetch) (attempted fetch sites)
  /\ (exists skipped, sites = attempted fetch sites ++ skipped)
  /\ (snd run = Returned PyNone ->
      downloads (added s (fst run)) = sites
      /\ requests (added s (fst run)) = sites
      /\ printed (added s (fst run)) = omap (read_line fetch) sites
      /\ length (printed (added s (fst run))) = length sites)
  /\ ((forall url, In url sites -> fetch url <> None) -> snd run = Returned PyNone).
Proof.
  intros run. unfold run.
  rewrite sync_added.
  rewrite !downloads_app, !requests_app, !printed_app,
    downloads_download_events, requests_download_events, printed_download_events.
  cbn [downloads requests printed omap list_omap app snd]. rewrite !app_nil_r.
  split; [reflexivity|]. split; [reflexivity|]. split; [reflexivity|].
  split; [reflexivity|]. split; [apply attempted_prefix|].
  rewrite sync_downloadAllSites_run. cbn [snd].
  split.
  - destruct (first_failing fetch sites) eqn:Hfail; [discriminate|]. intros _.
    rewrite (attempted_all fetch sites Hfail).
    repeat split.
    assert (Hgood := proj1 (first_failing_None fetch sites) Hfail).
    clear -Hgood. rename Hgood into Hfail.
    induction sites as [|url sites IH]; [reflexivity|].
    cbn [omap list_omap]. unfold read_line at 1.
    destruct (fetch url) eqn:Hurl.
    + cbn [length]. f_equal. apply IH. intros u Hu. apply Hfail. right. exact Hu.
    + exfalso. apply (Hfail url); [left; reflexivity|exact Hurl].
  - intros Hgood. rewrite (proj2 (first_failing_None fetch sites) Hgood). reflexivity.
Qed.

(** A run of C3 on three URLs that all answer. *)
Lemma sequential_in_input_order_witness :
  downloads (added initial_state
               (fst (URLDownloadSynchronous.downloadAllSites sample_network
                       ["a"; "b"; "c"] main_thread initial_state)))
  = ["a"; "b"; "c"]
  /\ printed (added initial_state
                (fst (URLDownloadSynchronous.downloadAllSites sample_network
                        ["a"; "b"; "c"] main_thread initial_state)))
     = ["Read 10 from a"; "Read 10 from b"; "Read 10 from c"].
Proof.
  destruct (sequential_in_input_order sample_network ["a"; "b"; "c"]
              main_thread initial_state)
    as (_ & _ & _ & _ & _ & Hreturned & Hgood).
  assert (Hret := Hgood ltac:(intros url [<-|[<-|[<-|[]]]]; discriminate)).
  destruct (Hreturned Hret) as (Hcalls & _ & Hprinted & _).
  split; [exact Hcalls|]. rewrite Hprinted. reflexivity.
Defined.

Lemma threaded_downloadAllSites_run (fetch : string -> option Response)
    (sched : list (nat * nat)) (sites : list string) (me : nat) (s : State) :
  exists (s' : State) (new : list (nat * event)),
    URLDownloadMultiThreaded.downloadAllSites fetch sched sites me s
    = (s', Returned PyNone)
    /\ trace s' = trace s ++ new
    /\ downloads new ≡ₚ sites
    /\ Forall (fun t => In t (ThreadPoolExecutor.worker_idents
                                URLDownloadMultiThreaded.max_workers)) (actors new)
    /\ forall t, length (created_by t new) <= 1
                 /\ Forall (fun sid => created_by t new = [sid]) (used_by t new).
Proof.
  destruct (threaded_map_and_shutdown_run fetch sched sites me s)
    as (s' & futures & new & Hrun & Htr & Hcalls & _ & _ & Hact & Hsess).
  exists s', new. unfold URLDownloadMultiThreaded.downloadAllSites, bind.
  rewrite Hrun. repeat split; try assumption; apply Hsess.
Qed.

Lemma attempted_chunks_skipped (fetch : string -> option Response)
    (chunks : list (list string)) :
  exists skipped, flat_map (attempted fetch) chunks ++ skipped ≡ₚ concat chunks.
Proof.
  induction chunks as [|chunk chunks [skipped IH]].
  - exists []. reflexivity.
  - destruct (attempted_prefix fetch chunk) as [sk Hchunk].
    exists (sk ++ skipped). cbn [flat_map concat].
    rewrite Hchunk at 2. rewrite <- !app_assoc. apply Permutation_app_head.
    rewrite <- IH, !app_assoc. apply Permutation_app_tail. apply Permutation_app_comm.
Qed.

Lemma async_downloadAllSites_calls (fetch : string -> option Response)
    (loop_sched : list nat) (sites : list string) (me : nat) (s : State) :
  snd (URLDownloadAsyncIO.downloadAllSites fetch loop_sched sites me s) = Returned PyNone
  /\ downloads (added s (fst (URLDownloadAsyncIO.downloadAllSites fetch loop_sched
                                sites me s))) ≡ₚ sites.
Proof.
  destruct (async_downloadAllSites_run fetch loop_sched sites me s)
    as (activity & -> & _ & Hcalls & _).
  cbn [fst snd]. split; [reflexivity|].
  erewrite added_app by reflexivity.
  rewrite !downloads_app.
  assert (Hcreate : downloads (List.map (fun url => (me, CreateTask url)) sites) = []).
  { clear. induction sites as [|url sites IH]; [reflexivity|exact IH]. }
  rewrite Hcreate. cbn [downloads omap list_omap snd app]. rewrite app_nil_r.
  exact Hcalls.
Qed.

Lemma attempted_chunks_all (fetch : string -> option Response)
    (chunks : list (list string)) :
  (forall url, In url (concat chunks) -> fetch url <> None) ->
  flat_map (attempted fetch) chunks = concat chunks.
Proof.
  induction chunks as [|c chunks IH]; intros Hgood; [reflexivity|].
  cbn [flat_map concat]. rewrite IH.
  - rewrite attempted_all; [reflexivity|].
    apply first_failing_None. intros u Hu. apply Hgood.
    cbn [concat]. apply in_or_app. left. exact Hu.
  - intros u Hu. apply Hgood. cbn [concat]. apply in_or_app. right. exact Hu.
Qed.

(** The counterexample of C1.  On a network where only "bad" fails, the
    synchronous [downloadAllSites] on ["bad"; "good"] calls [downloadSite] on
    "bad" alone: "good" is skipped.  With one CPU the process pool cuts five
    items into chunks of two, and "a", which follows "bad" in its chunk, is
    skipped. *)
Lemma items_skipped_after_a_failure :
  (downloads (added initial_state
                (fst (URLDownloadSynchronous.downloadAllSites sample_network
                        ["bad"; "good"] main_thread initial_state)))
   = ["bad"]
   /\ ~ downloads (added initial_state
                     (fst (URLDownloadSynchronous.downloadAllSites sample_network
                             ["bad"; "good"] main_thread initial_state)))
        ≡ₚ ["bad"; "good"])
  /\ (downloads (added initial_state
                   (fst (Concurrency.downloadAllSites sample_network (fun _ => "worker")
                           1 Pool.fork [] ["bad"; "a"; "b"; "c"; "d"] main_thread
                           initial_state)))
      = ["bad"; "b"; "c"; "d"]
      /\ ~ downloads (added initial_state
                        (fst (Concurrency.downloadAllSites sample_network
                                (fun _ => "worker") 1 Pool.fork []
                                ["bad"; "a"; "b"; "c"; "d"] main_thread initial_state)))
           ≡ₚ ["bad"; "a"; "b"; "c"; "d"]).
Proof.
  assert (Hsync : downloads (added initial_state
                    (fst (URLDownloadSynchronous.downloadAllSites sample_network
                            ["bad"; "good"] main_thread initial_state)))
                  = ["bad"]) by (vm_compute; reflexivity).
  assert (Hpool : downloads (added initial_state
                    (fst (Concurrency.downloadAllSites sample_network (fun _ => "worker")
                            1 Pool.fork [] ["bad"; "a"; "b"; "c"; "d"] main_thread
                            initial_state)))
                  = ["bad"; "b"; "c"; "d"]) by (vm_compute; reflexivity).
  rewrite Hsync, Hpool.
  split; (split; [reflexivity|]); intros Hperm;
    apply Permutation_length in Hperm; discriminate Hperm.
Qed.

(** C1, as amended.  Every batch runner invokes the work function once per
    element and never twice.  [findSums] calls [sumOfSquares] on the numbers
    in their order; [findSumsMultiProcessing], the thread-pool
    [downloadAllSites] and
    the asyncio [downloadAllSites] call the work function on a permutation of
    the input under every schedule.  The synchronous and the process-pool
    [downloadAllSites] never call [downloadSite] more often on an item than
    it occurs in the input; whenever they return, they have called it on
    every item once, and they return whenever no download raises: an item is
    skipped only in a run that raises.  The items that the synchronous
    runner calls it on are those up to and including the first one whose
    download raises; those of the process pool are, in each chunk, the items
    up to and including the first one whose download raises. *)
Theorem every_item_invoked_once (fetch : string -> option Response)
    (process_name : nat -> string) (cpu_count : nat) (method : Pool.start_method)
    (sites : list string) (numbers : list Z)
    (sched : list (nat * nat)) (loop_sched : list nat) (me : nat) (s : State) :
  let sums_run := Concurrency.findSums numbers me s in
  let pool_sums_run := Concurrency.findSumsMultiProcessing cpu_count method sched numbers me s in
  let threads_run := URLDownloadMultiThreaded.downloadAllSites fetch sched sites me s in
  let loop_run := URLDownloadAsyncIO.downloadAllSites fetch loop_sched sites me s in
  let sync_run := URLDownloadSynchronous.downloadAllSites fetch sites me s in
  let pool_run :=
    Concurrency.downloadAllSites fetch process_name cpu_count method sched sites me s in
  (snd sums_run = Returned PyNone /\ sums (added s (fst sums_run)) = numbers)
  /\ (snd pool_sums_run = Returned PyNone
      /\ sums (added s (fst pool_sums_run)) ≡ₚ numbers)
  /\ (snd threads_run = Returned PyNone
      /\ downloads (added s (fst threads_run)) ≡ₚ sites)
  /\ (snd loop_run = Returned PyNone
      /\ downloads (added s (fst loop_run)) ≡ₚ sites)
  /\ ((exists skipped, sites = downloads (added s (fst sync_run)) ++ skipped)
      /\ (snd sync_run = Returned PyNone -> downloads (added s (fst sync_run)) = sites)
      /\ ((forall url, In url sites -> fetch url <> None) ->
          snd sync_run = Returned PyNone)
      /\ downloads (added s (fst sync_run)) = attempted fetch sites)
  /\ ((exists skipped, downloads (added s (fst pool_run)) ++ skipped ≡ₚ sites)
      /\ (snd pool_run = Returned PyNone -> downloads (added s (fst pool_run)) ≡ₚ sites)
      /\ ((forall url, In url sites -> fetch url <> None) ->
          snd pool_run = Returned PyNone)
      /\ downloads (added s (fst pool_run))
         ≡ₚ flat_map (attempted fetch) (Pool.task_batches cpu_count sites)).
Proof.
  cbv zeta.
  split.
  { rewrite findSums_run. cbn [fst snd]. split; [reflexivity|].
    rewrite (added_app s _ (List.map (fun n => (me, Enter_sumOfSquares n)) numbers))
      by reflexivity.
    apply sums_entries. }
  split.
  { destruct (findSumsMultiProcessing_run cpu_count method sched numbers me s)
      as (s' & new & -> & Htr & Hsums).
    cbn [fst snd]. rewrite (added_app _ _ _ Htr). split; [reflexivity|exact Hsums]. }
  split.
  { destruct (threaded_downloadAllSites_run fetch sched sites me s)
      as (s' & new & -> & Htr & Hcalls & _).
    cbn [fst snd]. rewrite (added_app _ _ _ Htr). split; [reflexivity|exact Hcalls]. }
  split.
  { apply async_downloadAllSites_calls. }
  split.
  { rewrite sync_downloads, sync_downloadAllSites_run. cbn [snd].
    split; [apply attempted_prefix|].
    split.
    - destruct (first_failing fetch sites) eqn:Hfail; [discriminate|].
      intros _. apply attempted_all. exact Hfail.
    - split; [|reflexivity].
      intros Hgood. rewrite (proj2 (first_failing_None fetch sites) Hgood).
      reflexivity. }
  destruct (process_downloadAllSites_run fetch process_name cpu_count method sched sites me s)
    as (s' & r & new & -> & Htr & Hcalls & Hout & _).
  cbn [fst snd]. rewrite (added_app _ _ _ Htr).
  split.
  { destruct (attempted_chunks_skipped fetch (Pool.task_batches cpu_count sites))
      as [skipped Hskipped].
    exists skipped. rewrite task_batches_concat in Hskipped.
    etrans; [|exact Hskipped]. apply Permutation_app_tail. exact Hcalls. }
  split.
  - intros ->. destruct Hout as [[Hfail _]|(url & _ & _ & Habs)]; [|discriminate Habs].
    etrans; [exact Hcalls|].
    rewrite attempted_chunks_all.
    + rewrite task_batches_concat. reflexivity.
    + rewrite task_batches_concat. apply first_failing_None. exact Hfail.
  - split; [|exact Hcalls].
    intros Hgood. destruct Hout as [[_ ->]|(url & Hin & Hnone & _)]; [reflexivity|].
    exfalso. apply (Hgood url Hin Hnone).
Qed.

(** A run of C1: two URLs that answer, processed by the synchronous runner. *)
Lemma every_item_invoked_once_witness :
  downloads (added initial_state
               (fst (URLDownloadSynchronous.downloadAllSites sample_network
                       ["a"; "b"] main_thread initial_state)))
  = ["a"; "b"].
Proof.
  pose proof (every_item_invoked_once sample_network (fun _ => "worker") 2 Pool.fork
                ["a"; "b"] [1; 2]%Z [] [] main_thread initial_state) as H.
  cbv zeta in H.
  destruct H as (_ & _ & _ & _ & (_ & Hreturned & Hgood & _) & _).
  apply Hreturned. apply Hgood.
  intros url [<-|[<-|[]]]; discriminate.
Defined.

Lemma gather_run (fetch : string -> option Response) (session : nat)
    (sched : list nat) (sites : list string) (me : nat) (s : State) :
  snd (asyncio.gather_return_exceptions (URLDownloadAsyncIO.iterations_needed sites)
         sched (List.map (URLDownloadAsyncIO.downloadSite fetch session) sites) me s)
  = Returned (List.map (fun url => asyncio.Done (download_outcome fetch url)) sites).
Proof.
  unfold asyncio.gather_return_exceptions, bind. rewrite emit_add_trace.
  rewrite tasks_of_not_started.
  destruct (loop_run fetch session sites me (URLDownloadAsyncIO.iterations_needed sites)
              sched (replicate (length sites) NotStarted)
              (add_trace s [(me, AwaitGather
                                   (length (tasks_of fetch session sites
                                              (replicate (length sites) NotStarted))))]))
    as (new & Hloop & _).
  { apply length_replicate. }
  { rewrite remaining_not_started. unfold URLDownloadAsyncIO.iterations_needed. lia. }
  rewrite Hloop. reflexivity.
Qed.

(** The counterexample of C2.  On a network where only "bad" fails, the
    synchronous [downloadAllSites] on ["bad"; "good"] never processes "good"
    and raises; with one CPU the process pool cuts five items into chunks of
    two, and the item that follows "bad" in its chunk is never processed. *)
Lemma failure_aborts_the_batch :
  (sample_network "good" <> None
   /\ downloads (trace (fst (URLDownloadSynchronous.downloadAllSites sample_network
                               ["bad"; "good"] main_thread initial_state)))
      = ["bad"]
   /\ ~ In "good"
        (downloads (trace (fst (URLDownloadSynchronous.downloadAllSites sample_network
                                  ["bad"; "good"] main_thread initial_state))))
   /\ snd (URLDownloadSynchronous.downloadAllSites sample_network
             ["bad"; "good"] main_thread initial_state)
      = Raised (ConnectionError "bad"))
  /\ (sample_network "a" <> None
      /\ Pool.task_batches 1 ["bad"; "a"; "b"; "c"; "d"]
         = [["bad"; "a"]; ["b"; "c"]; ["d"]]
      /\ downloads (trace (fst (Concurrency.downloadAllSites sample_network
                                  (fun _ => "worker") 1 Pool.fork []
                                  ["bad"; "a"; "b"; "c"; "d"] main_thread initial_state)))
         = ["bad"; "b"; "c"; "d"]
      /\ snd (Concurrency.downloadAllSites sample_network (fun _ => "worker") 1 Pool.fork []
                ["bad"; "a"; "b"; "c"; "d"] main_thread initial_state)
         = Raised (ConnectionError "bad")).
Proof.
  split.
  - split; [discriminate|]. split; [reflexivity|]. split; [|reflexivity].
    intros [H|[]]. discriminate H.
  - split; [discriminate|]. split; [reflexivity|]. split; vm_compute; reflexivity.
Qed.

(** C2, as amended.  Under the thread pool and under the event loop a
    download that raises does not abort the others: every item is processed
    once under every schedule, the exception stays in the future or in the
    task of its item, and [downloadAllSites] returns.  Under the synchronous
    runner the exception propagates: the items up to and including the first
    failing one are processed, in order, no later item is, and
    [downloadAllSites] raises that exception.  Under the process pool the
    items that follow a failing one in its chunk are not processed, the other
    chunks are, and [downloadAllSites] raises the exception of a failing
    item. *)
Theorem failure_isolation_by_strategy (fetch : string -> option Response)
    (process_name : nat -> string) (cpu_count : nat) (method : Pool.start_method) (sites : list string)
    (sched : list (nat * nat)) (loop_sched : list nat) (me : nat) (s : State) :
  let threads_run := URLDownloadMultiThreaded.downloadAllSites fetch sched sites me s in
  let loop_run := URLDownloadAsyncIO.downloadAllSites fetch loop_sched sites me s in
  let sync_run := URLDownloadSynchronous.downloadAllSites fetch sites me s in
  let pool_run :=
    Concurrency.downloadAllSites fetch process_name cpu_count method sched sites me s in
  (* thread pool *)
  (snd threads_run = Returned PyNone
   /\ downloads (added s (fst threads_run)) ≡ₚ sites
   /\ exists futures,
        snd (ThreadPoolExecutor.map_and_shutdown URLDownloadMultiThreaded.max_workers
               (URLDownloadMultiThreaded.downloadSite fetch) sched sites me s)
        = Returned futures
        /\ List.map fst futures ≡ₚ sites
        /\ Forall (fun f => f.2 = download_outcome fetch f.1) futures)
  (* event loop *)
  /\ (snd loop_run = Returned PyNone
      /\ downloads (added s (fst loop_run)) ≡ₚ sites
      /\ forall session s0,
           snd (asyncio.gather_return_exceptions
                  (URLDownloadAsyncIO.iterations_needed sites) loop_sched
                  (List.map (URLDownloadAsyncIO.downloadSite fetch session) sites) me s0)
           = Returned (List.map (fun url => asyncio.Done (download_outcome fetch url))
                                sites))
  (* synchronous *)
  /\ (downloads (added s (fst sync_run)) = attempted fetch sites
      /\ (forall bad,
            first_failing fetch sites = Some bad ->
            fetch bad = None
            /\ snd sync_run = Raised (ConnectionError bad)
            /\ exists before skipped,
                 sites = before ++ bad :: skipped
                 /\ downloads (added s (fst sync_run)) = before ++ [bad]
                 /\ forall url, In url before -> fetch url <> None)
      /\ (first_failing fetch sites = None ->
          snd sync_run = Returned PyNone
          /\ downloads (added s (fst sync_run)) = sites))
  (* process pool *)
  /\ (downloads (added s (fst pool_run))
      ≡ₚ flat_map (attempted fetch) (Pool.task_batches cpu_count sites)
      /\ ((first_failing fetch sites = None /\ snd pool_run = Returned PyNone)
          \/ exists url, In url sites /\ fetch url = None
                         /\ snd pool_run = Raised (ConnectionError url))).
Proof.
  cbv zeta.
  split.
  { destruct (threaded_map_and_shutdown_run fetch sched sites me s)
      as (s' & futures & new & Hrun & Htr & Hcalls & Hfut & Hok & _).
    unfold URLDownloadMultiThreaded.downloadAllSites, bind.
    rewrite Hrun. cbn [fst snd]. unfold ret. cbn [fst snd].
    rewrite (added_app _ _ _ Htr).
    split; [reflexivity|]. split; [exact Hcalls|].
    exists futures. repeat split; assumption. }
  split.
  { destruct (async_downloadAllSites_calls fetch loop_sched sites me s)
      as [Hret Hcalls].
    split; [exact Hret|]. split; [exact Hcalls|].
    intros session s0. apply gather_run. }
  split.
  { rewrite sync_downloads, sync_downloadAllSites_run. cbn [snd].
    split; [reflexivity|]. split.
    - intros bad Hbad. rewrite Hbad.
      destruct (first_failing_Some fetch sites bad Hbad)
        as (Hnone & before & skipped & Hsites & Hatt & Hgood).
      split; [exact Hnone|]. split; [reflexivity|].
      exists before, skipped. repeat split; assumption.
    - intros Hnone. rewrite Hnone. split; [reflexivity|].
      apply attempted_all. exact Hnone. }
  destruct (process_downloadAllSites_run fetch process_name cpu_count method sched sites me s)
    as (s' & r & new & -> & Htr & Hcalls & Hout & _).
  cbn [fst snd]. rewrite (added_app _ _ _ Htr).
  split; [exact Hcalls|exact Hout].
Qed.

(** A run of amended C2 by the synchronous runner: "a" is processed, "bad"
    raises, "b" is not processed. *)
Lemma failure_isolation_by_strategy_witness :
  first_failing sample_network ["a"; "bad"; "b"] = Some "bad"
  /\ snd (URLDownloadSynchronous.downloadAllSites sample_network ["a"; "bad"; "b"]
            main_thread initial_state)
     = Raised (ConnectionError "bad")
  /\ downloads (added initial_state
                  (fst (URLDownloadSynchronous.downloadAllSites sample_network
                          ["a"; "bad"; "b"] main_thread initial_state)))
     = ["a"; "bad"].
Proof.
  pose proof (failure_isolation_by_strategy sample_network (fun _ => "worker") 2 Pool.fork
                ["a"; "bad"; "b"] [] [] main_thread initial_state) as H.
  cbv zeta in H.
  destruct H as (_ & _ & (Hcalls & Hbad & _) & _).
  split; [reflexivity|].
  destruct (Hbad "bad" eq_refl) as (_ & Hraised & _).
  split; [exact Hraised|]. rewrite Hcalls. reflexivity.
Defined.

(** C4. [getSession] is idempotent per thread: in a thread without stored
    session it creates one, stores it in the thread-local state and returns
    it; in a thread with a stored session it returns that session and changes
    nothing; a second call returns what the first returned and changes
    nothing.  In every run of the thread-pool [downloadAllSites], under every
    schedule, all actions are those of the five worker threads, every item
    is downloaded and requested once, and a thread that acts at all has
    created its one session within its first call of [downloadSite], after
    entering it and before its request; the session is stored in the
    thread-local state, and the request of that call and of every later call
    of the thread goes through it: one session per worker, reused across all
    the items of the worker, never one per item. *)
Theorem one_session_per_thread (fetch : string -> option Response)
    (sched : list (nat * nat)) (sites : list string) (me : nat) (s : State) :
  let first_call := URLDownloadMultiThreaded.getSession me s in
  let run := URLDownloadMultiThreaded.downloadAllSites fetch sched sites me s in
  let new := added s (fst run) in
  (threadLocal_session s !! me = None ->
   first_call
   = (mkState (trace s ++ [(me, NewSession (next_sid s))]) (S (next_sid s))
              (<[me := next_sid s]> (threadLocal_session s)) (global_session s),
      Returned (next_sid s)))
  /\ (forall session,
        threadLocal_session s !! me = Some session ->
        first_call = (s, Returned session))
  /\ (exists session,
        snd first_call = Returned session
        /\ threadLocal_session (fst first_call) !! me = Some session
        /\ URLDownloadMultiThreaded.getSession me (fst first_call)
           = (fst first_call, Returned session))
  /\ Forall (fun t => In t [1; 2; 3; 4; 5]) (actors new)
  /\ (forall t,
        length (created_by t new) <= 1
        /\ Forall (fun sid => created_by t new = [sid]) (used_by t new))
  /\ downloads new ≡ₚ sites
  /\ requests new ≡ₚ sites
  /\ length (all_used new) = length sites
  /\ (forall t,
        actions_of t new = []
        \/ exists session url rest,
             threadLocal_session (fst run) !! t = Some session
             /\ actions_of t new
                = threaded_download_events fetch t None session url
                    ++ flat_map (threaded_download_events fetch t (Some session) session)
                         rest
             /\ created_by t new = [session]
             /\ used_by t new = replicate (S (length rest)) session).
Proof.
  cbv zeta.
  split.
  { intros Hnone. rewrite getSession_run, Hnone. reflexivity. }
  split.
  { intros session Hsome. rewrite getSession_run, Hsome. reflexivity. }
  split.
  { rewrite getSession_run.
    destruct (threadLocal_session s !! me) as [session|] eqn:Hstored.
    - exists session. cbn [fst snd]. rewrite getSession_run, Hstored.
      repeat split.
    - exists (next_sid s). cbn [fst snd]. rewrite getSession_run.
      cbn [threadLocal_session]. rewrite lookup_insert_eq. repeat split. }
  destruct (threaded_downloadAllSites_run fetch sched sites me s)
    as (s' & new & Hrun & Htr & Hcalls & Hact & Hsess).
  destruct (threaded_output_run fetch sched sites me s)
    as (s2 & new2 & Hrun2 & Htr2 & Hreq & _).
  rewrite Hrun in Hrun2. injection Hrun2 as <-.
  assert (new2 = new) by (eapply same_added; eassumption). subst new2.
  destruct (threaded_views_run fetch sched sites me s)
    as (s3 & new3 & Hrun3 & Htr3 & Hview).
  rewrite Hrun in Hrun3. injection Hrun3 as <-.
  assert (new3 = new) by (eapply same_added; eassumption). subst new3.
  rewrite Hrun. cbn [fst]. rewrite (added_app _ _ _ Htr).
  split; [exact Hact|]. split; [exact Hsess|].
  split; [exact Hcalls|].
  split; [rewrite Hreq; exact Hcalls|].
  split.
  { rewrite all_used_requests, Hreq. apply Permutation_length. exact Hcalls. }
  intros t. destruct (Hview t) as [Hnone|(session & url & rest & _ & Hstored & Hmine)];
    [left; exact Hnone|].
  right. exists session, url, rest.
  destruct (thread_view_sessions fetch t session url rest) as (Hc & Hu & _).
  split; [exact Hstored|]. split; [exact Hmine|].
  rewrite created_by_actions_of, used_by_actions_of, Hmine.
  split; assumption.
Qed.

(** A run of C4: the first call in worker thread 1 creates session 0, the
    second call returns it and leaves the state as it is. *)
Lemma one_session_per_thread_witness :
  URLDownloadMultiThreaded.getSession 1 initial_state
  = (mkState [(1, NewSession 0)] 1 (<[1 := 0]> ∅) ∅, Returned 0)
  /\ URLDownloadMultiThreaded.getSession 1
       (mkState [(1, NewSession 0)] 1 (<[1 := 0]> ∅) ∅)
     = (mkState [(1, NewSession 0)] 1 (<[1 := 0]> ∅) ∅, Returned 0).
Proof.
  pose proof (one_session_per_thread sample_network [] [] 1 initial_state) as H1.
  pose proof (one_session_per_thread sample_network [] [] 1
                (mkState [(1, NewSession 0)] 1 (<[1 := 0]> ∅) ∅)) as H2.
  cbv zeta in H1, H2.
  destruct H1 as (Hfirst & _). destruct H2 as (_ & Hsecond & _).
  split.
  - apply Hfirst. reflexivity.
  - apply Hsecond. reflexivity.
Defined.

Lemma process_downloadSite_no_new_session (fetch : string -> option Response)
    (process_name : nat -> string) (url : string) (me : nat) (s : State) :
  (forall t,
     created_by t (added s (fst (Concurrency.downloadSite fetch process_name url me s)))
     = [])
  /\ global_session (fst (Concurrency.downloadSite fetch process_name url me s))
     = global_session s.
Proof.
  destruct (global_session s !! me) as [session|] eqn:Hsession.
  - rewrite (process_downloadSite_run fetch process_name url me session s Hsession).
    cbn [fst]. split; [|reflexivity]. intros t.
    rewrite (added_app s _ (process_download_events fetch process_name me session url))
      by reflexivity.
    unfold process_download_events. destruct (fetch url); reflexivity.
  - assert (Hrun : Concurrency.downloadSite fetch process_name url me s
                   = (add_trace s [(me, Enter_downloadSite url)],
                      Raised (AttributeError "get"))).
    { unfold Concurrency.downloadSite, Concurrency.read_session, bind, emit, raise.
      cbn [trace next_sid threadLocal_session global_session].
      rewrite Hsession. reflexivity. }
    rewrite Hrun. cbn [fst].
    split; [|reflexivity]. intros t.
    rewrite (added_app s _ [(me, Enter_downloadSite url)]) by reflexivity.
    reflexivity.
Qed.

Lemma all_created_none (tr : list (nat * event)) :
  (forall t, created_by t tr = []) -> all_created tr = [].
Proof.
  unfold created_by, all_created.
  induction tr as [|[a ev] tr IH]; intros Hnone; [reflexivity|].
  cbn [omap list_omap fst snd] in *.
  destruct ev;
    try (apply IH; intros t; specialize (Hnone t); cbn [omap list_omap] in Hnone;
         exact Hnone).
  specialize (Hnone a). rewrite decide_True in Hnone by reflexivity.
  discriminate Hnone.
Qed.

(** The counterexample of C5.  Two worker processes and one item: both
    workers start and create their sessions in the initializer, worker 1
    gets the item, and worker 2 has created session 1 without ever having a
    use for it.  The session is created at worker startup, not on first
    use. *)
Lemma session_created_and_never_used :
  trace (fst (Concurrency.downloadAllSites sample_network (fun _ => "worker") 2
                Pool.spawn [(0, 0); (1, 0); (0, 0)] ["a"] main_thread initial_state))
  = [(1, NewSession 0); (2, NewSession 1); (1, Enter_downloadSite "a");
     (1, HttpGet 0 "a"); (1, Print "worker:Read 10 from a")]
  /\ created_by 2
       (trace (fst (Concurrency.downloadAllSites sample_network (fun _ => "worker") 2
                      Pool.spawn [(0, 0); (1, 0); (0, 0)] ["a"] main_thread
                      initial_state)))
     = [1]
  /\ used_by 2
       (trace (fst (Concurrency.downloadAllSites sample_network (fun _ => "worker") 2
                      Pool.spawn [(0, 0); (1, 0); (0, 0)] ["a"] main_thread
                      initial_state)))
     = []
  /\ downloads
       (actions_of 2
          (trace (fst (Concurrency.downloadAllSites sample_network (fun _ => "worker") 2
                         Pool.spawn [(0, 0); (1, 0); (0, 0)] ["a"] main_thread
                         initial_state))))
     = [].
Proof.
  split; [vm_compute; reflexivity|].
  split; [vm_compute; reflexivity|].
  split; vm_compute; reflexivity.
Qed.

(** C5, as amended.  [setGlobalSession] creates a session only when the
    global [session] of the process is unset, and a later call leaves the
    session as it is: two calls are the same as one.  [downloadSite] creates
    no session.  The session of a worker is created at worker startup,
    whether or not the worker ever gets an item: the start of a worker whose
    [session] is unset adds the creation of a session and nothing else.  In
    every run of the process-pool [downloadAllSites], under every schedule,
    all actions are those of the worker processes and every item of a chunk
    up to its first failing one is downloaded.  When the workers find no
    session at their start, a worker that acts at all has created its
    session as its first action; it creates no other, and the request of each
    of its calls of [downloadSite] goes through that session; no two workers
    create the same session.  When the workers are forked from a process
    that holds a session, they find that session, create none, and send
    every request through it. *)
Theorem one_session_per_process (fetch : string -> option Response)
    (process_name : nat -> string) (cpu_count : nat) (method : Pool.start_method)
    (sched : list (nat * nat)) (sites : list string) (url : string)
    (me : nat) (s : State) :
  let first_call := Concurrency.setGlobalSession me s in
  let item := Concurrency.downloadSite fetch process_name url me s in
  let run :=
    Concurrency.downloadAllSites fetch process_name cpu_count method sched sites me s in
  let new := added s (fst run) in
  (global_session s !! me = None ->
   first_call
   = (mkState (trace s ++ [(me, NewSession (next_sid s))]) (S (next_sid s))
              (threadLocal_session s) (<[me := next_sid s]> (global_session s)),
      Returned PyNone))
  /\ (forall session,
        global_session s !! me = Some session -> first_call = (s, Returned PyNone))
  /\ Concurrency.setGlobalSession me (fst first_call) = (fst first_call, Returned PyNone)
  /\ (forall t, created_by t (added s (fst item)) = [])
  /\ global_session (fst item) = global_session s
  /\ (forall w st,
        global_session st !! worker_ident w = None ->
        added st (Pool.start_worker (Some Concurrency.setGlobalSession) w st)
        = [(worker_ident w, NewSession (next_sid st))])
  /\ Forall (fun t => In t (Pool.worker_idents cpu_count)) (actors new)
  /\ downloads new ≡ₚ flat_map (attempted fetch) (Pool.task_batches cpu_count sites)
  /\ (Pool.inherited method me (global_session s) = None ->
      (forall t,
         actions_of t new = []
         \/ exists session items,
              actions_of t new
              = (t, NewSession session)
                  :: flat_map (process_download_events fetch process_name t session)
                       items
              /\ created_by t new = [session]
              /\ used_by t new = replicate (length items) session)
      /\ (forall t t' session,
            In session (created_by t new) -> In session (created_by t' new) -> t = t'))
  /\ (forall inherited,
        Pool.inherited method me (global_session s) = Some inherited ->
        all_created new = []
        /\ forall t, exists items,
             actions_of t new
             = flat_map (process_download_events fetch process_name t inherited) items).
Proof.
  cbv zeta.
  split.
  { intros Hnone. rewrite setGlobalSession_run, Hnone. reflexivity. }
  split.
  { intros session Hsome. rewrite setGlobalSession_run, Hsome. reflexivity. }
  split.
  { assert (Hrun := setGlobalSession_run me s).
    destruct (global_session s !! me) as [session|] eqn:Hstored;
      rewrite Hrun; cbn [fst]; rewrite setGlobalSession_run; cbn [global_session].
    - rewrite Hstored. reflexivity.
    - rewrite lookup_insert_eq. reflexivity. }
  destruct (process_downloadSite_no_new_session fetch process_name url me s)
    as [Hnew Hsame].
  split; [exact Hnew|]. split; [exact Hsame|].
  split.
  { intros w st Hunset. unfold Pool.start_worker.
    rewrite setGlobalSession_run, Hunset. cbn [fst]. apply added_app. reflexivity. }
  destruct (process_downloadAllSites_run fetch process_name cpu_count method sched sites me s)
    as (s' & r & new & Hrun & Htr & Hcalls & _ & Hact).
  destruct (process_sessions_run fetch process_name cpu_count method sched sites me s)
    as (s2 & r2 & new2 & Hrun2 & Htr2 & _ & _ & _ & _ & _ & Hsess).
  rewrite Hrun in Hrun2. injection Hrun2 as <- <-.
  assert (new2 = new) by (eapply same_added; eassumption). subst new2.
  rewrite Hrun. cbn [fst]. rewrite (added_app _ _ _ Htr).
  split; [exact Hact|]. split; [exact Hcalls|].
  destruct (Pool.inherited method me (global_session s)) as [inherited|].
  - split; [intros Heq; discriminate Heq|].
    intros found [= <-].
    split; [|exact Hsess].
    apply all_created_none. intros t. destruct (Hsess t) as [items Hmine].
    rewrite created_by_actions_of, Hmine.
    apply (process_download_events_kind fetch process_name t inherited items).
  - split; [|intros found Heq; discriminate Heq].
    intros _. destruct Hsess as [Hview Hown]. split; [|exact Hown].
    intros t. destruct (Hview t) as [Hnone|(session & items & Hmine)];
      [left; exact Hnone|].
    right. exists session, items. split; [exact Hmine|].
    destruct (process_download_events_kind fetch process_name t session items)
      as (_ & Hc & Hu).
    rewrite created_by_actions_of, used_by_actions_of, Hmine.
    change ((t, NewSession session)
              :: flat_map (process_download_events fetch process_name t session) items)
      with ([(t, NewSession session)]
              ++ flat_map (process_download_events fetch process_name t session) items).
    rewrite all_created_app, all_used_app, Hc, Hu. split; reflexivity.
Qed.

(** A run of C5: the first call in worker process 1 creates session 0, the
    second call leaves the state as it is. *)
Lemma one_session_per_process_witness :
  Concurrency.setGlobalSession 1 initial_state
  = (mkState [(1, NewSession 0)] 1 ∅ (<[1 := 0]> ∅), Returned PyNone)
  /\ Concurrency.setGlobalSession 1 (mkState [(1, NewSession 0)] 1 ∅ (<[1 := 0]> ∅))
     = (mkState [(1, NewSession 0)] 1 ∅ (<[1 := 0]> ∅), Returned PyNone).
Proof.
  pose proof (one_session_per_process sample_network (fun _ => "worker") 2 Pool.fork [] [] "a"
                1 initial_state) as H1.
  pose proof (one_session_per_process sample_network (fun _ => "worker") 2 Pool.fork [] [] "a"
                1 (mkState [(1, NewSession 0)] 1 ∅ (<[1 := 0]> ∅))) as H2.
  cbv zeta in H1, H2.
  destruct H1 as (Hfirst & _). destruct H2 as (_ & Hsecond & _).
  split.
  - apply Hfirst. reflexivity.
  - apply (Hsecond 0). reflexivity.
Defined.

(** C9. The asyncio [downloadAllSites] creates one task per URL, in the
    order of the input, before it awaits any of them: under every schedule of
    the event loop the trace of a run is the new session, the creation of the
    tasks, the [await], then the actions of the tasks, then the close of the
    session.  When the loop starts the tasks in the order of their creation,
    every task has sent its request before any answer is handled: the
    downloads are all in flight together. *)
Theorem tasks_created_before_await (fetch : string -> option Response)
    (loop_sched rest : list nat) (sites : list string) (me : nat) (s : State) :
  (exists activity,
     trace (fst (URLDownloadAsyncIO.downloadAllSites fetch loop_sched sites me s))
     = trace s ++ [(me, NewSession (next_sid s))]
         ++ List.map (fun url => (me, CreateTask url)) sites
         ++ [(me, AwaitGather (length sites))]
         ++ activity
         ++ [(me, CloseSession (next_sid s))]
     /\ Forall task_action activity
     /\ downloads activity ≡ₚ sites
     /\ requests activity ≡ₚ sites)
  /\ (exists completions,
        trace (fst (URLDownloadAsyncIO.downloadAllSites fetch
                      (seq 0 (length sites) ++ rest) sites me s))
        = trace s ++ [(me, NewSession (next_sid s))]
            ++ List.map (fun url => (me, CreateTask url)) sites
            ++ [(me, AwaitGather (length sites))]
            ++ flat_map (start_events me (next_sid s)) sites
            ++ completions
            ++ [(me, CloseSession (next_sid s))]
        /\ Forall task_action completions
        /\ downloads completions = []
        /\ requests completions = []).
Proof.
  split.
  - destruct (async_downloadAllSites_run fetch loop_sched sites me s)
      as (activity & -> & _ & Hcalls & Hreqs & Hacts & _).
    exists activity. cbn [fst trace]. repeat split; assumption.
  - destruct (async_downloadAllSites_fifo fetch rest sites me s)
      as (completions & Htr & Hcalls & Hreqs & Hacts).
    exists completions. repeat split; assumption.
Qed.

(** The counterexample of C10.  On a network where "bad" fails, the
    synchronous [downloadAllSites] on ["bad"] does not return [None]: the
    exception of the download reaches the caller. *)
Lemma synchronous_runner_raises :
  snd (URLDownloadSynchronous.downloadAllSites sample_network ["bad"]
         main_thread initial_state)
  = Raised (ConnectionError "bad")
  /\ snd (URLDownloadSynchronous.downloadAllSites sample_network ["bad"]
            main_thread initial_state)
     <> Returned PyNone.
Proof. split; [reflexivity|discriminate]. Qed.

(** C10, as amended.  Every batch runner returns [None] and nothing else:
    [findSums], [findSumsMultiProcessing], the thread-pool [downloadAllSites]
    and the asyncio [downloadAllSites] return [None] for every input and
    under every schedule, whatever the items do; the synchronous
    [downloadAllSites] returns [None] whenever no download raises, and
    otherwise returns nothing: the exception of the first failing download
    reaches the caller. *)
Theorem batch_runners_return_None (fetch : string -> option Response)
    (cpu_count : nat) (method : Pool.start_method) (sites : list string) (numbers : list Z)
    (sched : list (nat * nat)) (loop_sched : list nat) (me : nat) (s : State) :
  let sync_run := URLDownloadSynchronous.downloadAllSites fetch sites me s in
  snd (Concurrency.findSums numbers me s) = Returned PyNone
  /\ snd (Concurrency.findSumsMultiProcessing cpu_count method sched numbers me s)
     = Returned PyNone
  /\ snd (URLDownloadMultiThreaded.downloadAllSites fetch sched sites me s)
     = Returned PyNone
  /\ snd (URLDownloadAsyncIO.downloadAllSites fetch loop_sched sites me s)
     = Returned PyNone
  /\ (snd sync_run = Returned PyNone
      \/ exists url, In url sites /\ fetch url = None
                     /\ snd sync_run = Raised (ConnectionError url))
  /\ (forall v, snd sync_run = Returned v -> v = PyNone)
  /\ ((forall url, In url sites -> fetch url <> None) ->
      snd sync_run = Returned PyNone)
  /\ (forall bad,
        first_failing fetch sites = Some bad ->
        snd sync_run = Raised (ConnectionError bad)).
Proof.
  cbv zeta.
  split; [rewrite findSums_run; reflexivity|].
  split.
  { destruct (findSumsMultiProcessing_run cpu_count method sched numbers me s)
      as (s' & new & -> & _). reflexivity. }
  split.
  { destruct (threaded_downloadAllSites_run fetch sched sites me s)
      as (s' & new & -> & _). reflexivity. }
  split; [apply async_downloadAllSites_calls|].
  rewrite sync_downloadAllSites_run. cbn [snd].
  destruct (first_failing fetch sites) as [bad|] eqn:Hfail.
  - destruct (first_failing_In fetch sites bad Hfail) as [Hin Hnone].
    split; [right; exists bad; repeat split; assumption|].
    split; [discriminate|].
    split; [|intros bad' [= <-]; reflexivity].
    intros Hgood. exfalso. apply (Hgood bad Hin Hnone).
  - split; [left; reflexivity|].
    split; [intros v [= <-]; reflexivity|].
    split; [|intros bad Hbad; discriminate Hbad].
    intros _. reflexivity.
Qed.

(** A run of C10: the synchronous runner on URLs that answer. *)
Lemma batch_runners_return_None_witness :
  snd (URLDownloadSynchronous.downloadAllSites sample_network ["a"; "b"]
         main_thread initial_state)
  = Returned PyNone.
Proof.
  pose proof (batch_runners_return_None sample_network 2 Pool.fork ["a"; "b"] [1; 2]%Z [] []
                main_thread initial_state) as H.
  cbv zeta in H.
  destruct H as (_ & _ & _ & _ & _ & _ & Hgood & _).
  apply Hgood. intros url [<-|[<-|[]]]; discriminate.
Defined.

(** ** The tests and their workloads *)

Lemma bind_returned {A B} (m : M A) (k : A -> M B) (me : nat) (s s' : State) (v : A) :
  m me s = (s', Returned v) -> bind m k me s = k v me s'.
Proof. intros H. unfold bind. rewrite H. reflexivity. Qed.

Lemma In_list_times {A} (l : list A) (n : nat) (x : A) :
  In x (list_times l n) -> In x l.
Proof.
  unfold list_times. induction n as [|n IH]; [intros []|].
  cbn [replicate mjoin list_join]. intros H.
  apply in_app_or in H. destruct H as [H|H]; [exact H|apply IH; exact H].
Qed.

Lemma downloads_after_print (s s' : State) (new : list (nat * event)) (me : nat)
    (line : string) :
  trace s' = trace s ++ new ->
  downloads (added s (add_trace s' [(me, Print line)])) = downloads new.
Proof.
  intros Htr. rewrite (added_app s _ (new ++ [(me, Print line)])).
  - rewrite downloads_app. apply app_nil_r.
  - cbn [add_trace trace]. rewrite Htr, app_assoc. reflexivity.
Qed.

Lemma sums_after_print (s s' : State) (new : list (nat * event)) (me : nat)
    (line : string) :
  trace s' = trace s ++ new ->
  sums (added s (add_trace s' [(me, Print line)])) = sums new.
Proof.
  intros Htr. rewrite (added_app s _ (new ++ [(me, Print line)])).
  - rewrite sums_app. apply app_nil_r.
  - cbn [add_trace trace]. rewrite Htr, app_assoc. reflexivity.
Qed.

(** C7. The workload of each of the four download tests is the two URLs
    repeated 80 times, 160 items; the thread pool is created with
    [max_workers = 5]; the workload of the CPU-bound test is the 20 integers
    [3000000 + x] for [x = 0, ..., 19], all below 3,000,020.  The tests run
    their batch runner on these workloads: the threaded and the asyncio test
    make 160 calls of [downloadSite], the synchronous and the multiprocessing
    test do so when the two URLs answer, and both CPU-bound tests call
    [sumOfSquares] on the 20 numbers. *)
Theorem test_workloads (fetch : string -> option Response)
    (process_name : nat -> string) (cpu_count : nat) (method : Pool.start_method)
    (sched : list (nat * nat)) (loop_sched : list nat) (duration : string)
    (me : nat) (s : State) :
  (URLDownloadSynchronous.sites = list_times two_urls 80
   /\ URLDownloadMultiThreaded.sites = list_times two_urls 80
   /\ URLDownloadAsyncIO.sites = list_times two_urls 80
   /\ Concurrency.sites = list_times two_urls 80)
  /\ length two_urls = 2
  /\ length (list_times two_urls 80) = 160
  /\ URLDownloadMultiThreaded.max_workers = 5
  /\ length Concurrency.numbers = 20
  /\ (forall x : nat, x < 20 ->
        Concurrency.numbers !! x = Some (3000000 + Z.of_nat x)%Z)
  /\ Forall (fun n => (3000000 <= n < 3000020)%Z) Concurrency.numbers
  /\ length (downloads (added s (fst
       (URLDownloadMultiThreaded.testConcurrency2IOBoundThreaded fetch sched
          duration me s)))) = 160
  /\ length (downloads (added s (fst
       (URLDownloadAsyncIO.testConcurrency3IOBoundAsyncIO fetch loop_sched
          duration me s)))) = 160
  /\ ((forall url, In url two_urls -> fetch url <> None) ->
      downloads (added s (fst
        (URLDownloadSynchronous.testConcurrency1IOBoundSynchronous fetch
           duration me s))) = list_times two_urls 80
      /\ length (downloads (added s (fst
           (Concurrency.testConcurrency4IOBoundMultiProcessing fetch process_name
              cpu_count method true sched duration me s)))) = 160)
  /\ sums (added s (fst
       (Concurrency.testConcurrency5CPUBoundSynchronous cpu_count method true false sched
          duration me s))) = Concurrency.numbers
  /\ sums (added s (fst
       (Concurrency.testConcurrency6CPUBoundSMultiProcessing cpu_count method true sched
          duration me s))) ≡ₚ Concurrency.numbers.
Proof.
  assert (Hlen : length (list_times two_urls 80) = 160)
    by (rewrite length_list_times; reflexivity).
  split; [repeat split|].
  split; [reflexivity|].
  split; [exact Hlen|].
  split; [reflexivity|].
  split; [reflexivity|].
  split.
  { intros x Hx.
    do 20 (destruct x as [|x]; [vm_compute; reflexivity|]). lia. }
  split.
  { unfold Concurrency.numbers, Concurrency.range. simpl.
    repeat (constructor; [lia|]). constructor. }
  split.
  { unfold URLDownloadMultiThreaded.testConcurrency2IOBoundThreaded.
    destruct (threaded_downloadAllSites_run fetch sched
                URLDownloadMultiThreaded.sites me s)
      as (s' & new & Hrun & Htr & Hcalls & _).
    rewrite (bind_returned _ _ _ _ _ _ Hrun).
    unfold bind, print. rewrite emit_add_trace. unfold ret. cbn [fst].
    rewrite (downloads_after_print _ _ _ _ _ Htr).
    rewrite (Permutation_length Hcalls). exact Hlen. }
  split.
  { unfold URLDownloadAsyncIO.testConcurrency3IOBoundAsyncIO.
    destruct (async_downloadAllSites_run fetch loop_sched URLDownloadAsyncIO.sites me s)
      as (activity & Hrun & _ & Hcalls & _).
    destruct (async_downloadAllSites_calls fetch loop_sched URLDownloadAsyncIO.sites me s)
      as [_ Hadded].
    rewrite Hrun in Hadded. cbn [fst] in Hadded.
    rewrite (bind_returned _ _ _ _ _ _ Hrun).
    unfold bind, print. rewrite emit_add_trace. unfold ret. cbn [fst].
    erewrite downloads_after_print by reflexivity.
    erewrite added_app in Hadded by reflexivity.
    rewrite (Permutation_length Hadded). exact Hlen. }
  split.
  { intros Hgood.
    assert (Hall : forall url, In url (list_times two_urls 80) -> fetch url <> None).
    { intros url Hin. apply Hgood. eapply In_list_times. exact Hin. }
    split.
    - unfold URLDownloadSynchronous.testConcurrency1IOBoundSynchronous.
      assert (Hrun := sync_downloadAllSites_run fetch URLDownloadSynchronous.sites me s).
      assert (Hnone : first_failing fetch URLDownloadSynchronous.sites = None)
        by (apply first_failing_None; exact Hall).
      rewrite Hnone in Hrun.
      rewrite (bind_returned _ _ _ _ _ _ Hrun).
      unfold bind, print. rewrite emit_add_trace. unfold ret. cbn [fst].
      erewrite downloads_after_print by reflexivity.
      rewrite !downloads_app, downloads_download_events.
      cbn [downloads omap list_omap snd app]. rewrite app_nil_r.
      apply attempted_all. exact Hnone.
    - unfold Concurrency.testConcurrency4IOBoundMultiProcessing.
      destruct (process_downloadAllSites_run fetch process_name cpu_count method sched
                  Concurrency.sites me s)
        as (s' & r & new & Hrun & Htr & Hcalls & Hout & _).
      destruct Hout as [[Hfail ->]|(url & Hin & Hnone & _)];
        [|exfalso; apply (Hall url Hin Hnone)].
      unfold bind at 1 2. rewrite Hrun. unfold print. rewrite emit_add_trace.
      unfold ret. cbn [fst].
      rewrite (downloads_after_print _ _ _ _ _ Htr).
      rewrite (Permutation_length Hcalls), attempted_chunks_all, task_batches_concat.
      + exact Hlen.
      + rewrite task_batches_concat. exact Hall. }
  split.
  { unfold Concurrency.testConcurrency5CPUBoundSynchronous.
    unfold bind at 1 2. rewrite findSums_run. unfold print. rewrite emit_add_trace.
    unfold ret. cbn [fst].
    erewrite sums_after_print by reflexivity. apply sums_entries. }
  unfold Concurrency.testConcurrency6CPUBoundSMultiProcessing,
    Concurrency.testConcurrency5CPUBoundSynchronous.
  destruct (findSumsMultiProcessing_run cpu_count method sched Concurrency.numbers me s)
    as (s' & new & Hrun & Htr & Hsums).
  unfold bind at 1 2. rewrite Hrun. unfold print. rewrite emit_add_trace.
  unfold ret. cbn [fst].
  rewrite (sums_after_print _ _ _ _ _ Htr). exact Hsums.
Qed.

(** The witness of C7: item 19, the last one, is 3,000,019. *)
Lemma test_workloads_witness : Concurrency.numbers !! 19 = Some 3000019%Z.
Proof.
  destruct (test_workloads sample_network (fun _ => "worker") 2 Pool.fork [] [] "1.5"
              main_thread initial_state)
    as (_ & _ & _ & _ & _ & Hnth & _).
  apply (Hnth 19). lia.
Defined.

(** * Further properties of the code *)

(** ** [sumOfSquares] outside the positive integers, and its growth *)
Section SumOfSquaresMore.
Import Concurrency.
Local Open Scope Z_scope.

Lemma sumOfSquares_nat_nonneg (n : nat) : 0 <= sumOfSquares (Z.of_nat n).
Proof.
  induction n as [|n IH]; [reflexivity|].
  rewrite sumOfSquares_succ. nia.
Qed.

Lemma sumOfSquares_nat_le (n m : nat) :
  (n <= m)%nat -> sumOfSquares (Z.of_nat n) <= sumOfSquares (Z.of_nat m).
Proof.
  induction 1 as [|m Hle IH]; [lia|].
  rewrite sumOfSquares_succ. nia.
Qed.

(** X1. [sumOfSquares] of zero or of a negative integer is 0, as [range] of
    such a number is empty; the result is never negative, and it grows with
    the argument. *)
Theorem sumOfSquares_edges_and_growth (a b : Z) :
  (a <= 0 -> sumOfSquares a = 0)
  /\ 0 <= sumOfSquares a
  /\ (a <= b -> sumOfSquares a <= sumOfSquares b)
  /\ (0 < a -> a < b -> sumOfSquares a < sumOfSquares b).
Proof.
  assert (Hnonneg : forall x, 0 <= sumOfSquares x).
  { intros x. destruct (Z_le_gt_dec x 0) as [Hx|Hx].
    - rewrite sumOfSquares_nonpositive by exact Hx. lia.
    - rewrite <- (Z2Nat.id x) by lia. apply sumOfSquares_nat_nonneg. }
  assert (Hmono : forall x y, x <= y -> sumOfSquares x <= sumOfSquares y).
  { intros x y Hxy. destruct (Z_le_gt_dec x 0) as [Hx|Hx].
    - rewrite (sumOfSquares_nonpositive x) by exact Hx. apply Hnonneg.
    - rewrite <- (Z2Nat.id x), <- (Z2Nat.id y) by lia.
      apply sumOfSquares_nat_le. lia. }
  split; [apply sumOfSquares_nonpositive|].
  split; [apply Hnonneg|].
  split; [apply Hmono|].
  intros Hpos Hab.
  assert (Hstep : sumOfSquares (a + 1) = sumOfSquares a + a * a).
  { rewrite <- (Z2Nat.id a) by lia.
    replace (Z.of_nat (Z.to_nat a) + 1) with (Z.of_nat (S (Z.to_nat a))) by lia.
    apply sumOfSquares_succ. }
  assert (Hnext := Hmono (a + 1) b ltac:(lia)).
  nia.
Qed.

(** A run of X1: [sumOfSquares (-3) = 0] and [sumOfSquares 2 < sumOfSquares 3]. *)
Lemma sumOfSquares_edges_and_growth_witness :
  sumOfSquares (-3) = 0 /\ sumOfSquares 2 < sumOfSquares 3.
Proof.
  destruct (sumOfSquares_edges_and_growth (-3) 0) as (Hzero & _).
  destruct (sumOfSquares_edges_and_growth 2 3) as (_ & _ & _ & Hlt).
  split; [apply Hzero; lia|apply Hlt; lia].
Defined.

End SumOfSquaresMore.

(** ** Sessions: who creates, uses and closes them *)

Lemma download_events_sessions (fetch : string -> option Response) (me session : nat)
    (sites : list string) :
  all_created (flat_map (download_events fetch me session) sites) = []
  /\ closed (flat_map (download_events fetch me session) sites) = []
  /\ all_used (flat_map (download_events fetch me session) sites)
     = replicate (length sites) session.
Proof.
  induction sites as [|url sites (Hc & Hcl & Hu)]; [repeat split|].
  cbn [flat_map length replicate].
  rewrite all_created_app, closed_app, all_used_app, Hc, Hcl, Hu.
  unfold download_events. destruct (fetch url); repeat split.
Qed.

(** X2. The synchronous [downloadAllSites] works with one session per batch:
    its first action creates the session, every request goes through it, and
    its last action closes it, on every exit path: also when a download
    raises, and also for an empty list, where nothing else happens and the
    function returns [None]. *)
Theorem sync_session_lifecycle (fetch : string -> option Response)
    (sites : list string) (me : nat) (s : State) :
  let run := URLDownloadSynchronous.downloadAllSites fetch sites me s in
  let new := added s (fst run) in
  head new = Some (me, NewSession (next_sid s))
  /\ last new = Some (me, CloseSession (next_sid s))
  /\ all_created new = [next_sid s]
  /\ closed new = [next_sid s]
  /\ all_used new = replicate (length (attempted fetch sites)) (next_sid s)
  /\ next_sid (fst run) = S (next_sid s)
  /\ (sites = [] ->
      new = [(me, NewSession (next_sid s)); (me, CloseSession (next_sid s))]
      /\ snd run = Returned PyNone).
Proof.
  cbv zeta. rewrite sync_added.
  destruct (download_events_sessions fetch me (next_sid s) (attempted fetch sites))
    as (Hc & Hcl & Hu).
  split; [reflexivity|].
  split; [rewrite app_assoc; apply last_snoc|].
  rewrite !all_created_app, !closed_app, !all_used_app, Hc, Hcl, Hu.
  split; [reflexivity|]. split; [reflexivity|].
  split; [cbn [all_used omap list_omap snd app]; apply app_nil_r|].
  rewrite sync_downloadAllSites_run. cbn [fst snd next_sid].
  split; [reflexivity|].
  intros ->. split; reflexivity.
Qed.

(** A run of X2 on the empty list. *)
Lemma sync_session_lifecycle_witness :
  snd (URLDownloadSynchronous.downloadAllSites sample_network [] main_thread
         initial_state) = Returned PyNone.
Proof.
  pose proof (sync_session_lifecycle sample_network [] main_thread initial_state) as H.
  cbv zeta in H. destruct H as (_ & _ & _ & _ & _ & _ & Hempty).
  apply Hempty. reflexivity.
Defined.

Section ThreadPoolSessions.
Import URLDownloadMultiThreaded.
Variable fetch : string -> option Response.

Lemma threaded_download_events_kind (me : nat) (stored : option nat) (fresh : nat)
    (url : string) :
  Forall download_action (threaded_download_events fetch me stored fresh url)
  /\ all_created (threaded_download_events fetch me stored fresh url)
     = match stored with Some _ => [] | None => [fresh] end.
Proof.
  unfold threaded_download_events, download_action.
  destruct stored, (fetch url); split; repeat constructor.
Qed.

Lemma download_action_not_closed (new : list (nat * event)) :
  Forall download_action new -> closed new = [] /\ sums new = [].
Proof.
  induction 1 as [|[a ev] new Hev Hnew [IHc IHs]]; [split; reflexivity|].
  unfold closed, sums in *. cbn [omap list_omap snd]. rewrite IHc, IHs.
  destruct ev; try contradiction; split; reflexivity.
Qed.

(** The sessions of a run of the thread pool, under any schedule. *)
Lemma threaded_sessions_run (sched : list (nat * nat)) (sites : list string)
    (me : nat) (s : State) :
  exists (s' : State) (new : list (nat * event)),
    downloadAllSites fetch sched sites me s = (s', Returned PyNone)
    /\ trace s' = trace s ++ new
    /\ Forall download_action new
    /\ length (all_created new) <= max_workers
    /\ length (all_created new) <= length sites
    /\ (forall t t' sid, In sid (used_by t new) -> In sid (used_by t' new) -> t = t')
    /\ (sites = [] -> new = []).
Proof.
  unfold downloadAllSites, ThreadPoolExecutor.map_and_shutdown,
    ThreadPoolExecutor.new_threads.
  unfold bind at 1 2.
  set (workers := ThreadPoolExecutor.worker_idents max_workers).
  set (s0 := mkState (trace s) (next_sid s)
               (foldr delete (threadLocal_session s) workers) (global_session s)).
  pose (Inv := fun (pending : list string) (futures : list (string * outcome pyval))
                   (st : State) =>
    exists new owners,
      trace st = trace s ++ new
      /\ Forall download_action new
      /\ length (all_created new) = length owners
      /\ List.NoDup owners
      /\ (forall t, In t owners <-> In t workers /\ is_Some (threadLocal_session st !! t))
      /\ length (all_created new) + length pending <= length sites
      /\ (sites = [] -> new = [])
      /\ Forall (fun t => In t workers) (actors new)
      /\ (forall t, In t workers -> one_session (threadLocal_session st !! t) t new)
      /\ (forall t sid, In t workers -> threadLocal_session st !! t = Some sid ->
                        sid < next_sid st)
      /\ (forall t t' sid, In t workers -> In t' workers ->
            threadLocal_session st !! t = Some sid ->
            threadLocal_session st !! t' = Some sid -> t = t')).
  assert (Hend :=
    thread_pool_invariant max_workers (downloadSite fetch) ltac:(unfold max_workers; lia) Inv).
  assert (Hstep : forall w i item pending futures st,
             w < max_workers ->
             pending !! i = Some item ->
             Inv pending futures st ->
             Inv (delete i pending)
                 (futures ++ [(item, (downloadSite fetch item (worker_ident w) st).2)])
                 (downloadSite fetch item (worker_ident w) st).1).
  { intros w i item pending futures st Hw Hitem
      (new & owners & Htr & Hkind & Hlen & Hnd & Hown & Hcount & Hempty & Hact
       & Hone & Hbound & Hinj).
    assert (Hme : In (worker_ident w) workers) by (apply worker_ident_In; exact Hw).
    rewrite threaded_downloadSite_run. cbn [fst snd].
    set (mine := worker_ident w) in *.
    destruct (threaded_download_events_kind mine (threadLocal_session st !! mine)
                (next_sid st) item) as [Hk Hcr].
    assert (Hpend : length pending = S (length (delete i pending))).
    { rewrite length_delete by (eexists; exact Hitem).
      apply lookup_lt_Some in Hitem. lia. }
    exists (new ++ threaded_download_events fetch mine
                     (threadLocal_session st !! mine) (next_sid st) item).
    exists (match threadLocal_session st !! mine with
            | Some _ => owners
            | None => mine :: owners
            end).
    cbn [trace threadLocal_session next_sid].
    split; [rewrite Htr, app_assoc; reflexivity|].
    split; [apply Forall_app; split; assumption|].
    rewrite all_created_app, Hcr, length_app.
    split.
    { destruct (threadLocal_session st !! mine); cbn [length]; lia. }
    split.
    { destruct (threadLocal_session st !! mine) eqn:Hst; [exact Hnd|].
      constructor; [|exact Hnd].
      intros Hin. apply Hown in Hin. destruct Hin as [_ [x Hx]]. congruence. }
    split.
    { intros t. destruct (threadLocal_session st !! mine) eqn:Hst; [apply Hown|].
      split.
      - intros [<-|Hin].
        + split; [exact Hme|]. rewrite lookup_insert_eq. eauto.
        + apply Hown in Hin. destruct Hin as [Ht Hsome]. split; [exact Ht|].
          destruct (decide (mine = t)) as [->|Hne];
            [rewrite lookup_insert_eq; eauto|].
          rewrite lookup_insert_ne by exact Hne. exact Hsome.
      - intros [Ht Hsome]. destruct (decide (mine = t)) as [->|Hne]; [left; reflexivity|].
        right. apply Hown. split; [exact Ht|].
        rewrite lookup_insert_ne in Hsome by exact Hne. exact Hsome. }
    split.
    { destruct (threadLocal_session st !! mine); cbn [length]; lia. }
    split.
    { intros ->. destruct pending; discriminate Hitem || (simpl in Hcount; lia). }
    split.
    { unfold actors in *. rewrite List.map_app. apply Forall_app. split; [exact Hact|].
      eapply Forall_impl; [apply actors_threaded_download_events|].
      intros a ->. exact Hme. }
    split.
    { intros t Ht. apply one_session_threaded_step. apply Hone. exact Ht. }
    split.
    { intros t sid Ht. destruct (threadLocal_session st !! mine) eqn:Hst.
      - apply Hbound. exact Ht.
      - destruct (decide (mine = t)) as [->|Hne].
        + rewrite lookup_insert_eq. intros [= <-]. lia.
        + rewrite lookup_insert_ne by exact Hne. intros Hsid.
          specialize (Hbound t sid Ht Hsid). lia. }
    intros t t' sid Ht Ht'. destruct (threadLocal_session st !! mine) eqn:Hst.
    - apply Hinj; assumption.
    - destruct (decide (mine = t)) as [Heq|Hne], (decide (mine = t')) as [Heq'|Hne'].
      + congruence.
      + rewrite <- Heq, lookup_insert_eq, lookup_insert_ne by exact Hne'.
        intros [= <-] Hsid. specialize (Hbound t' _ Ht' Hsid). lia.
      + rewrite <- Heq', lookup_insert_eq, lookup_insert_ne by exact Hne.
        intros Hsid [= <-]. specialize (Hbound t _ Ht Hsid). lia.
      + rewrite !lookup_insert_ne by assumption. apply Hinj; assumption. }
  specialize (Hend Hstep (length sites) sched sites [] s0 ltac:(lia)).
  assert (Hinit : Inv sites [] s0).
  { exists [], []. cbn [trace s0 app length all_created omap list_omap actors List.map].
    rewrite app_nil_r.
    split; [reflexivity|]. split; [constructor|]. split; [reflexivity|].
    split; [constructor|].
    split.
    { intros t. split; [intros []|]. intros [Ht [x Hx]].
      unfold s0 in Hx. cbn [threadLocal_session] in Hx.
      rewrite (lookup_forgotten _ _ t Ht) in Hx. discriminate Hx. }
    split; [lia|]. split; [reflexivity|]. split; [constructor|].
    split.
    { intros t Ht. unfold s0. cbn [threadLocal_session].
      rewrite (lookup_forgotten _ _ t Ht). split; reflexivity. }
    split.
    { intros t sid Ht. unfold s0. cbn [threadLocal_session].
      rewrite (lookup_forgotten _ _ t Ht). discriminate. }
    intros t t' sid Ht _. unfold s0. cbn [threadLocal_session].
    rewrite (lookup_forgotten _ _ t Ht). discriminate. }
  specialize (Hend Hinit).
  destruct (ThreadPoolExecutor.run max_workers (downloadSite fetch) (length sites)
              sched sites [] s0) as [s' futures].
  cbn [fst snd] in Hend.
  destruct Hend as (new & owners & Htr & Hkind & Hlen & Hnd & Hown & Hcount & Hempty
                    & Hact & Hone & Hbound & Hinj).
  exists s', new. unfold ret.
  split; [reflexivity|]. split; [exact Htr|]. split; [exact Hkind|].
  split.
  { rewrite Hlen.
    assert (Hincl : incl owners workers) by (intros t Ht; apply Hown; exact Ht).
    assert (Hle := NoDup_incl_length Hnd Hincl).
    unfold workers, ThreadPoolExecutor.worker_idents in Hle.
    rewrite length_map, length_seq in Hle. exact Hle. }
  split; [cbn [length] in Hcount; lia|].
  split; [|exact Hempty].
  assert (Hstored : forall t sid, In sid (used_by t new) ->
                      In t workers /\ threadLocal_session s' !! t = Some sid).
  { intros t sid Hin.
    destruct (in_dec Nat.eq_dec t workers) as [Ht|Hout].
    - split; [exact Ht|]. specialize (Hone t Ht). unfold one_session in Hone.
      destruct (threadLocal_session s' !! t) as [x|].
      + destruct Hone as [_ Hu]. rewrite Forall_forall in Hu.
        rewrite (Hu sid) by (apply list_elem_of_In; exact Hin). reflexivity.
      + destruct Hone as [_ Hu]. rewrite Hu in Hin. destruct Hin.
    - exfalso. rewrite used_by_other in Hin; [destruct Hin|].
      eapply Forall_impl; [exact Hact|]. intros a Ha ->. contradiction. }
  intros t t' sid Hin Hin'.
  destruct (Hstored t sid Hin) as [Ht Hs]. destruct (Hstored t' sid Hin') as [Ht' Hs'].
  exact (Hinj t t' sid Ht Ht' Hs Hs').
Qed.

End ThreadPoolSessions.

(** X3. In every run of the thread-pool [downloadAllSites], under every
    schedule, at most five sessions are created and never more than there are
    items; no session is used by two threads; no session is ever closed; and
    on an empty list nothing happens at all: no thread acts, no session is
    created, and the function returns [None]. *)
Theorem thread_pool_sessions (fetch : string -> option Response)
    (sched : list (nat * nat)) (sites : list string) (me : nat) (s : State) :
  let run := URLDownloadMultiThreaded.downloadAllSites fetch sched sites me s in
  let new := added s (fst run) in
  closed new = []
  /\ length (all_created new) <= 5
  /\ length (all_created new) <= length sites
  /\ (forall t t' sid, In sid (used_by t new) -> In sid (used_by t' new) -> t = t')
  /\ (sites = [] -> new = [] /\ snd run = Returned PyNone).
Proof.
  cbv zeta.
  destruct (threaded_sessions_run fetch sched sites me s)
    as (s' & new & -> & Htr & Hkind & Hfive & Hitems & Hown & Hempty).
  cbn [fst snd]. rewrite (added_app _ _ _ Htr).
  split; [apply download_action_not_closed; exact Hkind|].
  split; [exact Hfive|]. split; [exact Hitems|]. split; [exact Hown|].
  intros Hnil. split; [apply Hempty; exact Hnil|reflexivity].
Qed.

(** A run of X3 on the empty list: nothing is added to the trace. *)
Lemma thread_pool_sessions_witness :
  added initial_state
    (fst (URLDownloadMultiThreaded.downloadAllSites sample_network [(3, 1)] []
            main_thread initial_state))
  = [].
Proof.
  pose proof (thread_pool_sessions sample_network [(3, 1)] [] main_thread
                initial_state) as H.
  cbv zeta in H. destruct H as (_ & _ & _ & _ & Hempty).
  apply Hempty. reflexivity.
Defined.

Section EventLoopSessions.
Import asyncio URLDownloadAsyncIO.
Variable fetch : string -> option Response.

(** A property of single actions that both stretches of every task have is a
    property of all that the event loop adds to the trace. *)
Lemma loop_run_events (P : nat * event -> Prop) (session : nat) (sites : list string)
    (me : nat) :
  (forall url ph, Forall P (phase_events fetch me session url ph)) ->
  forall (iterations : nat) (sched : list nat) (phases : list phase) (s : State),
    length phases = length sites ->
    exists new,
      fst (run_loop iterations sched (tasks_of fetch session sites phases) me s)
      = add_trace s new
      /\ Forall P new.
Proof.
  intros HP. induction iterations as [|iterations IH]; intros sched phases s Hlen.
  - exists []. cbn [run_loop fst]. rewrite add_trace_nil. split; [reflexivity|constructor].
  - cbn [run_loop].
    destruct (length (filter (fun c => unfinished c = true)
                        (tasks_of fetch session sites phases))) as [|n] eqn:Hcount.
    + exists []. cbn [fst]. rewrite add_trace_nil. split; [reflexivity|constructor].
    + destruct (advance_nth_tasks fetch session sites phases (hd 0 sched mod S n) me s Hlen)
        as (p & url & ph & Hu & Hph & Hne & Hrun).
      { rewrite Hcount. apply Nat.mod_upper_bound. discriminate. }
      rewrite Hrun.
      destruct (IH (tl sched) (<[p := next_phase ph]> phases)
                  (add_trace s (phase_events fetch me session url ph)))
        as (new & Hloop & Hnew).
      { rewrite length_insert. exact Hlen. }
      exists (phase_events fetch me session url ph ++ new).
      rewrite Hloop, add_trace_app. split; [reflexivity|].
      apply Forall_app. split; [apply HP|exact Hnew].
Qed.

Lemma task_session_actions (session : nat) (new : list (nat * event)) :
  Forall (fun e => match e.2 with
                   | Enter_downloadSite _ | Print _ => True
                   | HttpGet sid _ => sid = session
                   | _ => False
                   end) new ->
  all_created new = [] /\ closed new = []
  /\ all_used new = replicate (length (requests new)) session.
Proof.
  induction 1 as [|[a ev] new Hev Hnew (IHc & IHcl & IHu)]; [repeat split|].
  unfold all_created, closed, all_used, requests in *.
  cbn [omap list_omap snd] in *. rewrite IHc, IHcl.
  destruct ev; try contradiction; cbn [length replicate]; rewrite ?IHu;
    cbn [snd] in Hev; subst; repeat split.
Qed.

Lemma add_trace_inj (s : State) (a b : list (nat * event)) :
  add_trace s a = add_trace s b -> a = b.
Proof.
  unfold add_trace. intros H. injection H as H. eapply app_inv_head. exact H.
Qed.

(** The session of a run of the asyncio [downloadAllSites], under any
    schedule. *)
Lemma async_session_run (sched : list nat) (sites : list string) (me : nat) (s : State) :
  exists activity,
    added s (fst (downloadAllSites fetch sched sites me s))
    = [(me, NewSession (next_sid s))]
        ++ List.map (fun url => (me, CreateTask url)) sites
        ++ [(me, AwaitGather (length sites))]
        ++ activity
        ++ [(me, CloseSession (next_sid s))]
    /\ all_created activity = []
    /\ closed activity = []
    /\ all_used activity = replicate (length sites) (next_sid s).
Proof.
  destruct (async_downloadAllSites_run fetch sched sites me s)
    as (activity & Hrun & _ & _ & Hreqs & _).
  exists activity. rewrite Hrun. cbn [fst].
  split; [apply added_app; reflexivity|].
  assert (Hsession : Forall (fun e => match e.2 with
                                      | Enter_downloadSite _ | Print _ => True
                                      | HttpGet sid _ => sid = next_sid s
                                      | _ => False
                                      end) activity).
  { revert Hrun.
    unfold downloadAllSites, with_session, finally, new_session, close_session,
      gather_return_exceptions.
    unfold bind at 1 2 3 4. rewrite create_tasks_run, emit_add_trace.
    rewrite add_trace_app, length_map, tasks_of_not_started.
    set (s2 := add_trace _ _).
    destruct (loop_run_events
                (fun e => match e.2 with
                          | Enter_downloadSite _ | Print _ => True
                          | HttpGet sid _ => sid = next_sid s
                          | _ => False
                          end)
                (next_sid s) sites me) with
      (iterations := iterations_needed sites) (sched := sched)
      (phases := replicate (length sites) NotStarted) (s := s2)
      as (new & Hloop & Hnew).
    { intros url ph. destruct ph; cbn [phase_events];
        unfold start_events, finish_events; [| |constructor].
      - repeat constructor.
      - destruct (fetch url); repeat constructor. }
    { apply length_replicate. }
    destruct (run_loop (iterations_needed sites) sched
                (tasks_of fetch (next_sid s) sites (replicate (length sites) NotStarted))
                me s2) as [s3 tasks'].
    cbn [fst] in Hloop. subst s3. rewrite emit_add_trace. unfold ret.
    intros Heq. injection Heq as Heq.
    unfold s2 in Heq. cbn [add_trace trace] in Heq.
    rewrite <- !app_assoc in Heq. apply app_inv_head in Heq.
    cbn [app] in Heq. injection Heq as Heq.
    apply app_inv_head in Heq. cbn [app] in Heq. injection Heq as Heq.
    apply app_inv_tail in Heq. subst new. exact Hnew. }
  destruct (task_session_actions (next_sid s) activity Hsession) as (Hc & Hcl & Hu).
  rewrite (Permutation_length Hreqs) in Hu.
  repeat split; assumption.
Qed.

End EventLoopSessions.

(** X4. The asyncio [downloadAllSites] shares one session among all tasks and
    keeps it open until they are all done: under every schedule the first
    action creates the session, each of the requests, one per item, goes
    through it, the last action closes it, and the function returns [None];
    on an empty list the session is opened, [gather] is awaited on no task,
    and the session is closed. *)
Theorem async_session_lifecycle (fetch : string -> option Response)
    (loop_sched : list nat) (sites : list string) (me : nat) (s : State) :
  let run := URLDownloadAsyncIO.downloadAllSites fetch loop_sched sites me s in
  let new := added s (fst run) in
  head new = Some (me, NewSession (next_sid s))
  /\ last new = Some (me, CloseSession (next_sid s))
  /\ all_created new = [next_sid s]
  /\ closed new = [next_sid s]
  /\ all_used new = replicate (length sites) (next_sid s)
  /\ snd run = Returned PyNone
  /\ (sites = [] ->
      new = [(me, NewSession (next_sid s)); (me, AwaitGather 0);
             (me, CloseSession (next_sid s))]).
Proof.
  cbv zeta.
  assert (Hempty : sites = [] ->
            added s (fst (URLDownloadAsyncIO.downloadAllSites fetch loop_sched sites me s))
            = [(me, NewSession (next_sid s)); (me, AwaitGather 0);
               (me, CloseSession (next_sid s))]).
  { intros ->. apply added_app.
    unfold URLDownloadAsyncIO.downloadAllSites, with_session, finally, new_session,
      close_session, asyncio.gather_return_exceptions, bind, emit, ret.
    cbn. rewrite <- !app_assoc. reflexivity. }
  destruct (async_session_run fetch loop_sched sites me s)
    as (activity & Hnew & Hc & Hcl & Hu).
  rewrite Hnew in *.
  assert (Hcreate : forall l : list string,
             all_created (List.map (fun url => (me, CreateTask url)) l) = []
             /\ closed (List.map (fun url => (me, CreateTask url)) l) = []
             /\ all_used (List.map (fun url => (me, CreateTask url)) l) = []).
  { induction l as [|u l IH]; [repeat split|exact IH]. }
  destruct (Hcreate sites) as (Hc' & Hcl' & Hu').
  split; [reflexivity|].
  split; [rewrite !app_assoc; apply last_snoc|].
  rewrite !all_created_app, !closed_app, !all_used_app, Hc, Hcl, Hu, Hc', Hcl', Hu'.
  split; [reflexivity|]. split; [reflexivity|].
  split; [cbn [all_used omap list_omap snd app]; apply app_nil_r|].
  split; [apply async_downloadAllSites_calls|].
  exact Hempty.
Qed.

(** A run of X4 on the empty list. *)
Lemma async_session_lifecycle_witness :
  added initial_state
    (fst (URLDownloadAsyncIO.downloadAllSites sample_network [1; 0] []
            main_thread initial_state))
  = [(main_thread, NewSession 0); (main_thread, AwaitGather 0);
     (main_thread, CloseSession 0)].
Proof.
  pose proof (async_session_lifecycle sample_network [1; 0] [] main_thread
                initial_state) as H.
  cbv zeta in H. destruct H as (_ & _ & _ & _ & _ & _ & Hempty).
  apply Hempty. reflexivity.
Defined.


Lemma all_used_each (P : nat -> Prop) (tr : list (nat * event)) :
  (forall t, Forall P (used_by t tr)) -> Forall P (all_used tr).
Proof.
  unfold used_by, all_used.
  induction tr as [|[a ev] tr IH]; intros Heach; [constructor|].
  cbn [omap list_omap fst snd] in *.
  destruct ev;
    try (apply IH; intros t; specialize (Heach t); cbn [omap list_omap] in Heach;
         exact Heach).
  constructor.
  - specialize (Heach a). rewrite decide_True in Heach by reflexivity.
    inversion Heach; assumption.
  - apply IH. intros t. specialize (Heach t).
    destruct (decide (a = t)); [inversion Heach; assumption|exact Heach].
Qed.

Lemma downloads_actions_of_nil (t : nat) (tr : list (nat * event)) :
  downloads tr = [] -> downloads (actions_of t tr) = [].
Proof.
  unfold downloads, actions_of.
  induction tr as [|[a ev] tr IH]; intros Hnone; [reflexivity|].
  cbn [omap list_omap List.filter fst snd] in *.
  destruct (Nat.eqb a t); cbn [omap list_omap snd];
    destruct ev; try discriminate Hnone; apply IH; exact Hnone.
Qed.

(** X5. The sessions of the process pool, in every run of its
    [downloadAllSites], under every schedule and every start method.  No
    session is ever closed; at most [os.cpu_count() or 1] sessions are
    created in all, and no worker process creates more than one.  When the
    workers find no session at their start, no session is used by two
    processes; when they are forked from a process that holds a session,
    they create none and every request goes through that one.  The start of
    a worker whose [session] is unset creates a session, whatever the items
    are; so on an empty list, where no download is made and no request is
    sent and [None] is returned, each worker has either done nothing or
    only created its session. *)
Theorem process_pool_sessions (fetch : string -> option Response)
    (process_name : nat -> string) (cpu_count : nat) (method : Pool.start_method)
    (sched : list (nat * nat)) (sites : list string) (me : nat) (s : State) :
  let run :=
    Concurrency.downloadAllSites fetch process_name cpu_count method sched sites me s in
  let new := added s (fst run) in
  closed new = []
  /\ length (all_created new) <= Pool.processes cpu_count
  /\ 1 <= Pool.processes cpu_count
  /\ (cpu_count <> 0 -> Pool.processes cpu_count = cpu_count)
  /\ (forall t, length (created_by t new) <= 1)
  /\ (Pool.inherited method me (global_session s) = None ->
      forall t t' sid, In sid (used_by t new) -> In sid (used_by t' new) -> t = t')
  /\ (forall inherited,
        Pool.inherited method me (global_session s) = Some inherited ->
        all_created new = [] /\ Forall (fun sid => sid = inherited) (all_used new))
  /\ (forall w st,
        global_session st !! worker_ident w = None ->
        added st (Pool.start_worker (Some Concurrency.setGlobalSession) w st)
        = [(worker_ident w, NewSession (next_sid st))])
  /\ (sites = [] ->
      downloads new = [] /\ all_used new = [] /\ snd run = Returned PyNone
      /\ forall t,
           actions_of t new = []
           \/ exists sid, actions_of t new = [(t, NewSession sid)]).
Proof.
  cbv zeta.
  destruct (process_sessions_run fetch process_name cpu_count method sched sites me s)
    as (s' & r & new & Hrun & Htr & Hkind & _ & Hcount & Hused & Hcalls & Hsess).
  destruct (process_downloadAllSites_run fetch process_name cpu_count method sched sites me s)
    as (s2 & r2 & new2 & Hrun2 & _ & _ & Hout & _).
  rewrite Hrun in Hrun2. injection Hrun2 as <- <-.
  rewrite Hrun. cbn [fst snd]. rewrite (added_app _ _ _ Htr).
  assert (Hmine : forall t,
            (created_by t new = [] /\ used_by t new = [])
            \/ (exists sid n, created_by t new = [sid] /\ used_by t new = replicate n sid
                              /\ Pool.inherited method me (global_session s) = None)
            \/ (exists sid n, created_by t new = [] /\ used_by t new = replicate n sid
                              /\ Pool.inherited method me (global_session s) = Some sid)).
  { intros t. rewrite created_by_actions_of, used_by_actions_of.
    destruct (Pool.inherited method me (global_session s)) as [inherited|].
    - destruct (Hsess t) as [items ->].
      destruct (process_download_events_kind fetch process_name t inherited items)
        as (_ & -> & ->).
      right. right. exists inherited, (length items). repeat split.
    - destruct Hsess as [Hview _].
      destruct (Hview t) as [->|(sid & items & ->)]; [left; split; reflexivity|].
      right. left. exists sid, (length items).
      destruct (process_download_events_kind fetch process_name t sid items)
        as (_ & Hc & Hu).
      change ((t, NewSession sid)
                :: flat_map (process_download_events fetch process_name t sid) items)
        with ([(t, NewSession sid)]
                ++ flat_map (process_download_events fetch process_name t sid) items).
      rewrite all_created_app, all_used_app, Hc, Hu. repeat split. }
  split; [apply download_action_not_closed; exact Hkind|].
  split; [exact Hcount|].
  split; [apply processes_positive|].
  split; [unfold Pool.processes; destruct cpu_count; [contradiction|reflexivity]|].
  split.
  { intros t. destruct (Hmine t) as [[-> _]|[(sid & n & -> & _)|(sid & n & -> & _)]];
      cbn [length]; lia. }
  split.
  { intros Hnone t t' sid Hin Hin'.
    assert (Hcreated : forall u, In sid (used_by u new) -> In sid (created_by u new)).
    { intros u Hu.
      destruct (Hmine u) as [[_ Hno]|[(x & n & -> & Hrep & _)|(x & n & _ & _ & Hsome)]].
      - rewrite Hno in Hu. destruct Hu.
      - rewrite Hrep in Hu. apply list_elem_of_In, elem_of_replicate in Hu.
        destruct Hu as [-> _]. left. reflexivity.
      - rewrite Hnone in Hsome. discriminate Hsome. }
    rewrite Hnone in Hsess. destruct Hsess as [_ Hown].
    apply (Hown t t' sid); apply Hcreated; assumption. }
  split.
  { intros inherited Hsome. split.
    - apply all_created_none. intros t.
      destruct (Hmine t) as [[-> _]|[(x & n & _ & _ & Hnone)|(x & n & -> & _)]];
        try reflexivity.
      rewrite Hsome in Hnone. discriminate Hnone.
    - apply all_used_each. intros t.
      destruct (Hmine t) as [[_ ->]|[(x & n & _ & _ & Hnone)|(x & n & _ & -> & Hfound)]].
      + constructor.
      + rewrite Hsome in Hnone. discriminate Hnone.
      + rewrite Hsome in Hfound. injection Hfound as <-.
        apply Forall_forall. intros y Hy. apply elem_of_replicate in Hy. apply Hy. }
  split.
  { intros w st Hunset. unfold Pool.start_worker.
    rewrite setGlobalSession_run, Hunset. cbn [fst]. apply added_app. reflexivity. }
  intros ->. cbn [length] in *.
  assert (Hnone : downloads new = [])
    by (destruct (downloads new); [reflexivity|simpl in Hcalls; lia]).
  split; [exact Hnone|].
  split; [destruct (all_used new); [reflexivity|simpl in Hused; lia]|].
  split; [destruct Hout as [[_ ->]|(url & [] & _)]; reflexivity|].
  intros t. assert (Hd := downloads_actions_of_nil t new Hnone).
  destruct (Pool.inherited method me (global_session s)) as [inherited|].
  - destruct (Hsess t) as [items Hview]. rewrite Hview in Hd.
    rewrite downloads_process_download_events in Hd. subst items.
    left. exact Hview.
  - destruct Hsess as [Hview _].
    destruct (Hview t) as [Hidle|(sid & items & Hacts)]; [left; exact Hidle|].
    rewrite Hacts in Hd.
    change ((t, NewSession sid)
              :: flat_map (process_download_events fetch process_name t sid) items)
      with ([(t, NewSession sid)]
              ++ flat_map (process_download_events fetch process_name t sid) items)
      in Hd.
    rewrite downloads_app, downloads_process_download_events in Hd.
    cbn [downloads omap list_omap snd app] in Hd. subst items.
    right. exists sid. exact Hacts.
Qed.

(** A run of X5 on the empty list: nothing is downloaded, and the start of
    worker 0 in the initial state creates session 0. *)
Lemma process_pool_sessions_witness :
  downloads (added initial_state
               (fst (Concurrency.downloadAllSites sample_network (fun _ => "worker") 2
                       Pool.fork [(0, 0); (1, 0)] [] main_thread initial_state)))
  = []
  /\ added initial_state
       (Pool.start_worker (Some Concurrency.setGlobalSession) 0 initial_state)
     = [(1, NewSession 0)].
Proof.
  pose proof (process_pool_sessions sample_network (fun _ => "worker") 2 Pool.fork
                [(0, 0); (1, 0)] [] main_thread initial_state) as H.
  cbv zeta in H. destruct H as (_ & _ & _ & _ & _ & _ & _ & Hstart & Hempty).
  split; [apply Hempty; reflexivity|].
  apply (Hstart 0 initial_state). reflexivity.
Defined.

(** ** The CPU-bound runners and the network *)
Section CpuRunners.
Import Concurrency.
Variable cpu_count : nat.
Variable method : Pool.start_method.

Lemma sums_entries_kind (me : nat) (chunk : list Z) :
  Forall sum_action (List.map (fun n => (me, Enter_sumOfSquares n)) chunk).
Proof. induction chunk; constructor; [exact I|assumption]. Qed.

(** What [findSumsMultiProcessing] adds to the trace, under any schedule. *)
Lemma findSumsMultiProcessing_actions (sched : list (nat * nat)) (numbers : list Z)
    (me : nat) (s : State) :
  exists (s' : State) (new : list (nat * event)),
    findSumsMultiProcessing cpu_count method sched numbers me s = (s', Returned PyNone)
    /\ trace s' = trace s ++ new
    /\ Forall sum_action new
    /\ length new = length numbers
    /\ next_sid s' = next_sid s
    /\ threadLocal_session s' = threadLocal_session s
    /\ Forall (fun t => In t (Pool.worker_idents cpu_count)) (actors new).
Proof.
  unfold findSumsMultiProcessing, Pool.map_and_exit, Pool.new_processes.
  unfold bind at 1 2.
  set (s0 := mkState (trace s) (next_sid s) (threadLocal_session s)
               (foldr _ (global_session s) (Pool.worker_idents cpu_count))).
  set (tasks := Pool.task_batches cpu_count numbers).
  pose (Inv := fun (started : list nat) (pending : list (nat * list Z))
                   (answers : list (nat * outcome (list pyval))) (st : State) =>
    exists new,
      trace st = trace s ++ new
      /\ Forall sum_action new
      /\ length new + length (concat (List.map snd pending)) = length numbers
      /\ next_sid st = next_sid s
      /\ threadLocal_session st = threadLocal_session s
      /\ Forall (fun t => In t (Pool.worker_idents cpu_count)) (actors new)
      /\ Pool.first_exception answers = None).
  destruct (process_pool_invariant cpu_count None call_sumOfSquares Inv) with
    (fuel := Pool.processes cpu_count + length tasks) (sched := sched)
    (started := @nil nat) (pending := Pool.index_tasks tasks)
    (answers := @nil (nat * outcome (list pyval))) (s := s0)
    as (started' & new & Htr & Hkind & Hlen & Hsid & Htls & Hact & Hok).
  - intros w started pending answers st _ _ Hinv. exact Hinv.
  - intros w i j chunk started pending answers st Hw _ Hchunk
      (new & Htr & Hkind & Hlen & Hsid & Htls & Hact & Hok).
    rewrite mapstar_sums_run. cbn [fst snd].
    exists (new ++ List.map (fun n => (worker_ident w, Enter_sumOfSquares n)) chunk).
    cbn [add_trace trace next_sid threadLocal_session].
    split; [rewrite Htr, app_assoc; reflexivity|].
    split; [apply Forall_app; split; [exact Hkind|apply sums_entries_kind]|].
    split.
    { assert (Hperm := delete_Permutation pending i (j, chunk) Hchunk).
      rewrite <- !flat_map_concat_map in *.
      rewrite (Permutation_length (Permutation_flat_map snd Hperm)) in Hlen.
      cbn [flat_map snd] in Hlen. rewrite length_app in Hlen.
      rewrite length_app, length_map. lia. }
    split; [exact Hsid|]. split; [exact Htls|].
    split.
    { unfold actors in *. rewrite List.map_app. apply Forall_app. split; [exact Hact|].
      rewrite List.map_map. cbn [fst].
      clear -Hw. induction chunk; constructor; [|assumption].
      apply worker_ident_In. exact Hw. }
    rewrite first_exception_app, Hok. reflexivity.
  - constructor.
  - intros w [].
  - unfold Pool.index_tasks. rewrite length_zip_with, length_seq. simpl. lia.
  - exists []. cbn [trace s0 length]. rewrite app_nil_r, index_tasks_snd.
    unfold tasks. rewrite task_batches_concat.
    repeat split; constructor.
  - destruct (Pool.run cpu_count None call_sumOfSquares
                (Pool.processes cpu_count + length tasks) sched []
                (Pool.index_tasks tasks) [] s0) as [s' answers].
    cbn [fst snd List.map concat length] in *. rewrite Hok. unfold ret.
    exists s', new. rewrite Nat.add_0_r in Hlen.
    repeat split; assumption.
Qed.

End CpuRunners.

(** X6. The CPU-bound runners leave the network alone.  [findSums] changes
    nothing in the state but the marks of its calls, one per number in the
    order of the list; under every schedule [findSumsMultiProcessing] adds
    exactly one such mark per number, made by a worker process, and no other
    action: no session is created, no request is sent and nothing is printed.
    On an empty list neither of them does anything. *)
Theorem cpu_runners_leave_the_network_alone (cpu_count : nat) (method : Pool.start_method)
    (sched : list (nat * nat)) (numbers : list Z) (me : nat) (s : State) :
  let seq_run := Concurrency.findSums numbers me s in
  let pool_run := Concurrency.findSumsMultiProcessing cpu_count method sched numbers me s in
  let new := added s (fst pool_run) in
  fst seq_run = add_trace s (List.map (fun n => (me, Enter_sumOfSquares n)) numbers)
  /\ Forall sum_action new
  /\ length new = length numbers
  /\ all_created new = [] /\ all_used new = [] /\ printed new = []
  /\ next_sid (fst pool_run) = next_sid s
  /\ threadLocal_session (fst pool_run) = threadLocal_session s
  /\ Forall (fun t => In t (Pool.worker_idents cpu_count)) (actors new)
  /\ (numbers = [] -> fst seq_run = s /\ new = []).
Proof.
  cbv zeta. rewrite findSums_run. cbn [fst].
  destruct (findSumsMultiProcessing_actions cpu_count method sched numbers me s)
    as (s' & new & -> & Htr & Hkind & Hlen & Hsid & Htls & Hact).
  cbn [fst]. rewrite (added_app _ _ _ Htr).
  split; [reflexivity|]. split; [exact Hkind|]. split; [exact Hlen|].
  assert (Hnone : all_created new = [] /\ all_used new = [] /\ printed new = []).
  { clear -Hkind. induction Hkind as [|[a ev] new Hev _ (IHc & IHu & IHp)];
      [repeat split|].
    unfold all_created, all_used, printed in *. cbn [omap list_omap snd].
    rewrite IHc, IHu, IHp. destruct ev; try contradiction. repeat split. }
  destruct Hnone as (Hc & Hu & Hp).
  split; [exact Hc|]. split; [exact Hu|]. split; [exact Hp|].
  split; [exact Hsid|]. split; [exact Htls|]. split; [exact Hact|].
  intros ->. split; [apply add_trace_nil|].
  destruct new; [reflexivity|discriminate Hlen].
Qed.

(** A run of X6 on the empty list. *)
Lemma cpu_runners_leave_the_network_alone_witness :
  fst (Concurrency.findSums [] main_thread initial_state) = initial_state
  /\ added initial_state
       (fst (Concurrency.findSumsMultiProcessing 2 Pool.fork [(0, 0)] [] main_thread
               initial_state)) = [].
Proof.
  pose proof (cpu_runners_leave_the_network_alone 2 Pool.fork [(0, 0)] [] main_thread
                initial_state) as H.
  cbv zeta in H. destruct H as (_ & _ & _ & _ & _ & _ & _ & _ & _ & Hempty).
  apply Hempty. reflexivity.
Defined.

(** ** The test functions *)

Lemma pretty_160 : pretty (length (list_times two_urls 80)) = "160".
Proof. vm_compute. reflexivity. Qed.


Lemma task_action_sums (new : list (nat * event)) :
  Forall task_action new -> sums new = [].
Proof.
  induction 1 as [|[a ev] new Hev _ IH]; [reflexivity|].
  unfold sums in *. cbn [omap list_omap snd]. rewrite IH.
  destruct ev; try contradiction; reflexivity.
Qed.

Lemma sum_action_downloads (new : list (nat * event)) :
  Forall sum_action new -> downloads new = [] /\ length (sums new) = length new.
Proof.
  induction 1 as [|[a ev] new Hev _ [IHd IHs]]; [split; reflexivity|].
  unfold downloads, sums in *. cbn [omap list_omap snd length]. rewrite IHd.
  destruct ev; try contradiction. cbn [length]. rewrite IHs. split; reflexivity.
Qed.

(** A test that runs its batch runner and then prints the performance line. *)
Lemma runner_then_report {A} (runner : M A) (line : string) (me : nat)
    (s s' : State) (v : A) :
  runner me s = (s', Returned v) ->
  (runner ;; print line ;; ret PyNone) me s
  = (add_trace s' [(me, Print line)], Returned PyNone).
Proof.
  intros Hrun. rewrite (bind_returned _ _ _ _ _ _ Hrun).
  unfold bind, print. rewrite emit_add_trace. reflexivity.
Qed.

Section Tests.
Variable fetch : string -> option Response.
Variable process_name : nat -> string.
Variable cpu_count : nat.
Variable method : Pool.start_method.

(** The calls that each batch runner of the download tests makes on the
    workload of the tests. *)
Lemma threaded_workload_run (sched : list (nat * nat)) (me : nat) (s : State) :
  exists s' new,
    URLDownloadMultiThreaded.downloadAllSites fetch sched
      URLDownloadMultiThreaded.sites me s = (s', Returned PyNone)
    /\ trace s' = trace s ++ new
    /\ length (downloads new) = 160 /\ sums new = [].
Proof.
  destruct (threaded_sessions_run fetch sched URLDownloadMultiThreaded.sites me s)
    as (s' & new & Hrun & Htr & Hkind & _).
  destruct (threaded_downloadAllSites_run fetch sched URLDownloadMultiThreaded.sites me s)
    as (s2 & new2 & Hrun2 & Htr2 & Hcalls & _).
  rewrite Hrun in Hrun2. injection Hrun2 as <-.
  assert (new2 = new) by (eapply same_added; eassumption). subst new2.
  exists s', new. split; [exact Hrun|]. split; [exact Htr|].
  split; [rewrite (Permutation_length Hcalls); apply length_list_times|].
  apply download_action_not_closed. exact Hkind.
Qed.

Lemma async_workload_run (sched : list nat) (me : nat) (s : State) :
  exists s' new,
    URLDownloadAsyncIO.downloadAllSites fetch sched URLDownloadAsyncIO.sites me s
    = (s', Returned PyNone)
    /\ trace s' = trace s ++ new
    /\ length (downloads new) = 160 /\ sums new = [].
Proof.
  destruct (async_downloadAllSites_run fetch sched URLDownloadAsyncIO.sites me s)
    as (activity & Hrun & _ & Hcalls & _ & Hacts & _).
  eexists. eexists. split; [exact Hrun|]. cbn [trace].
  split; [reflexivity|].
  assert (Hcreate : forall l : list string,
             downloads (List.map (fun url => (me, CreateTask url)) l) = []
             /\ sums (List.map (fun url => (me, CreateTask url)) l) = []).
  { induction l as [|u l IH]; [split; reflexivity|exact IH]. }
  destruct (Hcreate URLDownloadAsyncIO.sites) as [Hd Hs].
  rewrite !downloads_app, !sums_app, Hd, Hs, (task_action_sums _ Hacts).
  cbn [downloads sums omap list_omap snd app]. rewrite app_nil_r.
  split; [|reflexivity].
  rewrite (Permutation_length Hcalls). apply length_list_times.
Qed.

Lemma sync_workload_run (me : nat) (s : State) :
  (forall url, In url two_urls -> fetch url <> None) ->
  exists s' new,
    URLDownloadSynchronous.downloadAllSites fetch URLDownloadSynchronous.sites me s
    = (s', Returned PyNone)
    /\ trace s' = trace s ++ new
    /\ length (downloads new) = 160 /\ sums new = [].
Proof.
  intros Hgood.
  assert (Hall : forall url, In url URLDownloadSynchronous.sites -> fetch url <> None).
  { intros url Hin. apply Hgood. eapply In_list_times. exact Hin. }
  assert (Hnone := proj2 (first_failing_None fetch _) Hall).
  assert (Hrun := sync_downloadAllSites_run fetch URLDownloadSynchronous.sites me s).
  rewrite Hnone, (attempted_all fetch _ Hnone) in Hrun.
  eexists. eexists. split; [exact Hrun|]. cbn [trace].
  split; [reflexivity|].
  rewrite !downloads_app, !sums_app, downloads_download_events.
  cbn [downloads sums omap list_omap snd app]. rewrite app_nil_r.
  split; [apply length_list_times|].
  generalize URLDownloadSynchronous.sites. intros l. rewrite app_nil_r.
  induction l as [|u l IH]; [reflexivity|].
  cbn [flat_map]. rewrite sums_app, IH.
  unfold download_events. destruct (fetch u); reflexivity.
Qed.

Lemma process_workload_run (sched : list (nat * nat)) (me : nat) (s : State) :
  (forall url, In url two_urls -> fetch url <> None) ->
  exists s' new,
    Concurrency.downloadAllSites fetch process_name cpu_count method sched
      Concurrency.sites me s = (s', Returned PyNone)
    /\ trace s' = trace s ++ new
    /\ length (downloads new) = 160 /\ sums new = [].
Proof.
  intros Hgood.
  assert (Hall : forall url, In url Concurrency.sites -> fetch url <> None).
  { intros url Hin. apply Hgood. eapply In_list_times. exact Hin. }
  destruct (process_sessions_run fetch process_name cpu_count method sched Concurrency.sites me s)
    as (s' & r & new & Hrun & Htr & Hkind & _).
  destruct (process_downloadAllSites_run fetch process_name cpu_count method sched
              Concurrency.sites me s)
    as (s2 & r2 & new2 & Hrun2 & Htr2 & Hcalls & Hout & _).
  rewrite Hrun in Hrun2. injection Hrun2 as <- <-.
  assert (new2 = new) by (eapply same_added; eassumption). subst new2.
  destruct Hout as [[_ ->]|(url & Hin & Hnone & _)];
    [|exfalso; apply (Hall url Hin Hnone)].
  exists s', new. split; [exact Hrun|]. split; [exact Htr|].
  split; [|apply download_action_not_closed; exact Hkind].
  rewrite (Permutation_length Hcalls), attempted_chunks_all, task_batches_concat.
  - apply length_list_times.
  - rewrite task_batches_concat. exact Hall.
Qed.

End Tests.

(** X7. What the tests report.  The threaded and the asyncio test always end
    by printing the performance line for 160 downloads and return [None],
    whatever the downloads did.  The synchronous test does so when the two
    URLs answer; when a download raises, the exception leaves the test, the
    last action is the close of the session, and only the lines of the
    downloads made so far are printed: no performance line.  Outside the main
    script ([__name__] other than "__main__") the multiprocessing test and
    the two CPU-bound tests do nothing and return [None]. *)
Theorem tests_report (fetch : string -> option Response)
    (process_name : nat -> string) (cpu_count : nat) (method : Pool.start_method)
    (sched : list (nat * nat)) (loop_sched : list nat) (duration : string)
    (multiProcessing : bool) (me : nat) (s : State) :
  let report := nl +:+ "PERFORMANCE: Downloaded 160 in " +:+ duration +:+ " seconds" in
  let report_sites :=
    nl +:+ "PERFORMANCE: Downloaded 160 sites in " +:+ duration +:+ " seconds" in
  let sync_test :=
    URLDownloadSynchronous.testConcurrency1IOBoundSynchronous fetch duration me s in
  let threaded_test :=
    URLDownloadMultiThreaded.testConcurrency2IOBoundThreaded fetch sched duration me s in
  let async_test :=
    URLDownloadAsyncIO.testConcurrency3IOBoundAsyncIO fetch loop_sched duration me s in
  (snd threaded_test = Returned PyNone
   /\ last (added s (fst threaded_test)) = Some (me, Print report))
  /\ (snd async_test = Returned PyNone
      /\ last (added s (fst async_test)) = Some (me, Print report_sites))
  /\ ((forall url, In url two_urls -> fetch url <> None) ->
      snd sync_test = Returned PyNone
      /\ last (added s (fst sync_test)) = Some (me, Print report))
  /\ (forall bad,
        first_failing fetch (list_times two_urls 80) = Some bad ->
        snd sync_test = Raised (ConnectionError bad)
        /\ last (added s (fst sync_test)) = Some (me, CloseSession (next_sid s))
        /\ printed (added s (fst sync_test))
           = omap (read_line fetch) (attempted fetch (list_times two_urls 80)))
  /\ Concurrency.testConcurrency4IOBoundMultiProcessing fetch process_name cpu_count method
       false sched duration me s = (s, Returned PyNone)
  /\ Concurrency.testConcurrency5CPUBoundSynchronous cpu_count method false multiProcessing
       sched duration me s = (s, Returned PyNone)
  /\ Concurrency.testConcurrency6CPUBoundSMultiProcessing cpu_count method false
       sched duration me s = (s, Returned PyNone).
Proof.
  cbv zeta.
  split.
  { unfold URLDownloadMultiThreaded.testConcurrency2IOBoundThreaded.
    destruct (threaded_workload_run fetch sched me s) as (s' & new & Hrun & Htr & _).
    rewrite (runner_then_report _ _ _ _ _ _ Hrun). cbn [fst snd].
    split; [reflexivity|].
    rewrite (added_app s _ (new ++ [(me, Print _)]))
      by (cbn [add_trace trace]; rewrite Htr, app_assoc; reflexivity).
    rewrite last_snoc.
    change (length URLDownloadMultiThreaded.sites) with (length (list_times two_urls 80)).
    rewrite pretty_160. reflexivity. }
  split.
  { unfold URLDownloadAsyncIO.testConcurrency3IOBoundAsyncIO.
    destruct (async_workload_run fetch loop_sched me s) as (s' & new & Hrun & Htr & _).
    rewrite (runner_then_report _ _ _ _ _ _ Hrun). cbn [fst snd].
    split; [reflexivity|].
    rewrite (added_app s _ (new ++ [(me, Print _)]))
      by (cbn [add_trace trace]; rewrite Htr, app_assoc; reflexivity).
    rewrite last_snoc.
    change (length URLDownloadAsyncIO.sites) with (length (list_times two_urls 80)).
    rewrite pretty_160. reflexivity. }
  split.
  { intros Hgood.
    unfold URLDownloadSynchronous.testConcurrency1IOBoundSynchronous.
    destruct (sync_workload_run fetch me s Hgood) as (s' & new & Hrun & Htr & _).
    rewrite (runner_then_report _ _ _ _ _ _ Hrun). cbn [fst snd].
    split; [reflexivity|].
    rewrite (added_app s _ (new ++ [(me, Print _)]))
      by (cbn [add_trace trace]; rewrite Htr, app_assoc; reflexivity).
    rewrite last_snoc.
    change (length URLDownloadSynchronous.sites) with (length (list_times two_urls 80)).
    rewrite pretty_160. reflexivity. }
  split.
  { intros bad Hbad.
    unfold URLDownloadSynchronous.testConcurrency1IOBoundSynchronous.
    assert (Hrun := sync_downloadAllSites_run fetch URLDownloadSynchronous.sites me s).
    change URLDownloadSynchronous.sites with (list_times two_urls 80) in *.
    rewrite Hbad in Hrun.
    match goal with |- context [bind ?m ?k me s] =>
      assert (Htest : bind m k me s
                      = (fst (URLDownloadSynchronous.downloadAllSites fetch
                                (list_times two_urls 80) me s),
                         Raised (ConnectionError bad)))
        by (unfold bind at 1; rewrite Hrun; reflexivity);
      rewrite Htest
    end.
    rewrite Hrun. cbn [fst snd].
    split; [reflexivity|].
    erewrite added_app by reflexivity.
    split; [rewrite !app_assoc; apply last_snoc|].
    rewrite !printed_app, printed_download_events.
    cbn [printed omap list_omap snd app]. apply app_nil_r. }
  repeat split.
Qed.

(** A run of X7: on a network where "https://www.jython.org" does not
    answer, the synchronous test raises at the first download. *)
Lemma tests_report_witness :
  snd (URLDownloadSynchronous.testConcurrency1IOBoundSynchronous
         (fun url => if String.eqb url "https://www.jython.org" then None
                     else Some (mkResponse 3 None))
         "0.5" main_thread initial_state)
  = Raised (ConnectionError "https://www.jython.org").
Proof.
  pose proof (tests_report
                (fun url => if String.eqb url "https://www.jython.org" then None
                            else Some (mkResponse 3 None))
                (fun _ => "worker") 2 Pool.fork [] [] "0.5" false main_thread initial_state) as H.
  cbv zeta in H. destruct H as (_ & _ & _ & Hbad & _).
  apply (Hbad "https://www.jython.org"). reflexivity.
Defined.

(** ** The main block *)

Lemma getProcessSelection_run (stdin : list string) (me : nat) (s : State) :
  Concurrency.getProcessSelection stdin me s
  = (add_trace s (flat_map (fun _ => reprompt me) (rejected_lines stdin)
                  ++ [(me, Print Concurrency.menu_text);
                      (me, Input Concurrency.prompt_text)]),
     match remaining_lines stdin with
     | [] => Raised EOFError
     | line :: after => Returned (line, after)
     end).
Proof.
  unfold Concurrency.getProcessSelection.
  rewrite getProcessSelection_while_spec by discriminate. reflexivity.
Qed.

Lemma remaining_lines_length (stdin : list string) :
  length (remaining_lines stdin) <= length stdin.
Proof.
  induction stdin as [|line stdin IH]; simpl; [lia|].
  destruct (ends_loop line); simpl; lia.
Qed.

Lemma remaining_lines_In (stdin : list string) (x : string) :
  In x (remaining_lines stdin) -> In x stdin.
Proof.
  intros H. rewrite (rejected_remaining stdin). apply in_or_app. right. exact H.
Qed.

Lemma ends_loop_q : ends_loop "q" = true.
Proof. reflexivity. Qed.

(** Reading on when a 'q' follows: the lines after it play no part. *)
Lemma remaining_lines_before_quit (before : list string) :
  ~ In "q" before ->
  (remaining_lines before = []
   /\ forall after,
        rejected_lines (before ++ "q" :: after) = rejected_lines before
        /\ remaining_lines (before ++ "q" :: after) = "q" :: after)
  \/ (exists line rest,
        remaining_lines before = line :: rest
        /\ line <> "q" /\ ~ In "q" rest
        /\ forall after,
             rejected_lines (before ++ "q" :: after) = rejected_lines before
             /\ remaining_lines (before ++ "q" :: after) = line :: rest ++ "q" :: after).
Proof.
  induction before as [|x before IH]; intros Hq.
  - left. split; [reflexivity|]. intros after. split; reflexivity.
  - assert (Hx : x <> "q") by (intros ->; apply Hq; left; reflexivity).
    assert (Hq' : ~ In "q" before) by (intros H; apply Hq; right; exact H).
    cbn [remaining_lines rejected_lines app].
    destruct (ends_loop x) eqn:Hends.
    + right. exists x, before.
      split; [reflexivity|]. split; [exact Hx|]. split; [exact Hq'|].
      intros after. split; reflexivity.
    + destruct (IH Hq') as [[Hnone Hall]|(line & rest & Hrem & Hne & Hrest & Hall)].
      * left. split; [exact Hnone|]. intros after.
        destruct (Hall after) as [-> ->]. split; reflexivity.
      * right. exists line, rest.
        split; [exact Hrem|]. split; [exact Hne|]. split; [exact Hrest|].
        intros after. destruct (Hall after) as [-> ->]. split; reflexivity.
Qed.

Section MainLoop.
Import Concurrency.
Variable fetch : string -> option Response.
Variable process_name : nat -> string.
Variable cpu_count : nat.
Variable method : Pool.start_method.
Variable name_is_main : bool.

Lemma main_while_quit (fuel : nat) (stdin : list string) (oracles : list test_oracle)
    (me : nat) (s : State) :
  main_while fetch process_name cpu_count method name_is_main fuel stdin oracles "q" me s
  = (s, Returned (match fuel with 0 => None | S _ => Some PyNone end)).
Proof. destruct fuel; reflexivity. Qed.

Lemma main_while_step (fuel : nat) (stdin : list string) (oracles : list test_oracle)
    (p : string) (me : nat) (s : State) :
  p <> "q" ->
  main_while fetch process_name cpu_count method name_is_main (S fuel) stdin oracles p me s
  = let s1 := add_trace s (flat_map (fun _ => reprompt me) (rejected_lines stdin)
                           ++ [(me, Print menu_text); (me, Input prompt_text)]) in
    match remaining_lines stdin with
    | [] => (s1, Raised EOFError)
    | line :: after =>
        if String.eqb line "q"
        then main_while fetch process_name cpu_count method name_is_main fuel after oracles
               "q" me s1
        else bind (run_selection fetch process_name cpu_count method name_is_main line
                     (hd (mkOracle [] [] "") oracles))
                  (fun _ => main_while fetch process_name cpu_count method name_is_main fuel
                              after (tl oracles) line) me s1
    end.
Proof.
  intros Hp. cbn [main_while]. apply String.eqb_neq in Hp. rewrite Hp. cbn [negb].
  unfold bind at 1. rewrite getProcessSelection_run.
  destruct (remaining_lines stdin) as [|line after]; [reflexivity|].
  cbn [fst snd]. destruct (String.eqb line "q") eqn:Hline; cbn [negb].
  - apply String.eqb_eq in Hline. subst line. reflexivity.
  - reflexivity.
Qed.

Lemma main_while_after_quit (fuel : nat) :
  forall (before after : list string) (oracles : list test_oracle) (p : string)
         (me : nat) (s : State),
    ~ In "q" before ->
    main_while fetch process_name cpu_count method name_is_main fuel
      (before ++ "q" :: after) oracles p me s
    = main_while fetch process_name cpu_count method name_is_main fuel
        (before ++ ["q"]) oracles p me s.
Proof.
  induction fuel as [|fuel IH]; intros before after oracles p me s Hq; [reflexivity|].
  destruct (string_dec p "q") as [->|Hp]; [rewrite !main_while_quit; reflexivity|].
  rewrite !main_while_step by exact Hp. cbv zeta.
  destruct (remaining_lines_before_quit before Hq)
    as [[Hnone Hall]|(line & rest & Hrem & Hne & Hrest & Hall)].
  - destruct (Hall after) as [-> ->]. destruct (Hall []) as [-> ->].
    cbn [String.eqb Ascii.eqb Bool.eqb andb]. rewrite !main_while_quit. reflexivity.
  - destruct (Hall after) as [-> ->]. destruct (Hall []) as [-> ->].
    apply String.eqb_neq in Hne. rewrite Hne.
    unfold bind. destruct (run_selection _ _ _ _ _ _ _ _) as [s' [v|e]]; [|reflexivity].
    apply IH. exact Hrest.
Qed.

Lemma main_while_enough_fuel (fuel : nat) :
  forall (stdin : list string) (oracles : list test_oracle) (p : string)
         (me : nat) (s : State),
    length stdin + 2 <= fuel ->
    snd (main_while fetch process_name cpu_count method name_is_main fuel stdin oracles p me s)
    <> Returned None.
Proof.
  induction fuel as [|fuel IH]; intros stdin oracles p me s Hfuel; [lia|].
  destruct (string_dec p "q") as [->|Hp]; [rewrite main_while_quit; discriminate|].
  rewrite main_while_step by exact Hp. cbv zeta.
  assert (Hlen := remaining_lines_length stdin).
  destruct (remaining_lines stdin) as [|line after]; [discriminate|].
  cbn [length] in Hlen.
  destruct (String.eqb line "q").
  - rewrite main_while_quit. destruct fuel; [lia|discriminate].
  - unfold bind. destruct (run_selection _ _ _ _ _ _ _ _) as [s' [v|e]]; [|discriminate].
    apply IH. lia.
Qed.

Lemma main_while_returns_after_quit (fuel : nat) :
  forall (stdin : list string) (oracles : list test_oracle) (p : string)
         (me : nat) (s : State) (v : pyval),
    p <> "q" ->
    snd (main_while fetch process_name cpu_count method name_is_main fuel stdin oracles p me s)
    = Returned (Some v) ->
    v = PyNone /\ In "q" stdin.
Proof.
  induction fuel as [|fuel IH]; intros stdin oracles p me s v Hp; [discriminate|].
  rewrite main_while_step by exact Hp. cbv zeta.
  assert (Hin := remaining_lines_In stdin).
  destruct (remaining_lines stdin) as [|line after]; [discriminate|].
  destruct (String.eqb line "q") eqn:Hline.
  - apply String.eqb_eq in Hline. subst line. rewrite main_while_quit. cbn [snd].
    destruct fuel; [discriminate|]. intros [= <-].
    split; [reflexivity|]. apply Hin. left. reflexivity.
  - apply String.eqb_neq in Hline.
    unfold bind. destruct (run_selection _ _ _ _ _ _ _ _) as [s' [w|e]]; [|discriminate].
    intros Hret. destruct (IH after (tl oracles) line me s' v Hline Hret) as [-> Hq].
    split; [reflexivity|]. apply Hin. right. exact Hq.
Qed.

End MainLoop.

(** ** The main block under a network that answers *)

Lemma run_counts_bind {A B} (m : M A) (f : A -> M B) (me : nat) (s : State)
    (v : A) (r : outcome B) (d k d' k' : nat) :
  run_counts m me s (Returned v) d k ->
  (forall s', run_counts (f v) me s' r d' k') ->
  run_counts (bind m f) me s r (d + d') (k + k').
Proof.
  intros (s1 & new1 & Hrun1 & Htr1 & Hd1 & Hk1) Hnext.
  destruct (Hnext s1) as (s2 & new2 & Hrun2 & Htr2 & Hd2 & Hk2).
  exists s2, (new1 ++ new2).
  split; [rewrite (bind_returned _ _ _ _ _ _ Hrun1); exact Hrun2|].
  split; [rewrite Htr2, Htr1, app_assoc; reflexivity|].
  rewrite downloads_app, sums_app, !length_app, Hd1, Hk1, Hd2, Hk2.
  split; reflexivity.
Qed.

Lemma run_counts_print (line : string) (me : nat) (s : State) :
  run_counts (print line) me s (Returned tt) 0 0.
Proof.
  exists (add_trace s [(me, Print line)]), [(me, Print line)].
  split; [reflexivity|]. split; [reflexivity|]. split; reflexivity.
Qed.

Lemma run_counts_ret {A} (v : A) (me : nat) (s : State) :
  run_counts (ret v) me s (Returned v) 0 0.
Proof.
  exists s, []. split; [reflexivity|].
  split; [rewrite app_nil_r; reflexivity|]. split; reflexivity.
Qed.

(** A test: the batch runner, then the performance line. *)
Lemma run_counts_test {A} (runner : M A) (line : string) (me : nat) (s : State)
    (v : A) (d k : nat) :
  run_counts runner me s (Returned v) d k ->
  run_counts (runner ;; print line ;; ret PyNone) me s (Returned PyNone) d k.
Proof.
  intros Hrun.
  replace d with (d + (0 + 0)) by lia. replace k with (k + (0 + 0)) by lia.
  eapply run_counts_bind; [exact Hrun|]. intros s1.
  eapply run_counts_bind; [apply run_counts_print|]. intros s2.
  apply run_counts_ret.
Qed.

(** The same, in the shape of the tests that ask for the main script. *)
Lemma run_counts_main_test {A} (runner : M A) (line : string) (me : nat) (s : State)
    (v : A) (d k : nat) :
  run_counts runner me s (Returned v) d k ->
  run_counts ((runner ;; print line) ;; ret PyNone) me s (Returned PyNone) d k.
Proof.
  intros Hrun.
  replace d with ((d + 0) + 0) by lia. replace k with ((k + 0) + 0) by lia.
  eapply run_counts_bind; [|intros s2; apply run_counts_ret].
  eapply run_counts_bind; [exact Hrun|]. intros s1. apply run_counts_print.
Qed.

Lemma menu_events_quiet (me : nat) (rejected : list string) :
  downloads (flat_map (fun _ => reprompt me) rejected
             ++ [(me, Print Concurrency.menu_text); (me, Input Concurrency.prompt_text)])
  = []
  /\ sums (flat_map (fun _ => reprompt me) rejected
           ++ [(me, Print Concurrency.menu_text); (me, Input Concurrency.prompt_text)])
     = [].
Proof.
  induction rejected as [|line rejected [IHd IHs]]; [split; reflexivity|].
  cbn [flat_map]. rewrite <- !app_assoc, downloads_app, sums_app, IHd, IHs.
  split; reflexivity.
Qed.

Lemma str_in_selections (line : string) :
  Concurrency.str_in line Concurrency.selections = true ->
  line = "1" \/ line = "2" \/ line = "3" \/ line = "4" \/ line = "5" \/ line = "6".
Proof.
  unfold Concurrency.str_in, Concurrency.selections. cbn [existsb].
  rewrite !orb_true_iff, !String.eqb_eq. intuition discriminate.
Qed.

Lemma count_in_cons (selections : list string) (line : string) (lines : list string) :
  count_in selections (line :: lines)
  = (if Concurrency.str_in line selections then 1 else 0) + count_in selections lines.
Proof.
  unfold count_in. cbn [List.filter].
  destruct (Concurrency.str_in line selections); reflexivity.
Qed.

(** The lines that the menu rejects count for nothing. *)
Lemma rejected_lines_count (selections : list string) (stdin : list string) :
  (forall line, Concurrency.str_in line selections = true -> ends_loop line = true) ->
  Concurrency.str_in "q" stdin = Concurrency.str_in "q" (remaining_lines stdin)
  /\ count_in selections (lines_before_quit stdin)
     = count_in selections (lines_before_quit (remaining_lines stdin)).
Proof.
  intros Hsel. induction stdin as [|line stdin [IHq IHc]]; [split; reflexivity|].
  cbn [remaining_lines]. destruct (ends_loop line) eqn:Hends; [split; reflexivity|].
  assert (Hq : String.eqb line "q" = false).
  { unfold ends_loop in Hends. apply orb_false_iff in Hends. apply Hends. }
  assert (Hq' : String.eqb "q" line = false) by (rewrite String.eqb_sym; exact Hq).
  assert (Hno : Concurrency.str_in line selections = false).
  { destruct (Concurrency.str_in line selections) eqn:Hin; [|reflexivity].
    rewrite (Hsel line Hin) in Hends. discriminate. }
  split.
  - unfold Concurrency.str_in in *. cbn [existsb]. rewrite Hq'. exact IHq.
  - cbn [lines_before_quit]. rewrite Hq, count_in_cons, Hno. exact IHc.
Qed.

Lemma io_selections_end_loop (line : string) :
  Concurrency.str_in line ["1"; "2"; "3"; "4"] = true -> ends_loop line = true.
Proof.
  unfold ends_loop, Concurrency.str_in, Concurrency.selections. cbn [existsb].
  intros H. rewrite !orb_true_iff in *. intuition discriminate.
Qed.

Lemma cpu_selections_end_loop (line : string) :
  Concurrency.str_in line ["5"; "6"] = true -> ends_loop line = true.
Proof.
  unfold ends_loop, Concurrency.str_in, Concurrency.selections. cbn [existsb].
  intros H. rewrite !orb_true_iff in *. intuition discriminate.
Qed.

Section MainCounts.
Import Concurrency.
Variable fetch : string -> option Response.
Variable process_name : nat -> string.
Variable cpu_count : nat.
Variable method : Pool.start_method.
Hypothesis fetch_answers : forall url, In url two_urls -> fetch url <> None.

Lemma findSums_counts (me : nat) (s : State) :
  run_counts (findSums numbers) me s (Returned PyNone) 0 20.
Proof.
  exists (add_trace s (List.map (fun n => (me, Enter_sumOfSquares n)) numbers)),
         (List.map (fun n => (me, Enter_sumOfSquares n)) numbers).
  split; [apply findSums_run|]. split; [reflexivity|].
  assert (H : forall l : list Z,
             downloads (List.map (fun n => (me, Enter_sumOfSquares n)) l) = []
             /\ length (sums (List.map (fun n => (me, Enter_sumOfSquares n)) l))
                = length l).
  { clear. induction l as [|n l [IHd IHs]]; [split; reflexivity|].
    split; [exact IHd|]. unfold sums in *. cbn [List.map omap list_omap snd length].
    rewrite IHs. reflexivity. }
  destruct (H numbers) as [-> ->]. split; reflexivity.
Qed.

Lemma findSumsMultiProcessing_counts (sched : list (nat * nat)) (me : nat) (s : State) :
  run_counts (findSumsMultiProcessing cpu_count method sched numbers) me s (Returned PyNone) 0 20.
Proof.
  destruct (findSumsMultiProcessing_actions cpu_count method sched numbers me s)
    as (s' & new & Hrun & Htr & Hkind & Hlen & _).
  destruct (sum_action_downloads new Hkind) as [Hd Hs].
  exists s', new. split; [exact Hrun|]. split; [exact Htr|].
  rewrite Hd, Hs, Hlen. split; reflexivity.
Qed.

Lemma run_selection_counts (line : string) (o : test_oracle) (me : nat) (s : State) :
  str_in line selections = true ->
  run_counts (run_selection fetch process_name cpu_count method true line o) me s
    (Returned PyNone)
    (if str_in line ["1"; "2"; "3"; "4"] then 160 else 0)
    (if str_in line ["5"; "6"] then 20 else 0).
Proof.
  intros Hline.
  destruct (str_in_selections line Hline) as [-> | [-> | [-> | [-> | [-> | ->]]]]].
  - change (run_counts (URLDownloadSynchronous.testConcurrency1IOBoundSynchronous fetch
                          (duration o)) me s (Returned PyNone) 160 0).
    apply (run_counts_test _ _ _ _ PyNone).
    destruct (sync_workload_run fetch me s fetch_answers) as (s' & new & Hrun & Htr & Hd & Hs).
    exists s', new. rewrite Hs. repeat (split; [assumption|]). reflexivity.
  - change (run_counts (URLDownloadMultiThreaded.testConcurrency2IOBoundThreaded fetch
                          (pool_sched o) (duration o)) me s (Returned PyNone) 160 0).
    apply (run_counts_test _ _ _ _ PyNone).
    destruct (threaded_workload_run fetch (pool_sched o) me s)
      as (s' & new & Hrun & Htr & Hd & Hs).
    exists s', new. rewrite Hs. repeat (split; [assumption|]). reflexivity.
  - change (run_counts (URLDownloadAsyncIO.testConcurrency3IOBoundAsyncIO fetch
                          (loop_sched o) (duration o)) me s (Returned PyNone) 160 0).
    apply (run_counts_test _ _ _ _ PyNone).
    destruct (async_workload_run fetch (loop_sched o) me s)
      as (s' & new & Hrun & Htr & Hd & Hs).
    exists s', new. rewrite Hs. repeat (split; [assumption|]). reflexivity.
  - change (run_counts (testConcurrency4IOBoundMultiProcessing fetch process_name
                          cpu_count method true (pool_sched o) (duration o))
              me s (Returned PyNone) 160 0).
    apply (run_counts_main_test _ _ _ _ PyNone).
    destruct (process_workload_run fetch process_name cpu_count method (pool_sched o) me s
                fetch_answers) as (s' & new & Hrun & Htr & Hd & Hs).
    exists s', new. rewrite Hs. repeat (split; [assumption|]). reflexivity.
  - change (run_counts (print "Performing lengthy CPU operation..." ;;
                        testConcurrency5CPUBoundSynchronous cpu_count method true false
                          (pool_sched o) (duration o))
              me s (Returned PyNone) (0 + 0) (0 + 20)).
    eapply run_counts_bind; [apply run_counts_print|]. intros s1.
    apply (run_counts_main_test _ _ _ _ PyNone). apply findSums_counts.
  - change (run_counts (print "Performing lengthy CPU operation..." ;;
                        testConcurrency5CPUBoundSynchronous cpu_count method true true
                          (pool_sched o) (duration o))
              me s (Returned PyNone) (0 + 0) (0 + 20)).
    eapply run_counts_bind; [apply run_counts_print|]. intros s1.
    apply (run_counts_main_test _ _ _ _ PyNone). apply findSumsMultiProcessing_counts.
Qed.

Lemma main_while_counts (fuel : nat) :
  forall (stdin : list string) (oracles : list test_oracle) (p : string)
         (me : nat) (s : State),
    p <> "q" ->
    length stdin + 2 <= fuel ->
    run_counts (main_while fetch process_name cpu_count method true fuel stdin oracles p) me s
      (if str_in "q" stdin then Returned (Some PyNone) else Raised EOFError)
      (160 * count_in ["1"; "2"; "3"; "4"] (lines_before_quit stdin))
      (20 * count_in ["5"; "6"] (lines_before_quit stdin)).
Proof.
  induction fuel as [|fuel IH]; intros stdin oracles p me s Hp Hfuel; [lia|].
  destruct (rejected_lines_count ["1"; "2"; "3"; "4"] stdin io_selections_end_loop)
    as [Hq Hio].
  destruct (rejected_lines_count ["5"; "6"] stdin cpu_selections_end_loop)
    as [_ Hcpu].
  rewrite Hq, Hio, Hcpu. clear Hq Hio Hcpu.
  destruct (menu_events_quiet me (rejected_lines stdin)) as [Hmd Hms].
  assert (Hlen := remaining_lines_length stdin).
  assert (Hhead := remaining_lines_head stdin).
  unfold run_counts. rewrite main_while_step by exact Hp. cbv zeta.
  destruct (remaining_lines stdin) as [|line after].
  - eexists. eexists. split; [reflexivity|]. split; [reflexivity|].
    rewrite Hmd, Hms. split; reflexivity.
  - cbn [length] in Hlen. specialize (Hhead line after eq_refl).
    destruct (String.eqb line "q") eqn:Hline.
    + apply String.eqb_eq in Hline. subst line. rewrite main_while_quit.
      destruct fuel as [|fuel]; [lia|].
      eexists. eexists. split; [reflexivity|]. split; [reflexivity|].
      rewrite Hmd, Hms. split; reflexivity.
    + assert (Hsel : str_in line selections = true).
      { unfold ends_loop in Hhead. rewrite Hline, orb_false_r in Hhead. exact Hhead. }
      assert (Hne : line <> "q") by (apply String.eqb_neq; exact Hline).
      assert (Hq' : String.eqb "q" line = false) by (rewrite String.eqb_sym; exact Hline).
      remember (flat_map (fun _ => reprompt me) (rejected_lines stdin)
                ++ [(me, Print menu_text); (me, Input prompt_text)]) as menu eqn:Hmenu.
      destruct (run_selection_counts line (hd (mkOracle [] [] "") oracles) me
                  (add_trace s menu) Hsel)
        as (s1 & new1 & Hrun1 & Htr1 & Hd1 & Hk1).
      destruct (IH after (tl oracles) line me s1 Hne ltac:(lia))
        as (s2 & new2 & Hrun2 & Htr2 & Hd2 & Hk2).
      exists s2, (menu ++ new1 ++ new2).
      split.
      { rewrite (bind_returned _ _ _ _ _ _ Hrun1), Hrun2.
        unfold str_in. cbn [existsb]. rewrite Hq'. reflexivity. }
      split.
      { rewrite Htr2, Htr1. cbn [add_trace trace]. rewrite !app_assoc. reflexivity. }
      rewrite !downloads_app, !sums_app, !length_app.
      rewrite Hmd, Hms, Hd1, Hk1, Hd2, Hk2.
      cbn [lines_before_quit]. rewrite Hline, !count_in_cons.
      destruct (str_in line ["1"; "2"; "3"; "4"]), (str_in line ["5"; "6"]);
        cbn [length]; split; lia.
Qed.

End MainCounts.

Lemma intro_run (me : nat) (s : State) :
  Concurrency.intro me s
  = (add_trace s [(me, Print Concurrency.intro_text)], Returned PyNone).
Proof. reflexivity. Qed.

Lemma main_run (fetch : string -> option Response) (process_name : nat -> string)
    (cpu_count : nat) (method : Pool.start_method) (fuel : nat) (stdin : list string)
    (oracles : list Concurrency.test_oracle) (me : nat) (s : State) :
  Concurrency.main fetch process_name cpu_count method true fuel stdin oracles me s
  = Concurrency.main_while fetch process_name cpu_count method true fuel stdin oracles ""
      me (add_trace s [(me, Print Concurrency.intro_text)]).
Proof.
  unfold Concurrency.main. rewrite (bind_returned _ _ _ _ _ _ (intro_run me s)).
  reflexivity.
Qed.

(** X8. How the main block ends, on any network and with any schedulers.
    The loop of the main block is over after at most as many rounds as lines
    are typed, plus two.  The script returns normally only if a 'q' was
    typed; without one, the run ends in an exception (the end of the input,
    or what a test raised).  What is typed after the first 'q' is never
    read: the run is that of the input cut after that 'q'.  A module that is
    imported rather than run does nothing. *)
Theorem main_ends_at_quit (fetch : string -> option Response)
    (process_name : nat -> string) (cpu_count : nat) (method : Pool.start_method) (name_is_main : bool)
    (fuel : nat) (stdin : list string) (oracles : list Concurrency.test_oracle)
    (me : nat) (s : State) :
  length stdin + 2 <= fuel ->
  let run :=
    Concurrency.main fetch process_name cpu_count method name_is_main fuel stdin oracles me s in
  snd run <> Returned None
  /\ (forall v, snd run = Returned (Some v) ->
        v = PyNone /\ (name_is_main = true -> In "q" stdin))
  /\ (name_is_main = true -> ~ In "q" stdin -> exists e, snd run = Raised e)
  /\ (forall before after,
        stdin = before ++ "q" :: after -> ~ In "q" before ->
        run = Concurrency.main fetch process_name cpu_count method name_is_main fuel
                (before ++ ["q"]) oracles me s)
  /\ (name_is_main = false -> run = (s, Returned (Some PyNone))).
Proof.
  intros Hfuel. cbv zeta.
  assert (Hnot : snd (Concurrency.main fetch process_name cpu_count method name_is_main fuel
                        stdin oracles me s) <> Returned None).
  { destruct name_is_main; [|discriminate].
    rewrite main_run. apply main_while_enough_fuel. exact Hfuel. }
  assert (Hret : forall v,
             snd (Concurrency.main fetch process_name cpu_count method name_is_main fuel
                    stdin oracles me s) = Returned (Some v) ->
             v = PyNone /\ (name_is_main = true -> In "q" stdin)).
  { intros v. destruct name_is_main.
    - rewrite main_run. intros Hv.
      destruct (main_while_returns_after_quit fetch process_name cpu_count method true fuel
                  stdin oracles "" me _ v ltac:(discriminate) Hv) as [-> Hq].
      split; [reflexivity|]. intros _. exact Hq.
    - intros [= <-]. split; [reflexivity|discriminate]. }
  split; [exact Hnot|]. split; [exact Hret|].
  split.
  { intros Hmain Hq.
    destruct (snd (Concurrency.main fetch process_name cpu_count method name_is_main fuel
                     stdin oracles me s)) as [[v|]|e] eqn:Hout.
    - exfalso. apply Hq. apply (Hret v eq_refl). exact Hmain.
    - exfalso. apply Hnot. reflexivity.
    - exists e. reflexivity. }
  split.
  { intros before after -> Hq. destruct name_is_main; [|reflexivity].
    rewrite !main_run. apply main_while_after_quit. exact Hq. }
  intros ->. reflexivity.
Qed.

(** A run of X8: the user types an invalid line, then 'q', then '1'; the '1'
    is never read. *)
Lemma main_ends_at_quit_witness :
  Concurrency.main sample_network (fun _ => "worker") 2 Pool.fork true 5 ["7"; "q"; "1"] []
    main_thread initial_state
  = Concurrency.main sample_network (fun _ => "worker") 2 Pool.fork true 5 ["7"; "q"] []
      main_thread initial_state.
Proof.
  pose proof (main_ends_at_quit sample_network (fun _ => "worker") 2 Pool.fork true 5
                ["7"; "q"; "1"] [] main_thread initial_state ltac:(simpl; lia)) as H.
  cbv zeta in H. destruct H as (_ & _ & _ & Hcut & _).
  apply (Hcut ["7"] ["1"]); [reflexivity|].
  intros [H|[]]. discriminate H.
Defined.

(** X9. What the main script does on a network where the two URLs answer,
    with any schedulers.  It starts with the introduction.  Every line
    among '1'..'4' typed before the first 'q' costs 160 calls of
    [downloadSite], every line among '5' and '6' costs 20 calls of
    [sumOfSquares], and the other lines cost none.  The script returns
    normally if a 'q' is typed and ends with [EOFError], raised by [input],
    if the input ends without one. *)
Theorem main_runs_the_selected_tests (fetch : string -> option Response)
    (process_name : nat -> string) (cpu_count : nat) (method : Pool.start_method)
    (fuel : nat) (stdin : list string) (oracles : list Concurrency.test_oracle)
    (me : nat) (s : State) :
  (forall url, In url two_urls -> fetch url <> None) ->
  length stdin + 2 <= fuel ->
  let run := Concurrency.main fetch process_name cpu_count method true fuel stdin oracles me s in
  snd run = (if Concurrency.str_in "q" stdin
             then Returned (Some PyNone) else Raised EOFError)
  /\ head (added s (fst run)) = Some (me, Print Concurrency.intro_text)
  /\ length (downloads (added s (fst run)))
     = 160 * count_in ["1"; "2"; "3"; "4"] (lines_before_quit stdin)
  /\ length (sums (added s (fst run)))
     = 20 * count_in ["5"; "6"] (lines_before_quit stdin).
Proof.
  intros Hgood Hfuel. cbv zeta. rewrite main_run.
  destruct (main_while_counts fetch process_name cpu_count method Hgood fuel stdin oracles ""
              me (add_trace s [(me, Print Concurrency.intro_text)])
              ltac:(discriminate) Hfuel)
    as (s' & new & Hrun & Htr & Hd & Hk).
  rewrite Hrun. cbn [fst snd]. split; [reflexivity|].
  rewrite (added_app s s' ((me, Print Concurrency.intro_text) :: new))
    by (rewrite Htr; cbn [add_trace trace]; rewrite <- app_assoc; reflexivity).
  split; [reflexivity|].
  change ((me, Print Concurrency.intro_text) :: new)
    with ([(me, Print Concurrency.intro_text)] ++ new).
  rewrite downloads_app, sums_app. split; [exact Hd|exact Hk].
Qed.

(** A run of X9: the user asks for the synchronous downloads, then for the
    synchronous sums, then quits. *)
Lemma main_runs_the_selected_tests_witness :
  let run := Concurrency.main (fun _ => Some (mkResponse 3 None)) (fun _ => "worker") 2 Pool.fork
               true 5 ["1"; "5"; "q"] [] main_thread initial_state in
  snd run = Returned (Some PyNone)
  /\ length (downloads (added initial_state (fst run))) = 160
  /\ length (sums (added initial_state (fst run))) = 20.
Proof.
  cbv zeta.
  pose proof (main_runs_the_selected_tests (fun _ => Some (mkResponse 3 None))
                (fun _ => "worker") 2 Pool.fork 5 ["1"; "5"; "q"] [] main_thread initial_state
                ltac:(intros url _; discriminate) ltac:(simpl; lia)) as H.
  cbv zeta in H. destruct H as (Hout & _ & Hd & Hk).
  rewrite Hout, Hd, Hk. split; [reflexivity|]. split; reflexivity.
Defined.

(** ** What the downloads request and print *)


Section EventLoopOutput.
Import asyncio URLDownloadAsyncIO.
Variable fetch : string -> option Response.

Lemma unfinished_step (sites : list string) :
  forall (phases : list phase) (p : nat) (url : string) (ph : phase),
    sites !! p = Some url ->
    phases !! p = Some ph ->
    unfinished_urls sites phases
    ≡ₚ match ph with InFlight => [url] | _ => [] end
        ++ unfinished_urls sites (<[p := next_phase ph]> phases).
Proof.
  unfold unfinished_urls.
  induction sites as [|u sites IH]; intros [|x phases] [|p] url ph Hu Hph;
    try discriminate Hu; try discriminate Hph.
  - injection Hu as ->. injection Hph as ->.
    destruct ph; reflexivity.
  - cbn [lookup list_lookup] in Hu, Hph.
    cbn [list_insert insert zip_with concat].
    change (list_insert p (next_phase ph) phases) with (<[p := next_phase ph]> phases).
    etrans; [apply Permutation_app_head; apply (IH phases p url ph Hu Hph)|].
    rewrite !app_assoc. apply Permutation_app_tail. apply Permutation_app_comm.
Qed.

Lemma none_unfinished_urls (session : nat) (sites : list string) :
  forall (phases : list phase),
    length phases = length sites ->
    length (filter (fun c => unfinished c = true) (tasks_of fetch session sites phases)) = 0 ->
    unfinished_urls sites phases = [].
Proof.
  unfold tasks_of, unfinished_urls.
  induction sites as [|u sites IH]; intros [|ph phases] Hlen Hcount;
    try discriminate Hlen; [reflexivity|].
  injection Hlen as Hlen. cbn [zip_with] in *.
  destruct ph; cbn [task_of] in *.
  - unfold downloadSite in Hcount.
    rewrite filter_cons_True in Hcount by reflexivity. discriminate Hcount.
  - rewrite filter_cons_True in Hcount by reflexivity. discriminate Hcount.
  - rewrite filter_cons_False in Hcount by discriminate.
    cbn [concat app]. apply IH; assumption.
Qed.

Lemma unfinished_urls_all (sites : list string) :
  unfinished_urls sites (replicate (length sites) NotStarted) = sites.
Proof.
  unfold unfinished_urls. induction sites as [|url sites IH]; [reflexivity|].
  cbn [length replicate zip_with concat app]. rewrite IH. reflexivity.
Qed.

Lemma printed_phase_events (me session : nat) (url : string) (ph : phase) :
  printed (phase_events fetch me session url ph)
  = omap (async_read_line fetch) (match ph with InFlight => [url] | _ => [] end).
Proof.
  destruct ph; cbn [phase_events]; unfold start_events, finish_events, async_read_line;
    cbn [omap list_omap]; [reflexivity| |reflexivity].
  destruct (fetch url); reflexivity.
Qed.

(** The lines of the event loop run to the end: one for each task that was
    not finished and whose URL answers. *)
Lemma loop_run_printed (session : nat) (sites : list string) (me : nat)
    (iterations : nat) :
  forall (sched : list nat) (phases : list phase) (s : State),
    length phases = length sites ->
    remaining phases <= iterations ->
    exists new,
      fst (run_loop iterations sched (tasks_of fetch session sites phases) me s)
      = add_trace s new
      /\ printed new ≡ₚ omap (async_read_line fetch) (unfinished_urls sites phases).
Proof.
  induction iterations as [|iterations IH]; intros sched phases s Hlen Hrem.
  - assert (Hzero := remaining_none fetch session sites phases Hlen ltac:(lia)).
    rewrite (none_unfinished_urls session sites phases Hlen Hzero).
    exists []. cbn [run_loop fst]. rewrite add_trace_nil. split; reflexivity.
  - cbn [run_loop].
    destruct (length (filter (fun c => unfinished c = true)
                        (tasks_of fetch session sites phases))) as [|n] eqn:Hcount.
    + rewrite (none_unfinished_urls session sites phases Hlen Hcount).
      exists []. cbn [fst]. rewrite add_trace_nil. split; reflexivity.
    + destruct (advance_nth_tasks fetch session sites phases (hd 0 sched mod S n) me s Hlen)
        as (p & url & ph & Hu & Hph & Hne & Hrun).
      { rewrite Hcount. apply Nat.mod_upper_bound. discriminate. }
      rewrite Hrun.
      destruct (IH (tl sched) (<[p := next_phase ph]> phases)
                  (add_trace s (phase_events fetch me session url ph)))
        as (new & Hloop & Hprinted).
      { rewrite length_insert. exact Hlen. }
      { rewrite (remaining_step phases p ph Hph Hne) in Hrem. lia. }
      exists (phase_events fetch me session url ph ++ new).
      rewrite Hloop, add_trace_app. split; [reflexivity|].
      rewrite printed_app, printed_phase_events.
      etrans; [apply Permutation_app_head; exact Hprinted|].
      rewrite <- omap_app. apply omap_Permutation.
      symmetry. apply unfinished_step; assumption.
Qed.

(** The lines of a run of the asyncio [downloadAllSites], under any
    schedule. *)
Lemma async_output_run (sched : list nat) (sites : list string) (me : nat) (s : State) :
  requests (added s (fst (downloadAllSites fetch sched sites me s))) ≡ₚ sites
  /\ printed (added s (fst (downloadAllSites fetch sched sites me s)))
     ≡ₚ omap (async_read_line fetch) sites.
Proof.
  destruct (async_downloadAllSites_run fetch sched sites me s)
    as (activity & Hrun & _ & _ & Hreqs & _).
  assert (Hprinted : printed activity ≡ₚ omap (async_read_line fetch) sites).
  { revert Hrun.
    unfold downloadAllSites, with_session, finally, new_session, close_session,
      gather_return_exceptions.
    unfold bind at 1 2 3 4. rewrite create_tasks_run, emit_add_trace.
    rewrite add_trace_app, length_map, tasks_of_not_started.
    set (s2 := add_trace _ _).
    destruct (loop_run_printed (next_sid s) sites me (iterations_needed sites) sched
                (replicate (length sites) NotStarted) s2)
      as (new & Hloop & Hnew).
    { apply length_replicate. }
    { rewrite remaining_not_started. unfold iterations_needed. lia. }
    rewrite unfinished_urls_all in Hnew.
    destruct (run_loop (iterations_needed sites) sched
                (tasks_of fetch (next_sid s) sites (replicate (length sites) NotStarted))
                me s2) as [s3 tasks'].
    cbn [fst] in Hloop. subst s3. rewrite emit_add_trace. unfold ret.
    intros Heq. injection Heq as Heq.
    unfold s2 in Heq. cbn [add_trace trace] in Heq.
    rewrite <- !app_assoc in Heq. apply app_inv_head in Heq.
    cbn [app] in Heq. injection Heq as Heq.
    apply app_inv_head in Heq. cbn [app] in Heq. injection Heq as Heq.
    apply app_inv_tail in Heq. subst new. exact Hnew. }
  rewrite Hrun. cbn [fst]. erewrite added_app by reflexivity.
  assert (Hcreate : forall l : list string,
             requests (List.map (fun url => (me, CreateTask url)) l) = []
             /\ printed (List.map (fun url => (me, CreateTask url)) l) = []).
  { induction l as [|u l IH]; [split; reflexivity|exact IH]. }
  destruct (Hcreate sites) as [Hr Hp].
  rewrite !requests_app, !printed_app, Hr, Hp.
  cbn [requests printed omap list_omap snd app]. rewrite !app_nil_r.
  split; assumption.
Qed.

End EventLoopOutput.

Section ProcessPoolOutput.
Import Concurrency.
Variable fetch : string -> option Response.
Variable process_name : nat -> string.
Variable cpu_count : nat.
Variable method : Pool.start_method.

Lemma process_lines_app (a b : list (nat * event)) :
  process_lines fetch process_name (a ++ b)
  = process_lines fetch process_name a ++ process_lines fetch process_name b.
Proof. apply omap_app. Qed.

Lemma process_download_events_output (me session : nat) (sites : list string) :
  requests (flat_map (process_download_events fetch process_name me session) sites)
  = sites
  /\ printed (flat_map (process_download_events fetch process_name me session) sites)
     = process_lines fetch process_name
         (flat_map (process_download_events fetch process_name me session) sites).
Proof.
  induction sites as [|url sites [IHr IHp]]; [split; reflexivity|].
  cbn [flat_map]. rewrite requests_app, printed_app, process_lines_app, IHr, IHp.
  unfold process_download_events, process_lines, requests, printed.
  cbn [app omap list_omap fst snd].
  destruct (fetch url) as [response|] eqn:Hfetch;
    cbn [app omap list_omap fst snd]; rewrite ?Hfetch; split; reflexivity.
Qed.

(** The requests and the lines of a run of the process pool follow its calls
    of [downloadSite], under any schedule. *)
Lemma process_output_run (sched : list (nat * nat)) (sites : list string)
    (me : nat) (s : State) :
  exists (s' : State) (r : outcome pyval) (new : list (nat * event)),
    downloadAllSites fetch process_name cpu_count method sched sites me s = (s', r)
    /\ trace s' = trace s ++ new
    /\ requests new = downloads new
    /\ printed new = process_lines fetch process_name new.
Proof.
  unfold downloadAllSites, Pool.map_and_exit, Pool.new_processes.
  unfold bind at 1 2.
  set (workers := Pool.worker_idents cpu_count).
  set (s0 := mkState (trace s) (next_sid s) (threadLocal_session s)
               (foldr _ (global_session s) workers)).
  set (tasks := Pool.task_batches cpu_count sites).
  set (func := downloadSite fetch process_name).
  pose (Inv := fun (started : list nat) (pending : list (nat * list string))
                   (answers : list (nat * outcome (list pyval))) (st : State) =>
    exists new,
      trace st = trace s ++ new
      /\ requests new = downloads new
      /\ printed new = process_lines fetch process_name new
      /\ (forall w, w < Pool.processes cpu_count -> In w started ->
            is_Some (global_session st !! worker_ident w))).
  destruct (process_pool_invariant cpu_count (Some setGlobalSession) func Inv) with
    (fuel := Pool.processes cpu_count + length tasks) (sched := sched)
    (started := @nil nat) (pending := Pool.index_tasks tasks)
    (answers := @nil (nat * outcome (list pyval))) (s := s0)
    as (started' & new & Htr & Hreq & Hpr & Hsess).
  - (* a worker starts *)
    intros w started pending answers st Hw Hfresh (new & Htr & Hreq & Hpr & Hsess).
    unfold Pool.start_worker. rewrite setGlobalSession_run.
    destruct (global_session st !! worker_ident w) as [stored|] eqn:Hstored; cbn [fst].
    + exists new. repeat (split; [assumption|]).
      intros v Hv [<-|Hin]; [rewrite Hstored; eauto|apply Hsess; assumption].
    + exists (new ++ [(worker_ident w, NewSession (next_sid st))]).
      cbn [trace global_session].
      split; [rewrite Htr, app_assoc; reflexivity|].
      split; [rewrite requests_app, downloads_app, Hreq; reflexivity|].
      split; [rewrite printed_app, process_lines_app, Hpr; reflexivity|].
      intros v Hv Hin. destruct (decide (v = w)) as [->|Hne].
      * rewrite lookup_insert_eq. eauto.
      * rewrite lookup_insert_ne by (unfold worker_ident; congruence).
        destruct Hin as [Heq|Hin]; [congruence|apply Hsess; assumption].
  - (* a started worker runs a chunk *)
    intros w i j chunk started pending answers st Hw Hin Hchunk
      (new & Htr & Hreq & Hpr & Hsess).
    destruct (Hsess w Hw Hin) as [sid Hsid].
    unfold func. rewrite (process_mapstar_run fetch process_name sid chunk _ _ Hsid).
    cbn [fst snd].
    destruct (process_download_events_output (worker_ident w) sid (attempted fetch chunk))
      as (Hr & Hp).
    exists (new ++ flat_map (process_download_events fetch process_name (worker_ident w) sid)
                     (attempted fetch chunk)).
    cbn [add_trace trace global_session].
    split; [rewrite Htr, app_assoc; reflexivity|].
    split.
    { rewrite requests_app, downloads_app, Hreq, Hr,
        downloads_process_download_events. reflexivity. }
    split; [rewrite printed_app, process_lines_app, Hpr, Hp; reflexivity|].
    exact Hsess.
  - constructor.
  - intros w [].
  - unfold Pool.index_tasks. rewrite length_zip_with, length_seq. simpl. lia.
  - (* at the start *)
    exists []. cbn [trace s0]. rewrite app_nil_r.
    split; [reflexivity|]. split; [reflexivity|]. split; [reflexivity|].
    intros w Hw [].
  - (* when map is ready *)
    destruct (Pool.run cpu_count (Some setGlobalSession) func
                (Pool.processes cpu_count + length tasks) sched []
                (Pool.index_tasks tasks) [] s0) as [s' answers].
    cbn [fst snd] in *.
    exists s'.
    exists (match Pool.first_exception answers with
            | Some e => Raised e
            | None => Returned PyNone
            end), new.
    split; [destruct (Pool.first_exception answers); reflexivity|].
    split; [exact Htr|]. split; assumption.
Qed.

End ProcessPoolOutput.

Lemma process_lines_length (fetch : string -> option Response)
    (process_name : nat -> string) (tr : list (nat * event)) :
  length (process_lines fetch process_name tr)
  = length (omap (read_line fetch) (downloads tr)).
Proof.
  induction tr as [|[a ev] tr IH]; [reflexivity|].
  unfold process_lines, downloads, read_line in *. cbn [omap list_omap fst snd].
  destruct ev; try exact IH.
  cbn [omap list_omap]. destruct (fetch _); cbn [length]; rewrite ?IH; reflexivity.
Qed.

(** X10. What the downloads request and print, on any network and under any
    schedule.  Each call of [downloadSite] sends one request for its URL, and
    a line is printed for exactly the downloads that answer.  The thread
    pool and the event loop request every item and print the lines of all
    the items that answer, in some order; a download that raises takes no
    line from the others.  The line of the asyncio module shows the
    Content-Length header where the other modules show the length of the
    body.  The synchronous runner requests and prints in the order of the
    list, up to the first download that raises.  The lines of the process
    pool carry the name of the process that made the call, and there are as
    many as attempted URLs that answer. *)
Theorem downloads_request_and_print (fetch : string -> option Response)
    (process_name : nat -> string) (cpu_count : nat) (method : Pool.start_method) (sites : list string)
    (sched : list (nat * nat)) (loop_sched : list nat) (me : nat) (s : State) :
  let threads_new :=
    added s (fst (URLDownloadMultiThreaded.downloadAllSites fetch sched sites me s)) in
  let loop_new :=
    added s (fst (URLDownloadAsyncIO.downloadAllSites fetch loop_sched sites me s)) in
  let sync_new :=
    added s (fst (URLDownloadSynchronous.downloadAllSites fetch sites me s)) in
  let pool_new :=
    added s (fst (Concurrency.downloadAllSites fetch process_name cpu_count method sched
                    sites me s)) in
  (requests threads_new ≡ₚ sites
   /\ printed threads_new ≡ₚ omap (read_line fetch) sites)
  /\ (requests loop_new ≡ₚ sites
      /\ printed loop_new ≡ₚ omap (async_read_line fetch) sites)
  /\ (requests sync_new = attempted fetch sites
      /\ printed sync_new = omap (read_line fetch) (attempted fetch sites))
  /\ (requests pool_new ≡ₚ flat_map (attempted fetch) (Pool.task_batches cpu_count sites)
      /\ printed pool_new ≡ₚ process_lines fetch process_name pool_new
      /\ length (printed pool_new)
         = length (omap (read_line fetch)
                     (flat_map (attempted fetch) (Pool.task_batches cpu_count sites)))).
Proof.
  cbv zeta. split.
  { destruct (threaded_output_run fetch sched sites me s)
      as (s' & new & Hrun & Htr & Hreq & Hpr).
    destruct (threaded_downloadAllSites_run fetch sched sites me s)
      as (s2 & new2 & Hrun2 & Htr2 & Hcalls & _).
    rewrite Hrun in Hrun2. injection Hrun2 as <-.
    assert (new2 = new) by (eapply same_added; eassumption). subst new2.
    rewrite Hrun. cbn [fst]. rewrite (added_app _ _ _ Htr), Hreq, Hpr.
    split; [exact Hcalls|]. apply omap_Permutation. exact Hcalls. }
  split; [apply async_output_run|].
  split.
  { rewrite sync_added, !requests_app, !printed_app,
      requests_download_events, printed_download_events.
    cbn [requests printed omap list_omap snd app]. rewrite !app_nil_r.
    split; reflexivity. }
  destruct (process_output_run fetch process_name cpu_count method sched sites me s)
    as (s' & r & new & Hrun & Htr & Hreq & Hpr).
  destruct (process_downloadAllSites_run fetch process_name cpu_count method sched sites me s)
    as (s2 & r2 & new2 & Hrun2 & Htr2 & Hcalls & _).
  rewrite Hrun in Hrun2. injection Hrun2 as <- <-.
  assert (new2 = new) by (eapply same_added; eassumption). subst new2.
  rewrite Hrun. cbn [fst]. rewrite (added_app _ _ _ Htr), Hreq, Hpr.
  split; [exact Hcalls|]. split; [reflexivity|].
  rewrite process_lines_length. apply Permutation_length.
  apply omap_Permutation. exact Hcalls.
Qed.
